(** * stream.js: the streaming supervisor of blocktogether

    A shallow embedding of [src/stream.js].  The file is a Node.js
    program: a handful of callbacks that the event loop invokes, which
    share two global objects ([streams] and [updateBlocksTimers]) and
    talk to external collaborators (the database, the Twitter client,
    the action queue, the logger, the timer queue of the runtime).

    - JS objects used as maps are [gmap string _];
    - every callback is a computation in a small state-and-output
      monad [Js]: it reads and writes the globals and emits the list
      of calls it makes to the collaborators;
    - the event loop is a step function over [Event]s, one event per
      callback of the source; the environment may deliver any event
      at any time, and a timer may fire late but never before it is
      due;
    - time is the millisecond clock of the runtime, an integer, and
      it does not advance while a callback runs. *)

From Stdlib Require Import ZArith QArith List Bool String Ascii Lia.
From stdpp Require Import gmap strings list fin_maps.

Close Scope Q_scope.
Open Scope string_scope.
Open Scope Z_scope.
Open Scope list_scope.

(** ** Data *)

(** A row of the [BtUser] table, as Sequelize hands it over. *)
Record BtUser := {
  uid : string;
  access_token : string;
  access_token_secret : string;
  block_new_accounts : bool;
  block_low_followers : bool;
  deactivatedAt : option Z
}.

(** A user object of the Twitter API.  [created_at] is a JS string
    that may be missing; an empty string is falsy as well. *)
Record TwitterUser := {
  id_str : string;
  screen_name : string;
  created_at : option string;
  followers_count : Z
}.

(** A status of the REST timeline. *)
Record Status := {
  status_text : string;
  status_user : TwitterUser
}.

Record DisconnectMsg := { disconnect_code : Z; disconnect_reason : string }.
Record WarningMsg := { warning_code : string; warning_message : string }.

(** A parsed message of the user stream.  The source reads it as a
    duck-typed object, so every field may be absent. *)
Record Payload := {
  disconnect : option DisconnectMsg;
  warning : option WarningMsg;
  event : option string;
  target : option TwitterUser;
  text : option string;
  retweeted_status : option Status;
  user : option TwitterUser
}.

Inductive Cause := NEW_ACCOUNT | LOW_FOLLOWERS.
Inductive ActionType := BLOCK.
Inductive Level := debug | info | warn | error.

(** What [streams] holds: the number 1 under the key 'dummy', and the
    request object of [twitter.getStream] otherwise.  Request objects
    are compared by identity, so each one carries a fresh number. *)
Inductive StreamEntry := Dummy | Request (req : nat).

Global Instance StreamEntry_eq_dec : EqDecision StreamEntry.
Proof. solve_decision. Defined.

(** The three closures the source hands to [setTimeout] and
    [setInterval], with the variables each one captures. *)
Inductive TimerCallback :=
  | StartStreamsTick
  | CooldownRemoval (user : BtUser) (stream : option StreamEntry)
  | UpdateBlocks (user : BtUser).

(** Calls to the outside world, in the order the code makes them. *)
Inductive Effect :=
  | Log (l : Level) (msg : string)
  | FindAll (streamingIds : list string) (limit : nat)
  | GetStream (user : BtUser) (req : nat)
  | ReqSetTimeout (req : nat) (ms : Z)
  | ReqAbort (req : nat)
  | GetTimeline (user : BtUser) (count : nat)
  | VerifyCredentials (user : BtUser)
  | Reload (recipient : BtUser) (mentioningUser : TwitterUser)
           (ageInDays : option Q)
  | QueueActions (source_uid : string) (sinks : list string)
                 (type : ActionType) (cause : Cause)
  | StoreUser (u : TwitterUser)
  | RemoteUpdateBlocks (user : BtUser)
  | SetTimeout (id : nat) (cb : TimerCallback) (delay : Z)
  | SetInterval (id : nat) (cb : TimerCallback) (delay : Z)
  | ClearTimeout (id : nat).

(** A timer waiting in the runtime's queue. *)
Record Timer := {
  tid : nat;
  due : Z;
  callback : TimerCallback;
  repeat_ms : option Z
}.

(** The globals of the module and the part of the runtime they
    depend on. *)
Record State := {
  clock : Z;
  streams : gmap string StreamEntry;
  updateBlocksTimers : gmap string nat;
  timers : list Timer;
  next_timer : nat;
  next_req : nat
}.

(** The BlockCandidate of the specification, read off a call to
    [actions.queueActions]. *)
Record BlockCandidate := {
  bc_recipient : string;
  bc_targets : list string;
  bc_cause : Cause
}.

(** The result the mentions timeline passes to its callback. *)
Inductive TimelineResult :=
  | TimelineError (statusCode : Z)
  | TimelineOk (mentions : list Status).

(** One event per callback of the source. *)
Inductive Event :=
  | ClockAdvance (t : Z)
  | TimerFires (id : nat)
  | FindAllSuccess (users : list BtUser)
  | FindAllError
  | StreamData (user : BtUser) (data : option Payload)
  | StreamEnd (user : BtUser) (statusCode : Z)
  | StreamError (user : BtUser)
  | StreamTimeout (user : BtUser) (req : nat)
  | TimelineDone (user : BtUser) (res : TimelineResult)
  | ReloadSuccess (recipient : BtUser) (mentioningUser : TwitterUser)
                  (ageInDays : option Q).

(** ** The monad of callbacks *)

Definition Js (A : Type) : Type := State -> A * State * list Effect.

Global Instance Js_ret : MRet Js := fun A a s => (a, s, []).
Global Instance Js_bind : MBind Js := fun A B f m s =>
  let r1 := m s in
  let r2 := f r1.1.1 r1.1.2 in
  (r2.1.1, r2.1.2, r1.2 ++ r2.2).

Definition emit (e : Effect) : Js unit := fun s => (tt, s, [e]).
Definition get_state : Js State := fun s => (s, s, []).
Definition put_state (s' : State) : Js unit := fun _ => (tt, s', []).
Definition skip : Js unit := mret tt.

Definition state_of {A} (r : A * State * list Effect) : State := r.1.2.
Definition effects_of {A} (r : A * State * list Effect) : list Effect := r.2.

Fixpoint forEach {A} (l : list A) (f : A -> Js unit) : Js unit :=
  match l with
  | [] => skip
  | x :: l' => f x ;; forEach l' f
  end.

(** Writes to the globals. *)
Definition with_streams (f : gmap string StreamEntry -> gmap string StreamEntry)
    (s : State) : State :=
  {| clock := clock s; streams := f (streams s);
     updateBlocksTimers := updateBlocksTimers s; timers := timers s;
     next_timer := next_timer s; next_req := next_req s |}.

Definition with_updateBlocksTimers (f : gmap string nat -> gmap string nat)
    (s : State) : State :=
  {| clock := clock s; streams := streams s;
     updateBlocksTimers := f (updateBlocksTimers s); timers := timers s;
     next_timer := next_timer s; next_req := next_req s |}.

Definition with_timers (f : list Timer -> list Timer) (s : State) : State :=
  {| clock := clock s; streams := streams s;
     updateBlocksTimers := updateBlocksTimers s; timers := f (timers s);
     next_timer := next_timer s; next_req := next_req s |}.

Definition with_clock (t : Z) (s : State) : State :=
  {| clock := t; streams := streams s;
     updateBlocksTimers := updateBlocksTimers s; timers := timers s;
     next_timer := next_timer s; next_req := next_req s |}.

Definition modify (f : State -> State) : Js unit := fun s => (tt, f s, []).

(** ** The runtime: timers *)

(** [setTimeout] and [setInterval] put a timer in the queue and return
    its handle.  Handles are never reused.  In Node a handle is a
    Timeout object, so it is truthy whatever its number. *)
Definition new_timer (cb : TimerCallback) (delay : Z) (rep : option Z)
    (s : State) : State :=
  {| clock := clock s; streams := streams s;
     updateBlocksTimers := updateBlocksTimers s;
     timers := timers s ++ [ {| tid := next_timer s; due := clock s + delay;
                                callback := cb; repeat_ms := rep |} ];
     next_timer := S (next_timer s); next_req := next_req s |}.

Definition setTimeout (cb : TimerCallback) (delay : Z) : Js nat := fun s =>
  (next_timer s, new_timer cb delay None s, [SetTimeout (next_timer s) cb delay]).

Definition setInterval (cb : TimerCallback) (delay : Z) : Js nat := fun s =>
  (next_timer s, new_timer cb delay (Some delay) s,
   [SetInterval (next_timer s) cb delay]).

(** [clearTimeout] drops the timer with that handle, if it is still
    waiting; on a handle that has fired it does nothing. *)
Definition without_timer (id : nat) (s : State) : State :=
  with_timers (List.filter (fun t => negb (Nat.eqb (tid t) id))) s.

Definition clearTimeout (id : nat) : Js unit := fun s =>
  (tt, without_timer id s, [ClearTimeout id]).

(** ** JS objects whose key order matters *)

(** The own properties of an object in insertion order. *)
Definition JsObject (V : Type) : Type := list (string * V).

Fixpoint obj_set {V} (k : string) (v : V) (o : JsObject V) : JsObject V :=
  match o with
  | [] => [(k, v)]
  | (k', v') :: o' =>
      if String.eqb k k' then (k, v) :: o' else (k', v') :: obj_set k v o'
  end.

Fixpoint obj_get {V} (k : string) (o : JsObject V) : option V :=
  match o with
  | [] => None
  | (k', v') :: o' => if String.eqb k k' then Some v' else obj_get k o'
  end.

(** lodash's [_.indexBy(collection, key)]: [result[value[key]] = value]
    for each element in order, so a later element with the same key
    overwrites an earlier one. *)
Definition indexBy {V} (key : V -> string) (collection : list V) : JsObject V :=
  fold_left (fun o v => obj_set (key v) v o) collection [].

(** [Object.keys] lists the keys that are array indices (canonical
    decimal numbers below 2^32 - 1) in ascending order, then the other
    keys in insertion order. *)
Definition digit_of (c : ascii) : option N :=
  let n := N_of_ascii c in
  if ((48 <=? n) && (n <=? 57))%N then Some (n - 48)%N else None.

Fixpoint parse_digits (s : string) (acc : N) : option N :=
  match s with
  | EmptyString => Some acc
  | String c s' =>
      match digit_of c with
      | Some d => parse_digits s' (acc * 10 + d)%N
      | None => None
      end
  end.

Definition array_index (s : string) : option N :=
  match s with
  | EmptyString => None
  | String c rest =>
      match parse_digits s 0%N with
      | Some n =>
          if (negb (Ascii.eqb c "0"%char) || String.eqb rest "")
             && (n <? 2 ^ 32 - 1)%N
          then Some n else None
      | None => None
      end
  end.

Fixpoint insert_by_index (x : N * string) (l : list (N * string))
    : list (N * string) :=
  match l with
  | [] => [x]
  | y :: l' => if (x.1 <=? y.1)%N then x :: l else y :: insert_by_index x l'
  end.

Definition sort_by_index (l : list (N * string)) : list (N * string) :=
  fold_right insert_by_index [] l.

Definition index_keys (ks : list string) : list (N * string) :=
  flat_map (fun k => match array_index k with
                     | Some n => [(n, k)]
                     | None => []
                     end) ks.

Definition named_keys (ks : list string) : list string :=
  List.filter (fun k => match array_index k with
                        | Some _ => false
                        | None => true
                        end) ks.

Definition Object_keys {V} (o : JsObject V) : list string :=
  map snd (sort_by_index (index_keys (map fst o))) ++ named_keys (map fst o).

(** ** Values of the language *)

(** Truthiness of a string that may be undefined. *)
Definition truthy (s : option string) : bool :=
  match s with
  | Some v => negb (String.eqb v "")
  | None => false
  end.

Definition Qltb (x y : Q) : bool :=
  (Qnum x * Zpos (Qden y) <? Qnum y * Zpos (Qden x))%Z.

(** [x < y] where [x] may be NaN ([None]): a comparison with NaN is
    false. *)
Definition js_lt (x : option Q) (y : Q) : bool :=
  match x with
  | Some q => Qltb q y
  | None => false
  end.

Definition MIN_AGE : Q := 7%Q.
Definition MIN_FOLLOWERS : Z := 15.

(** ** Sample data

    A recipient, three senders and the dates of their accounts; the
    clock of the examples stands at 2026-11-01 00:00:00 UTC. *)

Definition sample_now : Z := 1793491200000.

Definition sample_Date_parse (d : string) : option Z :=
  if String.eqb d "Thu Oct 29 00:00:00 +0000 2026" then Some 1793232000000
  else if String.eqb d "Fri Oct 02 00:00:00 +0000 2026" then Some 1790899200000
  else if String.eqb d "Mon Nov 29 00:00:00 +0000 2010" then Some 1290988800000
  else None.

Definition alice : BtUser :=
  {| uid := "1001"; access_token := "token"; access_token_secret := "secret";
     block_new_accounts := true; block_low_followers := true;
     deactivatedAt := None |}.

Definition bob : BtUser :=
  {| uid := "1002"; access_token := "token2"; access_token_secret := "secret2";
     block_new_accounts := false; block_low_followers := true;
     deactivatedAt := None |}.

Definition carol : BtUser :=
  {| uid := "1003"; access_token := "token3"; access_token_secret := "secret3";
     block_new_accounts := false; block_low_followers := false;
     deactivatedAt := None |}.

Definition dave : BtUser :=
  {| uid := "1004"; access_token := "token4"; access_token_secret := "secret4";
     block_new_accounts := true; block_low_followers := false;
     deactivatedAt := Some 1790899200000 |}.

(** Three days old, five followers. *)
Definition newcomer : TwitterUser :=
  {| id_str := "2002"; screen_name := "newcomer";
     created_at := Some "Thu Oct 29 00:00:00 +0000 2026";
     followers_count := 5 |}.

(** The same account, seen in a later mention with more followers. *)
Definition newcomer_later : TwitterUser :=
  {| id_str := "2002"; screen_name := "newcomer";
     created_at := Some "Thu Oct 29 00:00:00 +0000 2026";
     followers_count := 100 |}.

Definition veteran : TwitterUser :=
  {| id_str := "3003"; screen_name := "veteran";
     created_at := Some "Mon Nov 29 00:00:00 +0000 2010";
     followers_count := 2500 |}.

Definition sample_state : State :=
  {| clock := sample_now; streams := {[ "dummy" := Dummy ]};
     updateBlocksTimers := ∅; timers := [];
     next_timer := 1; next_req := 1 |}.

Definition empty_payload : Payload :=
  {| disconnect := None; warning := None; event := None; target := None;
     text := None; retweeted_status := None; user := None |}.

(** A follow event about [veteran]; a block and an unblock event. *)
Definition follow_event : Payload :=
  {| disconnect := None; warning := None; event := Some "follow";
     target := Some veteran; text := None; retweeted_status := None;
     user := None |}.

Definition block_event : Payload :=
  {| disconnect := None; warning := None; event := Some "block";
     target := Some veteran; text := None; retweeted_status := None;
     user := None |}.

Definition unblock_event : Payload :=
  {| disconnect := None; warning := None; event := Some "unblock";
     target := Some veteran; text := None; retweeted_status := None;
     user := None |}.

(** [newcomer] reshares a post in which [veteran] mentions alice. *)
Definition reshare : Payload :=
  {| disconnect := None; warning := None; event := None; target := None;
     text := Some "RT @veteran: @alice hi";
     retweeted_status := Some {| status_text := "@alice hi";
                                 status_user := veteran |};
     user := Some newcomer |}.

(** A burst: alice's stream echoes a block, and 1500 ms later an
    unblock; the timer armed by the second echo fires 2000 ms after
    it. *)
Definition sample_events : list Event :=
  [ StreamData alice (Some block_event);
    ClockAdvance 1500;
    StreamData alice (Some unblock_event);
    ClockAdvance 3500;
    TimerFires 3 ].

(** The accounts of the table, in the order the database drew. *)
Definition sample_table : list BtUser := [ carol; alice; dave; bob ].

(** Two mentions from the same sender, the most recent first. *)
Definition two_mentions : list Status :=
  [ {| status_text := "@alice again"; status_user := newcomer |};
    {| status_text := "@alice hello"; status_user := newcomer_later |} ].


(** ** What an observer sees *)

(** A run of the event loop is observed through its log: for each
    event, the time at which its callback ran and the calls it made. *)
Record StepRecord := {
  at_time : Z;
  trigger : Event;
  calls : list Effect
}.

(** The BlockCandidates handed to the action queue. *)
Definition block_candidates (out : list Effect) : list BlockCandidate :=
  flat_map (fun e => match e with
                     | QueueActions src sinks BLOCK c =>
                         [ {| bc_recipient := src; bc_targets := sinks;
                              bc_cause := c |} ]
                     | _ => []
                     end) out.

(** The reloads asked for, each with the variables its success
    callback closes over. *)
Definition reload_requests (out : list Effect)
    : list (BtUser * TwitterUser * option Q) :=
  flat_map (fun e => match e with
                     | Reload r m age => [(r, m, age)]
                     | _ => []
                     end) out.

(** The users forwarded to the user cache. *)
Definition stored_users (out : list Effect) : list TwitterUser :=
  flat_map (fun e => match e with StoreUser u => [u] | _ => [] end) out.

(** The accounts for which a stream was opened. *)
Definition opened_streams (out : list Effect) : list BtUser :=
  flat_map (fun e => match e with GetStream u _ => [u] | _ => [] end) out.

Definition is_debounce_for (id : string) (cb : TimerCallback) : bool :=
  match cb with
  | UpdateBlocks u => String.eqb (uid u) id
  | _ => false
  end.

(** A call notifies the debouncer for [id] when it arms the timer of
    [handleBlockEvent] for that account. *)
Definition is_notification (id : string) (e : Effect) : bool :=
  match e with
  | SetTimeout _ cb _ => is_debounce_for id cb
  | _ => false
  end.

Definition is_reconciliation (id : string) (e : Effect) : bool :=
  match e with
  | RemoteUpdateBlocks u => String.eqb (uid u) id
  | _ => false
  end.

(** The times of the notifications for [id] in a log, and the times
    of the calls of [remoteUpdateBlocks] for [id]. *)
Definition notify_times (id : string) (log : list StepRecord) : list Z :=
  flat_map (fun r => map (fun _ => at_time r)
                         (List.filter (is_notification id) (calls r))) log.

Definition reconcile_times (id : string) (log : list StepRecord) : list Z :=
  flat_map (fun r => map (fun _ => at_time r)
                         (List.filter (is_reconciliation id) (calls r))) log.

(** Consecutive times are less than [window] apart. *)
Fixpoint within_window (window : Z) (ts : list Z) : bool :=
  match ts with
  | t :: ((t' :: _) as rest) => (t' - t <? window) && within_window window rest
  | _ => true
  end.

(** The entries of the session registry under an id, and the debounce
    timers waiting for an id. *)
Definition sessions_for (id : string) (s : State) : list (string * StreamEntry) :=
  List.filter (fun kv => String.eqb kv.1 id) (map_to_list (streams s)).

Definition pending_debounce (id : string) (s : State) : list Timer :=
  List.filter (fun t => is_debounce_for id (callback t)) (timers s).

(** The last element of a list of senders with a given id, and the
    first one. *)
Definition last_occurrence (id : string) (l : list TwitterUser) : option TwitterUser :=
  List.find (fun u => String.eqb (id_str u) id) (rev l).

Definition first_occurrence (id : string) (l : list TwitterUser) : option TwitterUser :=
  List.find (fun u => String.eqb (id_str u) id) l.

(** The payload with its author removed. *)
Definition without_author (d : Payload) : Payload :=
  {| disconnect := disconnect d; warning := warning d; event := event d;
     target := target d; text := text d;
     retweeted_status := retweeted_status d; user := None |}.

(** ** Invariants of the timer queue *)

(** Handles are unique and were all issued already; a debounce timer
    that is waiting for an account is the one that
    [updateBlocksTimers] records for it; and a handle recorded for an
    account is the handle of no other timer. *)
Definition timers_wf (s : State) : Prop :=
  NoDup (map tid (timers s))
  /\ (forall t, t ∈ timers s -> (tid t < next_timer s)%nat)
  /\ (forall id n, updateBlocksTimers s !! id = Some n -> (n < next_timer s)%nat)
  /\ (forall t u, t ∈ timers s -> callback t = UpdateBlocks u ->
                  updateBlocksTimers s !! uid u = Some (tid t)
                  /\ repeat_ms t = None)
  /\ (forall id t, updateBlocksTimers s !! id = Some (tid t) -> t ∈ timers s ->
                   exists u, callback t = UpdateBlocks u /\ uid u = id).

(** Calls that concern the debouncer. *)
Definition is_debounce_call (e : Effect) : bool :=
  match e with
  | SetTimeout _ (UpdateBlocks _) _ => true
  | RemoteUpdateBlocks _ => true
  | _ => false
  end.

Definition quiet (out : list Effect) : Prop :=
  forallb (fun e => negb (is_debounce_call e)) out = true.

(** Where the debouncer of an account stands: nothing is waiting and
    no notification was seen; a timer is waiting since the
    notification at time [l]; the timer armed at [l] has fired. *)
Inductive DebounceStatus :=
  | Idle
  | Armed (l : Z)
  | Fired (l : Z).

Definition status_ok (id : string) (s : State) (st : DebounceStatus) : Prop :=
  match st with
  | Idle => pending_debounce id s = []
  | Armed l => exists t, pending_debounce id s = [t]
                         /\ due t = l + 2000 /\ l <= clock s
  | Fired l => pending_debounce id s = [] /\ l + 2000 <= clock s
  end.

Definition last_notified (st : DebounceStatus) : list Z :=
  match st with
  | Idle => []
  | Armed l | Fired l => [l]
  end.

(** ** Further observations and invariants *)

(** The accounts whose credentials are checked again. *)
Definition verified_users (out : list Effect) : list BtUser :=
  flat_map (fun e => match e with VerifyCredentials u => [u] | _ => [] end) out.

(** The queries sent to the database: the ids to leave out, and the
    limit. *)
Definition queries (out : list Effect) : list (list string * nat) :=
  flat_map (fun e => match e with FindAll ids n => [(ids, n)] | _ => [] end) out.

(** The connections a run has opened for an account and has not
    seen end: each call of [twitter.getStream] in the log opens one,
    and each call of [endCallback] is the end of one. *)
Definition opened_for (id : string) (log : list StepRecord) : nat :=
  length (List.filter (fun u => String.eqb (uid u) id)
                      (opened_streams (flat_map calls log))).

Definition ended_for (id : string) (log : list StepRecord) : nat :=
  length (List.filter (fun r => match trigger r with
                                | StreamEnd u _ => String.eqb (uid u) id
                                | _ => false
                                end) log).

Definition live_sessions (id : string) (log : list StepRecord) : nat :=
  opened_for id log - ended_for id log.

(** The times at which streams of an account ended with a given
    status. *)
Definition ended_at (id : string) (statusCode : Z) (log : list StepRecord)
    : list Z :=
  flat_map (fun r => match trigger r with
                     | StreamEnd u c =>
                         if String.eqb (uid u) id && (c =? statusCode)
                         then [at_time r] else []
                     | _ => []
                     end) log.

(** An account is cooling until [limit]: it has its entry in the
    registry, and no cooldown timer of the account is due before
    [limit]. *)
Definition cooling (id : string) (limit : Z) (s : State) : Prop :=
  is_Some (streams s !! id)
  /\ forall t u stream, t ∈ timers s -> callback t = CooldownRemoval u stream ->
                        uid u = id -> limit <= due t.

(** A stream of the account ends with a status other than 420. *)
Definition ends_otherwise (id : string) (e : Event) : bool :=
  match e with
  | StreamEnd u statusCode => String.eqb (uid u) id && negb (statusCode =? 420)
  | _ => false
  end.

(** The registry has its 'dummy' entry, and no cooldown timer is
    about an account with that id. *)
Definition dummy_kept (s : State) : Prop :=
  streams s !! "dummy" = Some Dummy
  /\ forall t u stream, t ∈ timers s -> callback t = CooldownRemoval u stream ->
                        uid u <> "dummy".

(** The timer of the sampler.  It stays armed when exactly one such
    timer waits, as an interval of 1000 ms, due within the next
    second. *)
Definition is_sampler (t : Timer) : bool :=
  match callback t with
  | StartStreamsTick => true
  | _ => false
  end.

Definition sampler_armed (s : State) : Prop :=
  exists t, List.filter is_sampler (timers s) = [t]
            /\ repeat_ms t = Some 1000
            /\ due t <= clock s + 1000.

(** Every request object the program still refers to, in the registry
    or in the closure of a cooldown timer, was created already. *)
Definition requests_fresh (s : State) : Prop :=
  (forall k r, streams s !! k = Some (Request r) -> (r < next_req s)%nat)
  /\ (forall t u r, t ∈ timers s ->
                    callback t = CooldownRemoval u (Some (Request r)) ->
                    (r < next_req s)%nat).

(** The distinct elements of a list, in the order of their first
    appearance. *)
Definition first_seen (ids : list string) : list string :=
  fold_left (fun acc k => if bool_decide (k ∈ acc) then acc else acc ++ [k])
            ids [].

(** The time of the notification whose timer is waiting. *)
Definition armed_at (st : DebounceStatus) : list Z :=
  match st with
  | Armed l => [l]
  | _ => []
  end.

(** The ids of the accounts an event is about. *)
Definition event_uids (e : Event) : list string :=
  match e with
  | ClockAdvance _ | TimerFires _ | FindAllError => []
  | FindAllSuccess users => map uid users
  | StreamData u _ | StreamEnd u _ | StreamError u | StreamTimeout u _
  | TimelineDone u _ | ReloadSuccess u _ _ => [uid u]
  end.

(** More sample data: an old account with few followers. *)
Definition lurker : TwitterUser :=
  {| id_str := "4004"; screen_name := "lurker";
     created_at := Some "Mon Nov 29 00:00:00 +0000 2010";
     followers_count := 3 |}.

(** A timeline whose sender ids are too large to be array indices:
    two senders, the first of them twice. *)
Definition recent_sender : TwitterUser :=
  {| id_str := "1793491200000000001"; screen_name := "recent";
     created_at := Some "Thu Oct 29 00:00:00 +0000 2026";
     followers_count := 40 |}.

Definition recent_sender_later : TwitterUser :=
  {| id_str := "1793491200000000001"; screen_name := "recent";
     created_at := Some "Thu Oct 29 00:00:00 +0000 2026";
     followers_count := 41 |}.

Definition other_sender : TwitterUser :=
  {| id_str := "1793491200000000002"; screen_name := "other";
     created_at := Some "Mon Nov 29 00:00:00 +0000 2010";
     followers_count := 9 |}.

Definition recent_mentions : list Status :=
  [ {| status_text := "@alice one"; status_user := recent_sender |};
    {| status_text := "@alice two"; status_user := other_sender |};
    {| status_text := "@alice three"; status_user := recent_sender_later |} ].

(** ** The callbacks of stream.js *)

Section Stream.

(** [Date.parse]: the timestamp in milliseconds of a date string, or
    NaN ([None]) when the string is not a date. *)
Variable Date_parse : string -> option Z.

(** [(new Date() - Date.parse(created_at)) / 86400 / 1000], taken as
    an exact quotient.  The difference is a whole number of
    milliseconds, so the double the source computes is below 7
    exactly when this quotient is (see [age_below_MIN_AGE]). *)
Definition ageInDays (now : Z) (created : option string) : option Q :=
  match created with
  | Some c =>
      match Date_parse c with
      | Some t => Some (inject_Z (now - t) / 86400 / 1000)%Q
      | None => None
      end
  | None => None
  end.

(** [Object.keys(streams)].  The ids are listed in the order of the
    finite map, which need not be the order of [Object.keys]; they
    are only ever tested for membership. *)
Definition keys_of_streams (m : gmap string StreamEntry) : list string :=
  (map_to_list m).*1.

(** The [where] clause of the query in [startStreams]. *)
Definition startStreams_where (streamingIds : list string) (u : BtUser) : bool :=
  negb (bool_decide (uid u ∈ streamingIds))
  && bool_decide (deactivatedAt u = None)
  && (block_new_accounts u || block_low_followers u).

(** What the database answers to [findAll] with that clause,
    [limit: 10] and [order: 'RAND()']: the first [limit] rows that
    satisfy the clause, the table being read in the random order the
    database drew.  It stands for the database only in what it says
    of the rows that are returned, and for a list of ids that is not
    empty. *)
Definition findAll (streamingIds : list string) (limit : nat)
    (table_in_rand_order : list BtUser) : list BtUser :=
  take limit (List.filter (startStreams_where streamingIds) table_in_rand_order).

Definition startStreams : Js unit :=
  s ← get_state;
  let streamingIds := keys_of_streams (streams s) in
  emit (Log info "Active streams / open sockets:");;
  emit (FindAll streamingIds 10).

Definition enqueueBlock (sourceUser : BtUser) (sinkUserId : string)
    (cause : Cause) : Js unit :=
  emit (QueueActions (uid sourceUser) [sinkUserId] BLOCK cause).

(** The function passed to [recipientBtUser.reload().success].
    [reload] refreshes the object in place and then runs the
    function, so [recipientBtUser] stands here for the object with
    the values just read from the database; [age] and
    [mentioningUser] are the variables the closure captured.  The
    source registers no error callback on the reload (see
    [reload_listeners]). *)
Definition reload_success (recipientBtUser : BtUser)
    (mentioningUser : TwitterUser) (age : option Q) : Js unit :=
  if js_lt age MIN_AGE && block_new_accounts recipientBtUser then
    emit (Log info "Queuing block");;
    enqueueBlock recipientBtUser (id_str mentioningUser) NEW_ACCOUNT
  else if (followers_count mentioningUser <? MIN_FOLLOWERS)
          && block_low_followers recipientBtUser then
    emit (Log info "Queuing block");;
    enqueueBlock recipientBtUser (id_str mentioningUser) LOW_FOLLOWERS
  else skip.

Definition checkReplyAndBlock (recipientBtUser : BtUser)
    (mentioningUser : option TwitterUser) : Js unit :=
  match mentioningUser with
  | Some m =>
      if truthy (created_at m)
         && negb (String.eqb (id_str m) (uid recipientBtUser)) then
        s ← get_state;
        let age := ageInDays (clock s) (created_at m) in
        emit (Log info "got at reply from");;
        if js_lt age MIN_AGE || (followers_count m <? MIN_FOLLOWERS) then
          emit (Reload recipientBtUser m age)
        else skip
      else skip
  | None => skip
  end.

(** A mention handled from start to end.  In the source the two
    halves are apart in time: [checkReplyAndBlock] asks for the
    reload, and the database answers later.  [evaluate] puts them
    together: [checkReplyAndBlock], then, for the reload it asked
    for, the success callback on the row that [reload] returns.  When
    the reload fails no callback of stream.js runs, so [evaluate]
    adds no call; what the runtime does with the error is not part
    of [evaluate] (see [emit_error] and [reload_listeners]). *)
Definition evaluate (recipientBtUser : BtUser)
    (mentioningUser : option TwitterUser)
    (reload : BtUser -> option BtUser) : Js unit :=
  fun s =>
    let r1 := checkReplyAndBlock recipientBtUser mentioningUser s in
    let r2 := forEach (reload_requests (effects_of r1))
                (fun '(r, m, age) =>
                   match reload r with
                   | Some reloaded => reload_success reloaded m age
                   | None => skip
                   end) (state_of r1) in
    (tt, state_of r2, effects_of r1 ++ effects_of r2).

(** [checkPastMentions] asks for the timeline; its callback is
    [checkPastMentions_callback]. *)
Definition checkPastMentions (user : BtUser) : Js unit :=
  emit (GetTimeline user 50).

Definition mentioningUsers (mentions : list Status) : JsObject TwitterUser :=
  indexBy id_str (map status_user mentions).

(** The arguments of the calls of [checkReplyAndBlock] that the
    [forEach] over [Object.keys(mentioningUsers)] makes, in order
    (see [checkPastMentions_callback_replayed]). *)
Definition replayed (mentions : list Status) : list (option TwitterUser) :=
  map (fun k => obj_get k (mentioningUsers mentions))
      (Object_keys (mentioningUsers mentions)).

Definition checkPastMentions_callback (user : BtUser) (res : TimelineResult)
    : Js unit :=
  match res with
  | TimelineError _ => emit (Log error "Error /statuses/mentions")
  | TimelineOk mentions =>
      emit (Log debug "Replaying past mentions");;
      let mentioningUsers := mentioningUsers mentions in
      forEach (Object_keys mentioningUsers)
              (fun id_str => checkReplyAndBlock user (obj_get id_str mentioningUsers))
  end.

(** [twitter.getStream] opens a connection and returns its request
    object, a new one at each call. *)
Definition getStream (user : BtUser) : Js nat := fun s =>
  (next_req s,
   {| clock := clock s; streams := streams s;
      updateBlocksTimers := updateBlocksTimers s;
      timers := timers s; next_timer := next_timer s;
      next_req := S (next_req s) |},
   [GetStream user (next_req s)]).

Definition startStream (user : BtUser) : Js unit :=
  emit (Log info "Starting stream for user");;
  req ← getStream user;
  emit (ReqSetTimeout req 70000);;
  modify (with_streams (insert (uid user) (Request req)));;
  checkPastMentions user.

(** The callbacks [startStream] registers on the request. *)
Definition req_error (user : BtUser) : Js unit :=
  emit (Log error "Socket error for").

Definition req_timeout (user : BtUser) (req : nat) : Js unit :=
  emit (Log error "Stream timeout for user");;
  emit (ReqAbort req).

(** The closure [endCallback] hands to [setTimeout]. *)
Definition cooldown_removal (user : BtUser) (stream : option StreamEntry)
    : Js unit :=
  s ← get_state;
  if decide (stream = streams s !! uid user) then
    modify (with_streams (delete (uid user)))
  else
    emit (Log error "Tried to delete stream but it had already been replaced").

Definition endCallback (user : BtUser) (statusCode : Z) : Js unit :=
  emit (Log warn "Ending stream for");;
  (if (statusCode =? 401) || (statusCode =? 403)
   then emit (VerifyCredentials user) else skip);;
  if statusCode =? 420 then
    s ← get_state;
    let stream := streams s !! uid user in
    _ ← setTimeout (CooldownRemoval user stream) (15 * 60 * 1000);
    skip
  else
    modify (with_streams (delete (uid user))).

Definition handleBlockEvent (recipientBtUser : BtUser) : Js unit :=
  s ← get_state;
  (match updateBlocksTimers s !! uid recipientBtUser with
   | Some timerId => clearTimeout timerId
   | None => skip
   end);;
  id ← setTimeout (UpdateBlocks recipientBtUser) 2000;
  modify (with_updateBlocksTimers (insert (uid recipientBtUser) id)).

Definition dataCallback (recipientBtUser : BtUser) (data : option Payload)
    : Js unit :=
  match data with
  | None => skip
  | Some data =>
      match disconnect data with
      | Some d =>
          emit (Log warn "disconnect message:");;
          if (disconnect_code d =? 6) || (disconnect_code d =? 13)
             || (disconnect_code d =? 14)
          then emit (VerifyCredentials recipientBtUser) else skip
      | None =>
          match warning data with
          | Some w =>
              if String.eqb (warning_code w) "FOLLOWS_OVER_LIMIT" then skip
              else emit (Log warn "Stream warning for")
          | None =>
              if truthy (event data) then
                emit (Log debug "event");;
                (match target data with
                 | Some t => emit (StoreUser t)
                 | None => skip
                 end);;
                if bool_decide (event data = Some "unblock")
                   || bool_decide (event data = Some "block")
                then handleBlockEvent recipientBtUser else skip
              else if truthy (text data)
                      && negb (bool_decide (is_Some (retweeted_status data)))
                      && bool_decide (is_Some (user data))
              then checkReplyAndBlock recipientBtUser (user data)
              else skip
          end
      end
  end.

(** ** The event loop *)

Definition run_timer (cb : TimerCallback) : Js unit :=
  match cb with
  | StartStreamsTick => startStreams
  | CooldownRemoval u stream => cooldown_removal u stream
  | UpdateBlocks u => emit (RemoteUpdateBlocks u)
  end.

Definition find_timer (id : nat) (l : list Timer) : option Timer :=
  List.find (fun t => Nat.eqb (tid t) id) l.

(** When a timer fires it leaves the queue, or is put back a period
    later if it is an interval, and its callback runs.  A timer never
    fires before it is due. *)
Definition rearm (now : Z) (t : Timer) : list Timer :=
  match repeat_ms t with
  | Some period => [ {| tid := tid t; due := now + period;
                        callback := callback t; repeat_ms := repeat_ms t |} ]
  | None => []
  end.

Definition fire (id : nat) (s : State) : option (State * list Effect) :=
  match find_timer id (timers s) with
  | Some t =>
      if due t <=? clock s then
        let s1 := with_timers (fun l => l ++ rearm (clock s) t)
                              (without_timer id s) in
        let r := run_timer (callback t) s1 in
        Some (state_of r, effects_of r)
      else None
  | None => None
  end.

Definition run (m : Js unit) (s : State) : option (State * list Effect) :=
  Some (state_of (m s), effects_of (m s)).

Definition step (s : State) (e : Event) : option (State * list Effect) :=
  match e with
  | ClockAdvance t =>
      if clock s <=? t then Some (with_clock t s, []) else None
  | TimerFires id => fire id s
  | FindAllSuccess users => run (forEach users startStream) s
  | FindAllError => run (emit (Log error "findAll")) s
  | StreamData u data => run (dataCallback u data) s
  | StreamEnd u statusCode => run (endCallback u statusCode) s
  | StreamError u => run (req_error u) s
  | StreamTimeout u req => run (req_timeout u req) s
  | TimelineDone u res => run (checkPastMentions_callback u res) s
  | ReloadSuccess r m age => run (reload_success r m age) s
  end.

(** The body of the module: the globals are initialised, then
    [startStreams(); setInterval(startStreams, 1000)]. *)
Definition blank (t0 : Z) : State :=
  {| clock := t0; streams := {[ "dummy" := Dummy ]};
     updateBlocksTimers := ∅; timers := [];
     next_timer := 1; next_req := 1 |}.

Definition main : Js unit :=
  startStreams;;
  _ ← setInterval StartStreamsTick 1000;
  skip.

Definition boot (t0 : Z) : State := state_of (main (blank t0)).

Inductive reachable : State -> Prop :=
  | reachable_boot t0 : reachable (boot t0)
  | reachable_step s e s' out :
      reachable s -> step s e = Some (s', out) -> reachable s'.

(** A run of the event loop from a state, with its log. *)
Fixpoint exec (s : State) (evs : list Event) : option (State * list StepRecord) :=
  match evs with
  | [] => Some (s, [])
  | e :: evs' =>
      match step s e with
      | Some (s', out) =>
          match exec s' evs' with
          | Some (s'', log) =>
              Some (s'', {| at_time := clock s'; trigger := e; calls := out |} :: log)
          | None => None
          end
      | None => None
      end
  end.

(** What a step of the event loop may do to the timer queue and to
    [updateBlocksTimers]: nothing; arm the cooldown of [endCallback];
    run [handleBlockEvent]; or let a timer fire. *)
Inductive TimerChange (s s' : State) (out : list Effect) : Prop :=
  | change_none :
      timers s' = timers s ->
      updateBlocksTimers s' = updateBlocksTimers s ->
      next_timer s' = next_timer s ->
      quiet out ->
      TimerChange s s' out
  | change_cooldown u stream :
      clock s' = clock s ->
      timers s' = timers s
                  ++ [ {| tid := next_timer s; due := clock s + 15 * 60 * 1000;
                          callback := CooldownRemoval u stream;
                          repeat_ms := None |} ] ->
      updateBlocksTimers s' = updateBlocksTimers s ->
      next_timer s' = S (next_timer s) ->
      quiet out ->
      TimerChange s s' out
  | change_notify u pre :
      quiet pre ->
      out = pre ++ effects_of (handleBlockEvent u s) ->
      s' = state_of (handleBlockEvent u s) ->
      TimerChange s s' out
  | change_fire id t :
      find_timer id (timers s) = Some t ->
      due t <= clock s ->
      clock s' = clock s ->
      timers s' = timers (without_timer id s) ++ rearm (clock s) t ->
      updateBlocksTimers s' = updateBlocksTimers s ->
      next_timer s' = next_timer s ->
      match callback t with
      | UpdateBlocks u => out = [RemoteUpdateBlocks u]
      | _ => quiet out
      end ->
      TimerChange s s' out.

(** ** The emitters of Sequelize

    [findAll] and [reload] return an emitter, on which [.success(f)]
    and [.error(f)] register [f] for the 'success' and for the
    'error' event.  The emitter is Node's EventEmitter: an 'error'
    event for which no listener is registered is thrown, and as
    nothing in stream.js catches it, it is an uncaught exception of
    the event loop.  A 'success' event without listener is dropped. *)
Record Listeners (A : Type) := {
  on_success : option (A -> Js unit);
  on_error : option (Js unit)
}.

Arguments on_success {A} _.
Arguments on_error {A} _.

Inductive Delivery :=
  | Ran (r : unit * State * list Effect)
  | Uncaught.

Definition emit_success {A} (l : Listeners A) (v : A) (s : State) : Delivery :=
  match on_success l with
  | Some f => Ran (f v s)
  | None => Ran (skip s)
  end.

Definition emit_error {A} (l : Listeners A) (s : State) : Delivery :=
  match on_error l with
  | Some f => Ran (f s)
  | None => Uncaught
  end.

(** Lines 75 to 79: [findAll(...).error(...).success(...)]. *)
Definition findAll_listeners : Listeners (list BtUser) :=
  {| on_success := Some (fun users => forEach users startStream);
     on_error := Some (emit (Log error "findAll")) |}.

(** Lines 275 to 285: [recipientBtUser.reload().success(...)], and
    nothing else. *)
Definition reload_listeners (mentioningUser : TwitterUser) (age : option Q)
    : Listeners BtUser :=
  {| on_success := Some (fun user => reload_success user mentioningUser age);
     on_error := None |}.

(** ** Reasoning about callbacks *)

Ltac js_unfold :=
  unfold evaluate, checkReplyAndBlock, reload_success, enqueueBlock,
    handleBlockEvent, endCallback, cooldown_removal, startStreams,
    checkPastMentions, checkPastMentions_callback, req_error, req_timeout,
    modify, clearTimeout,
    setTimeout, setInterval, skip, emit, get_state, put_state,
    effects_of, state_of, mbind, Js_bind, mret, Js_ret in *.

Lemma Qltb_lt (x y : Q) : Qltb x y = true <-> (x < y)%Q.
Proof. unfold Qltb, Qlt. apply Z.ltb_lt. Qed.

(** The age in days is below seven exactly when the account was
    created less than 604800000 ms ago. *)
Lemma age_below_MIN_AGE (now t : Z) :
  Qltb (inject_Z (now - t) / 86400 / 1000)%Q MIN_AGE = true
  <-> now - t < 7 * 86400 * 1000.
Proof.
  rewrite Qltb_lt. unfold MIN_AGE, Qlt, Qdiv, Qmult, Qinv, inject_Z. simpl.
  lia.
Qed.

(** ** The Block Decision Engine *)

(** C1: when the sender is less than 7 days old and has fewer than 15
    followers, the engine reloads the recipient, and the reloaded
    recipient has both block_new_accounts and block_low_followers
    set, exactly one BlockCandidate is enqueued and its cause is
    NEW_ACCOUNT; and whatever the mention, the recipient and the
    outcome of the reload, at most one BlockCandidate is enqueued. *)
Theorem C1_age_takes_priority :
  (forall s recipient m age reloaded reload,
      ageInDays (clock s) (created_at m) = Some age ->
      (age < MIN_AGE)%Q ->
      followers_count m < MIN_FOLLOWERS ->
      In (Reload recipient m (Some age))
         (effects_of (checkReplyAndBlock recipient (Some m) s)) ->
      reload recipient = Some reloaded ->
      block_new_accounts reloaded = true ->
      block_low_followers reloaded = true ->
      block_candidates (effects_of (evaluate recipient (Some m) reload s))
      = [ {| bc_recipient := uid reloaded; bc_targets := [id_str m];
             bc_cause := NEW_ACCOUNT |} ])
  /\ (forall s recipient mentioningUser reload,
        (length (block_candidates
                   (effects_of (evaluate recipient mentioningUser reload s)))
         <= 1)%nat).
Proof.
  split.
  - intros s recipient m age reloaded reload Hage Hlt Hfol Hin Hrel Hnew Hlow.
    apply Qltb_lt in Hlt.
    js_unfold. simpl in *.
    destruct (truthy (created_at m)
              && negb (String.eqb (id_str m) (uid recipient))); simpl in *.
    + rewrite Hage in *. simpl in *. rewrite Hlt in *. simpl in *.
      rewrite Hrel. simpl. rewrite Hlt, Hnew. simpl. reflexivity.
    + contradiction.
  - intros s recipient [m|] reload; js_unfold; simpl; [|lia].
    destruct (truthy (created_at m)
              && negb (String.eqb (id_str m) (uid recipient))); simpl; [|lia].
    destruct (js_lt _ _ || _); simpl; [|lia].
    destruct (reload recipient) as [r|]; simpl; [|lia].
    destruct (js_lt _ _ && _); simpl; [lia|].
    destruct (_ && _); simpl; lia.
Qed.

(** The engine asks for a reload exactly when the sender is present,
    has a creation date, is not the recipient, and meets a threshold. *)
Lemma reload_requested_iff s recipient m :
  In (Reload recipient m (ageInDays (clock s) (created_at m)))
     (effects_of (checkReplyAndBlock recipient (Some m) s))
  <-> truthy (created_at m) = true
      /\ id_str m <> uid recipient
      /\ (js_lt (ageInDays (clock s) (created_at m)) MIN_AGE = true
          \/ followers_count m < MIN_FOLLOWERS).
Proof.
  js_unfold. simpl.
  destruct (truthy (created_at m)); simpl; [|intuition congruence].
  destruct (String.eqb_spec (id_str m) (uid recipient)) as [E|E]; simpl;
    [intuition congruence|].
  destruct (js_lt _ _) eqn:Ha; simpl; [intuition|].
  destruct (Z.ltb_spec (followers_count m) MIN_FOLLOWERS); simpl.
  - intuition.
  - split; [intros [?|[]]; congruence|].
    intros (_ & _ & [?|?]); [congruence|lia].
Qed.

(** The events of the event loop for the database are the listeners
    of the two emitters. *)
Lemma listeners_step s :
  (forall users,
      emit_success findAll_listeners users s
      = Ran (forEach users startStream s)
      /\ step s (FindAllSuccess users)
         = Some (state_of (forEach users startStream s),
                 effects_of (forEach users startStream s)))
  /\ (forall r m age,
        emit_success (reload_listeners m age) r s = Ran (reload_success r m age s)
        /\ step s (ReloadSuccess r m age)
           = Some (state_of (reload_success r m age s),
                   effects_of (reload_success r m age s)))
  /\ emit_error findAll_listeners s = Ran (tt, s, [Log error "findAll"])
  /\ step s FindAllError = Some (s, [Log error "findAll"]).
Proof. done. Qed.

(** C7: the claim is what the code should do and does not.  For a
    sender that is present, has a creation date, is not the
    recipient and meets a threshold, [checkReplyAndBlock] logs the
    mention and asks for the reload, enqueues nothing itself and
    leaves the state as it is; on the emitter of the reload it
    registers the success callback only (line 275).  When the reload
    fails, the 'error' event finds no listener: it is not dropped
    but thrown, an uncaught exception of the event loop, so the
    decision is not abandoned with the rest of the core left as it
    is.  The query of [startStreams] has an error callback (line
    75): its failure is logged and changes nothing. *)
Theorem C7_failed_reload_is_uncaught :
  forall s recipient m,
    truthy (created_at m) = true ->
    id_str m <> uid recipient ->
    ((exists age, ageInDays (clock s) (created_at m) = Some age
                  /\ (age < MIN_AGE)%Q)
     \/ followers_count m < MIN_FOLLOWERS) ->
    effects_of (checkReplyAndBlock recipient (Some m) s)
    = [ Log info "got at reply from";
        Reload recipient m (ageInDays (clock s) (created_at m)) ]
    /\ state_of (checkReplyAndBlock recipient (Some m) s) = s
    /\ (forall s',
          emit_error (reload_listeners m (ageInDays (clock s) (created_at m))) s'
          = Uncaught)
    /\ (forall s', emit_error findAll_listeners s'
                   = Ran (tt, s', [Log error "findAll"])).
Proof.
  intros s recipient m Hc Hid Hth.
  assert (Hreq : js_lt (ageInDays (clock s) (created_at m)) MIN_AGE
                 || (followers_count m <? MIN_FOLLOWERS) = true).
  { destruct Hth as [(age & Ha & Hlt)|Hf].
    - rewrite Ha. simpl. apply Qltb_lt in Hlt. by rewrite Hlt.
    - apply Z.ltb_lt in Hf. rewrite Hf. apply orb_true_r. }
  apply String.eqb_neq in Hid.
  split_and!; [| |done|done].
  - unfold checkReplyAndBlock. rewrite Hc, Hid. simpl.
    js_unfold. simpl. by rewrite Hreq.
  - unfold checkReplyAndBlock. rewrite Hc, Hid. simpl.
    js_unfold. simpl. by rewrite Hreq.
Qed.

(** C9: when the actor record is absent, or its id is the recipient's,
    or it has no creation timestamp, the engine asks for no reload
    and enqueues no BlockCandidate (it does nothing at all). *)
Theorem C9_skipped_mentions :
  forall s recipient mentioningUser reload,
    (mentioningUser = None
     \/ exists m, mentioningUser = Some m
                  /\ (id_str m = uid recipient
                      \/ truthy (created_at m) = false)) ->
    effects_of (checkReplyAndBlock recipient mentioningUser s) = []
    /\ reload_requests (effects_of (evaluate recipient mentioningUser reload s)) = []
    /\ block_candidates (effects_of (evaluate recipient mentioningUser reload s)) = []
    /\ state_of (evaluate recipient mentioningUser reload s) = s.
Proof.
  intros s recipient mu reload [-> | (m & -> & H)]; js_unfold; simpl; [done|].
  destruct H as [H | H].
  - rewrite H, String.eqb_refl, andb_false_r. done.
  - rewrite H. done.
Qed.

(** ** The Event Classifier *)

Lemma handleBlockEvent_effects u s :
  effects_of (handleBlockEvent u s)
  = match updateBlocksTimers s !! uid u with
    | Some id => [ClearTimeout id]
    | None => []
    end ++ [SetTimeout (next_timer s) (UpdateBlocks u) 2000].
Proof. js_unfold; simpl. by destruct (updateBlocksTimers s !! uid u). Qed.

Lemma handleBlockEvent_state u s :
  state_of (handleBlockEvent u s)
  = with_updateBlocksTimers (insert (uid u) (next_timer s))
      (new_timer (UpdateBlocks u) 2000 None
         (match updateBlocksTimers s !! uid u with
          | Some id => without_timer id s
          | None => s
          end)).
Proof. js_unfold; simpl. by destruct (updateBlocksTimers s !! uid u). Qed.

(** The branch of [dataCallback] for events. *)
Lemma dataCallback_event r d s :
  disconnect d = None -> warning d = None -> truthy (event d) = true ->
  let notify := bool_decide (event d = Some "unblock")
                || bool_decide (event d = Some "block") in
  effects_of (dataCallback r (Some d) s)
  = Log debug "event"
    :: match target d with Some t => [StoreUser t] | None => [] end
    ++ (if notify then effects_of (handleBlockEvent r s) else [])
  /\ state_of (dataCallback r (Some d) s)
     = if notify then state_of (handleBlockEvent r s) else s.
Proof.
  intros Hd Hw Hev notify. unfold dataCallback. rewrite Hd, Hw, Hev.
  fold notify. destruct notify; destruct (target d); done.
Qed.

(** C6: a payload with a text and an author that carries the reshare
    marker is not passed to the Decision Engine: no reload is asked
    for and no BlockCandidate is enqueued, and the callback does
    exactly what it does on the same payload without its author. *)
Theorem C6_reshare_not_a_mention :
  forall s recipient d,
    truthy (text d) = true ->
    is_Some (user d) ->
    is_Some (retweeted_status d) ->
    reload_requests (effects_of (dataCallback recipient (Some d) s)) = []
    /\ block_candidates (effects_of (dataCallback recipient (Some d) s)) = []
    /\ dataCallback recipient (Some d) s
       = dataCallback recipient (Some (without_author d)) s.
Proof.
  intros s recipient d Htext Huser Hrt.
  unfold dataCallback. simpl.
  rewrite (bool_decide_eq_true_2 _ Hrt), andb_false_r. simpl.
  destruct (disconnect d) as [dm|].
  { split_and!; [| |done]; js_unfold; simpl; by destruct (_ || _). }
  destruct (warning d) as [w|].
  { split_and!; [| |done]; by destruct (String.eqb _ _). }
  destruct (truthy (event d)); [|done].
  split_and!; [| |done].
  - js_unfold; simpl.
    destruct (target d); simpl; destruct (_ || _); simpl; try done;
      by destruct (updateBlocksTimers s !! uid recipient).
  - js_unfold; simpl.
    destruct (target d); simpl; destruct (_ || _); simpl; try done;
      by destruct (updateBlocksTimers s !! uid recipient).
Qed.

(** C10: a payload carrying an event marker is a message that the
    classifier of [dataCallback] takes as an event: its [event] field
    names an event (a non-empty string, the test of line 229), and it
    is neither a disconnect nor a warning notice, which the stream
    sends as messages of their own and which the classifier tests
    first.  For such a payload with a target, the target is
    forwarded to the user cache whatever the event type, and the
    debouncer is notified exactly when the event is block or
    unblock. *)
Theorem C10_event_target_is_cached :
  forall s recipient d t,
    disconnect d = None ->
    warning d = None ->
    truthy (event d) = true ->
    target d = Some t ->
    stored_users (effects_of (dataCallback recipient (Some d) s)) = [t]
    /\ (existsb (is_notification (uid recipient))
                (effects_of (dataCallback recipient (Some d) s)) = true
        <-> (event d = Some "block" \/ event d = Some "unblock")).
Proof.
  intros s recipient d t Hd Hw Hev Ht.
  destruct (dataCallback_event recipient d s Hd Hw Hev) as [-> _].
  rewrite Ht, handleBlockEvent_effects. simpl.
  destruct (bool_decide (event d = Some "unblock")) eqn:E1; simpl.
  - apply bool_decide_eq_true_1 in E1.
    destruct (updateBlocksTimers s !! uid recipient); simpl;
      rewrite String.eqb_refl; simpl; intuition.
  - apply bool_decide_eq_false_1 in E1.
    destruct (bool_decide (event d = Some "block")) eqn:E2; simpl.
    + apply bool_decide_eq_true_1 in E2.
      destruct (updateBlocksTimers s !! uid recipient); simpl;
        rewrite String.eqb_refl; simpl; intuition.
    + apply bool_decide_eq_false_1 in E2. split; [done|].
      split; [done|]. intros [?|?]; congruence.
Qed.

(** ** The Catch-up Fetcher *)

Lemma forEach_map {A B} (g : A -> B) (f : B -> Js unit) (l : list A) :
  forEach (map g l) f = forEach l (fun x => f (g x)).
Proof. induction l as [|x l IH]; simpl; [done|]. by rewrite IH. Qed.

(** The replay of the timeline calls [checkReplyAndBlock] on the
    elements of [replayed], one after the other. *)
Lemma checkPastMentions_callback_replayed user mentions :
  checkPastMentions_callback user (TimelineOk mentions)
  = (emit (Log debug "Replaying past mentions");;
     forEach (replayed mentions) (checkReplyAndBlock user)).
Proof. unfold checkPastMentions_callback, replayed. by rewrite forEach_map. Qed.

Lemma obj_get_set {V} (k k' : string) (v : V) (o : JsObject V) :
  obj_get k (obj_set k' v o)
  = if String.eqb k k' then Some v else obj_get k o.
Proof.
  induction o as [|[k0 v0] o IH]; simpl.
  - done.
  - destruct (String.eqb_spec k' k0) as [->|Hne]; simpl.
    + by destruct (String.eqb k k0).
    + rewrite IH. destruct (String.eqb_spec k k0) as [->|?]; [|done].
      destruct (String.eqb_spec k0 k'); congruence.
Qed.

Lemma obj_set_keys {V} (k : string) (v : V) (o : JsObject V) :
  (obj_set k v o).*1 = if bool_decide (k ∈ o.*1) then o.*1 else o.*1 ++ [k].
Proof.
  induction o as [|[k0 v0] o IH]; csimpl.
  - done.
  - destruct (String.eqb_spec k k0) as [->|Hne]; csimpl.
    + rewrite bool_decide_eq_true_2; [done|]. apply elem_of_cons; auto.
    + rewrite IH. destruct (decide (k ∈ o.*1)) as [Hin|Hin].
      * rewrite !bool_decide_eq_true_2; [done| |done].
        apply elem_of_cons; auto.
      * rewrite !bool_decide_eq_false_2; [done| |done].
        rewrite elem_of_cons. intros [?|?]; congruence.
Qed.

Lemma find_app {A} (p : A -> bool) (l1 l2 : list A) :
  List.find p (l1 ++ l2)
  = match List.find p l1 with Some x => Some x | None => List.find p l2 end.
Proof. induction l1 as [|a l1 IH]; simpl; [done|]. by destruct (p a). Qed.

Section IndexBy.
Context {V : Type} (key : V -> string).

Let add (o : JsObject V) (v : V) := obj_set (key v) v o.

Lemma indexBy_get_acc (l : list V) (acc : JsObject V) (k : string) :
  obj_get k (fold_left add l acc)
  = match List.find (fun v => String.eqb (key v) k) (rev l) with
    | Some v => Some v
    | None => obj_get k acc
    end.
Proof.
  revert acc. induction l as [|a l IH]; intros acc; simpl; [done|].
  rewrite IH, find_app. simpl.
  destruct (List.find _ (rev l)); [done|].
  unfold add. rewrite obj_get_set, String.eqb_sym.
  by destruct (String.eqb (key a) k).
Qed.

Lemma indexBy_keys_acc (l : list V) (acc : JsObject V) :
  NoDup acc.*1 ->
  NoDup (fold_left add l acc).*1
  /\ forall k, k ∈ (fold_left add l acc).*1 <-> k ∈ acc.*1 \/ k ∈ key <$> l.
Proof.
  clear Date_parse.
  revert acc. induction l as [|a l IH]; intros acc Hnd; simpl.
  - split; [done|]. intros k. rewrite elem_of_nil. tauto.
  - assert (Hnd' : NoDup (add acc a).*1 /\
                   forall k, k ∈ (add acc a).*1 <-> k ∈ acc.*1 \/ k = key a).
    { unfold add. rewrite obj_set_keys. case_bool_decide as Hin.
      - split; [done|]. intros k. split; [auto|]. intros [?| ->]; done.
      - split.
        + apply NoDup_app. split_and!; [done| |apply NoDup_singleton].
          intros x Hx Hx'. apply list_elem_of_singleton in Hx'. by subst.
        + intros k. rewrite elem_of_app, list_elem_of_singleton. tauto. }
    destruct Hnd' as [Hnd' Hk]. destruct (IH _ Hnd') as [IH1 IH2].
    split; [done|]. intros k. rewrite IH2, Hk, elem_of_cons. tauto.
Qed.
End IndexBy.

Lemma insert_by_index_perm x l : insert_by_index x l ≡ₚ x :: l.
Proof.
  induction l as [|y l IH]; simpl; [done|].
  destruct (_ <=? _)%N; [done|]. rewrite IH. apply Permutation_swap.
Qed.

Lemma sort_by_index_perm l : sort_by_index l ≡ₚ l.
Proof.
  induction l as [|x l IH]; simpl; [done|].
  rewrite insert_by_index_perm. by rewrite IH.
Qed.

Lemma key_order_perm (ks : list string) :
  map snd (sort_by_index (index_keys ks)) ++ named_keys ks ≡ₚ ks.
Proof.
  rewrite sort_by_index_perm. unfold index_keys, named_keys.
  induction ks as [|k ks IH]; simpl; [done|].
  destruct (array_index k); simpl.
  - by rewrite IH.
  - rewrite <- Permutation_middle. by apply Permutation_skip.
Qed.

Lemma Object_keys_perm {V} (o : JsObject V) : Object_keys o ≡ₚ o.*1.
Proof. apply key_order_perm. Qed.

Lemma all_Some_map {A} (l : list (option A)) :
  (forall o, o ∈ l -> is_Some o) -> exists l', l = map Some l'.
Proof.
  induction l as [|o l IH]; intros H.
  - by exists [].
  - destruct (H o) as [a ->]; [apply elem_of_cons; auto|].
    destruct IH as [l' ->]; [intros; apply H, elem_of_cons; auto|].
    by exists (a :: l').
Qed.

Lemma map_Some_ids (g : string -> option TwitterUser) keys reps :
  map g keys = map Some reps ->
  (forall k u, g k = Some u -> id_str u = k) ->
  map id_str reps = keys.
Proof.
  revert reps. induction keys as [|k keys IH]; intros [|u reps] Heq Hg;
    simpl in *; try done.
  injection Heq as Hk Hrest. f_equal; [by apply Hg | by apply IH].
Qed.

Lemma mentioningUsers_get (mentions : list Status) (k : string) :
  obj_get k (mentioningUsers mentions)
  = last_occurrence k (map status_user mentions).
Proof.
  unfold mentioningUsers, indexBy, last_occurrence.
  rewrite indexBy_get_acc. simpl. by destruct (List.find _ _).
Qed.

Lemma last_occurrence_id k l u :
  last_occurrence k l = Some u -> id_str u = k /\ u ∈ l.
Proof.
  unfold last_occurrence. intros H. apply find_some in H as [Hin Heq].
  apply String.eqb_eq in Heq. split; [done|].
  apply list_elem_of_In. by apply in_rev.
Qed.

(** C3 (amended): each distinct sender id of the timeline is handed to
    the Decision Engine exactly once, and the record handed over for
    a sender is the last occurrence of that sender id in the list. *)
Theorem C3_replay_each_sender_once_last_record :
  forall mentions : list Status,
    exists reps : list TwitterUser,
      replayed mentions = map Some reps
      /\ NoDup (map id_str reps)
      /\ (forall id, id ∈ map id_str reps
                     <-> id ∈ map id_str (map status_user mentions))
      /\ (forall u, u ∈ reps ->
                    last_occurrence (id_str u) (map status_user mentions)
                    = Some u).
Proof.
  intros mentions.
  pose proof (indexBy_keys_acc id_str (map status_user mentions) [])
    as [Hnd Hkeys]; [apply NoDup_nil_2|].
  fold (indexBy id_str (map status_user mentions)) in Hnd, Hkeys.
  fold (mentioningUsers mentions) in Hnd, Hkeys.
  assert (Hsome : forall o, o ∈ replayed mentions -> is_Some o).
  { intros o Ho. unfold replayed in Ho.
    apply list_elem_of_In, in_map_iff in Ho as (k & <- & Hk).
    apply list_elem_of_In in Hk. rewrite Object_keys_perm in Hk.
    apply Hkeys in Hk as [Hk|Hk]; [by apply elem_of_nil in Hk|].
    rewrite mentioningUsers_get. unfold last_occurrence.
    apply list_elem_of_In, in_map_iff in Hk as (u & Hu & Hin).
    destruct (List.find _ _) eqn:Hf; [done|].
    eapply find_none in Hf; [|apply in_rev; rewrite rev_involutive; exact Hin].
    simpl in Hf. rewrite Hu, String.eqb_refl in Hf. done. }
  destruct (all_Some_map _ Hsome) as [reps Hreps].
  assert (Hids : map id_str reps = Object_keys (mentioningUsers mentions)).
  { apply (map_Some_ids (fun k => obj_get k (mentioningUsers mentions)));
      [exact Hreps|].
    intros k u Hg. rewrite mentioningUsers_get in Hg.
    by apply last_occurrence_id in Hg as [? _]. }
  exists reps. split_and!; [done| | |].
  - rewrite Hids, Object_keys_perm. done.
  - intros id. rewrite Hids, Object_keys_perm, Hkeys, elem_of_nil.
    unfold fmap, list_fmap. split; [by intros [[]|?] | by right].
  - intros u Hu.
    assert (Hin : Some u ∈ replayed mentions).
    { rewrite Hreps. apply list_elem_of_In, in_map. by apply list_elem_of_In. }
    unfold replayed in Hin.
    apply list_elem_of_In, in_map_iff in Hin as (k & Hk & _).
    rewrite mentioningUsers_get in Hk.
    destruct (last_occurrence_id _ _ _ Hk) as [<- _]. done.
Qed.

(** ** The Candidate Sampler *)

Lemma keys_of_streams_elem (m : gmap string StreamEntry) (k : string) :
  k ∈ keys_of_streams m <-> is_Some (m !! k).
Proof.
  unfold keys_of_streams. rewrite list_elem_of_fmap. split.
  - intros ([k' x] & -> & Hin). apply elem_of_map_to_list in Hin. by exists x.
  - intros [x Hx]. exists (k, x). split; [done|]. by apply elem_of_map_to_list.
Qed.

Lemma startStreams_where_spec (s : State) (u : BtUser) :
  startStreams_where (keys_of_streams (streams s)) u = true
  <-> streams s !! uid u = None
      /\ deactivatedAt u = None
      /\ (block_new_accounts u = true \/ block_low_followers u = true).
Proof.
  unfold startStreams_where.
  rewrite !andb_true_iff, negb_true_iff, orb_true_iff, bool_decide_eq_false,
    bool_decide_eq_true, keys_of_streams_elem, <- eq_None_not_Some.
  tauto.
Qed.

Lemma startStream_effects (u : BtUser) (s : State) :
  effects_of (startStream u s)
  = [ Log info "Starting stream for user"; GetStream u (next_req s);
      ReqSetTimeout (next_req s) 70000; GetTimeline u 50 ].
Proof. reflexivity. Qed.

Lemma startStream_state (u : BtUser) (s : State) :
  state_of (startStream u s)
  = {| clock := clock s;
       streams := <[uid u := Request (next_req s)]> (streams s);
       updateBlocksTimers := updateBlocksTimers s; timers := timers s;
       next_timer := next_timer s; next_req := S (next_req s) |}.
Proof. reflexivity. Qed.

Lemma forEach_cons {A} (f : A -> Js unit) (x : A) (l : list A) (s : State) :
  effects_of (forEach (x :: l) f s)
  = effects_of (f x s) ++ effects_of (forEach l f (state_of (f x s)))
  /\ state_of (forEach (x :: l) f s)
     = state_of (forEach l f (state_of (f x s))).
Proof. done. Qed.

Lemma opened_streams_app (l1 l2 : list Effect) :
  opened_streams (l1 ++ l2) = opened_streams l1 ++ opened_streams l2.
Proof. apply flat_map_app. Qed.

Lemma forEach_startStream_opened (users : list BtUser) (s : State) :
  opened_streams (effects_of (forEach users startStream s)) = users.
Proof.
  revert s. induction users as [|u users IH]; intros s; [done|].
  destruct (forEach_cons startStream u users s) as [-> _].
  rewrite opened_streams_app, IH, startStream_effects. done.
Qed.

Lemma forEach_startStream_registered (users : list BtUser) (s : State) (k : string) :
  (k ∈ map uid users ->
   exists req, streams (state_of (forEach users startStream s)) !! k
               = Some (Request req))
  /\ (k ∉ map uid users ->
      streams (state_of (forEach users startStream s)) !! k = streams s !! k).
Proof.
  revert s. induction users as [|u users IH]; intros s.
  - split; [by intros ?%elem_of_nil|done].
  - destruct (forEach_cons startStream u users s) as [_ ->].
    destruct (IH (state_of (startStream u s))) as [IH1 IH2].
    destruct (decide (k ∈ map uid users)) as [Hin|Hin].
    + split; [auto|]. intros Hn. exfalso. apply Hn. simpl.
      apply elem_of_cons. auto.
    + rewrite (IH2 Hin), startStream_state. simpl. split.
      * intros [Hk|?]%elem_of_cons; [|done]. subst k.
        rewrite lookup_insert_eq. eauto.
      * intros Hn. rewrite lookup_insert_ne; [done|].
        intros Hk. apply Hn, elem_of_cons. auto.
Qed.

Lemma find_timer_rearmed (id : nat) (l : list Timer) (t' : Timer) :
  tid t' = id ->
  find_timer id (List.filter (fun t => negb (Nat.eqb (tid t) id)) l ++ [t'])
  = Some t'.
Proof.
  intros Hid. unfold find_timer. rewrite find_app.
  destruct (List.find _ (List.filter _ l)) as [t|] eqn:Hf.
  - apply find_some in Hf as [Hin Heq].
    apply filter_In in Hin as [_ Hne]. rewrite Heq in Hne. done.
  - simpl. by rewrite Hid, Nat.eqb_refl.
Qed.

(** C8: the sampler is armed as an interval of 1000 ms, and each time
    it fires it runs [startStreams] and is put back 1000 ms later;
    [startStreams] asks for at most 10 accounts; every account the
    query selects has no entry in the session registry, is not
    deactivated and has at least one of block_new_accounts and
    block_low_followers set; and a stream is opened and registered
    for each selected account. *)
Theorem C8_sampler_selects_eligible_accounts :
  (forall t0,
      timers (boot t0)
      = [ {| tid := 1; due := t0 + 1000; callback := StartStreamsTick;
             repeat_ms := Some 1000 |} ])
  /\ (forall s t,
        find_timer (tid t) (timers s) = Some t ->
        callback t = StartStreamsTick ->
        repeat_ms t = Some 1000 ->
        due t <= clock s ->
        exists s',
          step s (TimerFires (tid t)) = Some (s', effects_of (startStreams s))
          /\ streams s' = streams s
          /\ find_timer (tid t) (timers s')
             = Some {| tid := tid t; due := clock s + 1000;
                       callback := StartStreamsTick;
                       repeat_ms := Some 1000 |})
  /\ (forall s table,
        let streamingIds := keys_of_streams (streams s) in
        let users := findAll streamingIds 10 table in
        effects_of (startStreams s)
        = [ Log info "Active streams / open sockets:"; FindAll streamingIds 10 ]
        /\ (length users <= 10)%nat
        /\ (forall u, u ∈ users ->
              u ∈ table
              /\ streams s !! uid u = None
              /\ deactivatedAt u = None
              /\ (block_new_accounts u = true \/ block_low_followers u = true))
        /\ (forall s',
              opened_streams (effects_of (forEach users startStream s')) = users
              /\ forall u, u ∈ users ->
                   exists req,
                     streams (state_of (forEach users startStream s')) !! uid u
                     = Some (Request req))).
Proof.
  split_and!.
  - done.
  - intros s t Hfind Hcb Hrep Hdue.
    eexists. split_and!.
    + simpl. unfold fire. rewrite Hfind.
      apply Z.leb_le in Hdue. rewrite Hdue, Hcb. simpl. reflexivity.
    + done.
    + simpl. unfold rearm. rewrite Hrep, Hcb. by apply find_timer_rearmed.
  - intros s table streamingIds users. split_and!.
    + done.
    + unfold users, findAll. rewrite length_take. lia.
    + intros u Hu. unfold users, findAll in Hu.
      apply elem_of_take in Hu as (i & Hi & _).
      apply list_elem_of_lookup_2, list_elem_of_In, filter_In in Hi as [Hin Hw].
      apply startStreams_where_spec in Hw. split; [|done].
      by apply list_elem_of_In.
    + intros s'. split; [apply forEach_startStream_opened|].
      intros u Hu. apply forEach_startStream_registered.
      apply list_elem_of_In, in_map. by apply list_elem_of_In.
Qed.

(** ** The Connection Supervisor *)

(** What [endCallback] and the timer it arms do, handler by handler.
    A termination with status 420 leaves the registry as it is and
    arms a timer due 15 minutes later, which cannot fire before it
    is due; when it fires, the entry is removed if the registry
    still maps the account id to the object that was captured, and
    otherwise an error is logged and nothing changes; a termination
    with any other status removes the entry at once. *)
Lemma endCallback_by_status :
  (forall u s,
      streams (state_of (endCallback u 420 s)) = streams s
      /\ timers (state_of (endCallback u 420 s))
         = timers s
           ++ [ {| tid := next_timer s; due := clock s + 15 * 60 * 1000;
                   callback := CooldownRemoval u (streams s !! uid u);
                   repeat_ms := None |} ])
  /\ (forall s tm u stream,
        find_timer (tid tm) (timers s) = Some tm ->
        callback tm = CooldownRemoval u stream ->
        repeat_ms tm = None ->
        (clock s < due tm -> step s (TimerFires (tid tm)) = None)
        /\ (due tm <= clock s ->
            step s (TimerFires (tid tm))
            = Some (state_of (cooldown_removal u stream (without_timer (tid tm) s)),
                    effects_of (cooldown_removal u stream (without_timer (tid tm) s)))))
  /\ (forall u stream s,
        (stream = streams s !! uid u ->
         streams (state_of (cooldown_removal u stream s))
         = delete (uid u) (streams s)
         /\ effects_of (cooldown_removal u stream s) = [])
        /\ (stream <> streams s !! uid u ->
            state_of (cooldown_removal u stream s) = s
            /\ effects_of (cooldown_removal u stream s)
               = [ Log error
                     "Tried to delete stream but it had already been replaced" ]))
  /\ (forall u statusCode s,
        statusCode <> 420 ->
        streams (state_of (endCallback u statusCode s))
        = delete (uid u) (streams s)
        /\ timers (state_of (endCallback u statusCode s)) = timers s
        /\ streams (state_of (endCallback u statusCode s)) !! uid u = None).
Proof.
  split_and!.
  - intros u s. done.
  - intros s tm u stream Hfind Hcb Hrep. simpl. unfold fire. rewrite Hfind.
    split; intros Hdue.
    + apply Z.leb_gt in Hdue. by rewrite Hdue.
    + apply Z.leb_le in Hdue. rewrite Hdue, Hcb. unfold rearm. rewrite Hrep.
      simpl. unfold without_timer, with_timers. simpl.
      by rewrite app_nil_r.
  - intros u stream s. js_unfold. simpl. split; intros H.
    + by rewrite decide_True.
    + by rewrite decide_False.
  - intros u statusCode s Hne. js_unfold. simpl.
    apply Z.eqb_neq in Hne. rewrite Hne.
    destruct (_ || _); simpl; rewrite lookup_delete_eq; done.
Qed.

(** ** What a step does to the timers *)

Lemma quiet_app (l1 l2 : list Effect) : quiet l1 -> quiet l2 -> quiet (l1 ++ l2).
Proof. unfold quiet. rewrite forallb_app. by intros -> ->. Qed.

Lemma checkReplyAndBlock_frame r mu s :
  state_of (checkReplyAndBlock r mu s) = s
  /\ quiet (effects_of (checkReplyAndBlock r mu s)).
Proof.
  destruct mu as [m|]; js_unfold; simpl; [|done].
  destruct (truthy _ && _); simpl; [|done].
  by destruct (js_lt _ _ || _).
Qed.

Lemma forEach_checkReplyAndBlock_frame r (l : list (option TwitterUser)) s :
  state_of (forEach l (checkReplyAndBlock r) s) = s
  /\ quiet (effects_of (forEach l (checkReplyAndBlock r) s)).
Proof.
  induction l as [|mu l [IH1 IH2]]; [done|].
  destruct (forEach_cons (checkReplyAndBlock r) mu l s) as [-> ->].
  destruct (checkReplyAndBlock_frame r mu s) as [-> Hq].
  split; [done|]. by apply quiet_app.
Qed.

Lemma forEach_startStream_frame (users : list BtUser) (s : State) :
  clock (state_of (forEach users startStream s)) = clock s
  /\ timers (state_of (forEach users startStream s)) = timers s
  /\ updateBlocksTimers (state_of (forEach users startStream s))
     = updateBlocksTimers s
  /\ next_timer (state_of (forEach users startStream s)) = next_timer s
  /\ quiet (effects_of (forEach users startStream s)).
Proof.
  revert s. induction users as [|u users IH]; intros s; [done|].
  destruct (forEach_cons startStream u users s) as [-> ->].
  destruct (IH (state_of (startStream u s))) as (-> & -> & -> & -> & Hq).
  repeat (split; [done|]). by apply quiet_app.
Qed.

Lemma handleBlockEvent_clock u s :
  clock (state_of (handleBlockEvent u s)) = clock s.
Proof.
  rewrite handleBlockEvent_state.
  by destruct (updateBlocksTimers s !! uid u).
Qed.

Ltac frame :=
  js_unfold; simpl;
  repeat match goal with
         | |- context [if ?b then _ else _] => destruct b; simpl
         | |- context [match ?o with Some _ => _ | None => _ end] =>
             destruct o; simpl
         end;
  (split; [done | by apply change_none]).

Lemma step_change s e s' out :
  step s e = Some (s', out) -> clock s <= clock s' /\ TimerChange s s' out.
Proof.
  destruct e as [t|id|users| |u data|u statusCode|u|u req|u res|r m age];
    simpl; unfold run.
  - destruct (Z.leb_spec (clock s) t); [|done].
    intros [= <- <-]. split; [done|]. by apply change_none.
  - unfold fire. destruct (find_timer id (timers s)) as [t|] eqn:Hfind; [|done].
    destruct (Z.leb_spec (due t) (clock s)) as [Hdue|]; [|done].
    intros [= <- <-].
    destruct (callback t) as [|u stream|u] eqn:Hcb.
    + split; [done|]. eapply change_fire; eauto. by rewrite Hcb.
    + simpl. unfold cooldown_removal, mbind, Js_bind, get_state. simpl.
      destruct (decide _); simpl.
      * split; [done|]. eapply change_fire; eauto. by rewrite Hcb.
      * split; [done|]. eapply change_fire; eauto. by rewrite Hcb.
    + split; [done|]. eapply change_fire; eauto. by rewrite Hcb.
  - intros [= <- <-].
    destruct (forEach_startStream_frame users s) as (Hc & Ht & Hu & Hn & Hq).
    split; [by rewrite Hc|]. by apply change_none.
  - intros [= <- <-]. frame.
  - intros [= <- <-].
    destruct data as [d|]; [|frame].
    destruct (disconnect d) as [dm|] eqn:Hd.
    { unfold dataCallback. rewrite Hd. frame. }
    destruct (warning d) as [w|] eqn:Hw.
    { unfold dataCallback. rewrite Hd, Hw. frame. }
    destruct (truthy (event d)) eqn:Hev.
    { destruct (dataCallback_event u d s Hd Hw Hev) as [-> ->].
      destruct (_ || _).
      - split; [by rewrite handleBlockEvent_clock|].
        eapply (change_notify _ _ _ u
                  (Log debug "event"
                   :: match target d with Some t => [StoreUser t] | None => [] end));
          [by destruct (target d)|done|done].
      - split; [done|]. apply change_none; try done. by destruct (target d). }
    unfold dataCallback. rewrite Hd, Hw, Hev.
    destruct (_ && _).
    + destruct (checkReplyAndBlock_frame u (user d) s) as [-> Hq].
      split; [done|]. by apply change_none.
    + frame.
  - intros [= <- <-]. js_unfold. simpl.
    destruct (Z.eqb_spec statusCode 420) as [->|Hne]; simpl.
    + split; [done|]. by eapply change_cooldown.
    + frame.
  - intros [= <- <-]. frame.
  - intros [= <- <-]. frame.
  - intros [= <- <-]. destruct res as [code|mentions].
    + frame.
    + rewrite checkPastMentions_callback_replayed.
      unfold mbind, Js_bind, state_of, effects_of. simpl.
      destruct (forEach_checkReplyAndBlock_frame u (replayed mentions) s)
        as [Hs Hq]. unfold state_of, effects_of in Hs, Hq.
      rewrite Hs. split; [done|]. by apply change_none.
  - intros [= <- <-]. frame.
Qed.

(** ** The invariant of the timer queue *)

Lemma elem_of_List_filter {A} (p : A -> bool) (l : list A) (x : A) :
  x ∈ List.filter p l <-> x ∈ l /\ p x = true.
Proof. rewrite !list_elem_of_In. apply filter_In. Qed.

Lemma NoDup_map_filter {A B} (f : A -> B) (p : A -> bool) (l : list A) :
  NoDup (map f l) -> NoDup (map f (List.filter p l)).
Proof.
  induction l as [|x l IH]; simpl; [done|].
  intros [Hx Hl]%NoDup_cons. destruct (p x); simpl; [|auto].
  apply NoDup_cons. split; [|auto].
  intros Hin. apply Hx.
  apply list_elem_of_In, in_map_iff in Hin as (y & Hy & Hin).
  apply filter_In in Hin as [Hin _].
  apply list_elem_of_In, in_map_iff. eauto.
Qed.

Lemma at_most_one {A B} (f : A -> B) (l : list A) (c : B) :
  NoDup (map f l) -> (forall x, x ∈ l -> f x = c) -> (length l <= 1)%nat.
Proof.
  destruct l as [|x [|y l]]; simpl; [lia|lia|].
  intros [Hx _]%NoDup_cons Hc. exfalso. apply Hx.
  rewrite (Hc x), <- (Hc y); [apply elem_of_cons; auto| |];
    rewrite !elem_of_cons; auto.
Qed.

Lemma find_timer_Some id l t :
  find_timer id l = Some t -> t ∈ l /\ tid t = id.
Proof.
  unfold find_timer. intros [Hin Heq]%find_some.
  apply Nat.eqb_eq in Heq. by rewrite list_elem_of_In.
Qed.

Lemma timers_without id s t :
  t ∈ timers (without_timer id s) <-> t ∈ timers s /\ tid t <> id.
Proof.
  unfold without_timer. simpl. rewrite elem_of_List_filter.
  by rewrite negb_true_iff, Nat.eqb_neq.
Qed.

Lemma boot_wf t0 : timers_wf (boot t0).
Proof.
  unfold timers_wf. simpl. split_and!.
  - apply NoDup_singleton.
  - intros t ->%list_elem_of_singleton. simpl. lia.
  - intros id n. by rewrite lookup_empty.
  - intros t u ->%list_elem_of_singleton. done.
  - intros id t. by rewrite lookup_empty.
Qed.

Lemma wf_change s s' out : timers_wf s -> TimerChange s s' out -> timers_wf s'.
Proof.
  intros (Hnd & Hlt & Hreg & Hdeb & Hown) Hch. unfold timers_wf.
  destruct Hch as [Ht Hu Hn _
                  |u stream _ Ht Hu Hn _
                  |u pre _ _ ->
                  |id t Hfind _ _ Ht Hu Hn _].
  - rewrite Ht, Hu, Hn. done.
  - rewrite Ht, Hu, Hn. split_and!.
    + rewrite map_app. apply NoDup_app. split_and!; [done| |apply NoDup_singleton].
      intros n Hin ->%list_elem_of_singleton.
      apply list_elem_of_In, in_map_iff in Hin as (t & Heq & Hin).
      apply list_elem_of_In, Hlt in Hin. simpl in Heq. lia.
    + intros t [Hin | ->%list_elem_of_singleton]%elem_of_app; simpl; [|lia].
      apply Hlt in Hin. lia.
    + intros id n Hl. apply Hreg in Hl. lia.
    + intros t u' [Hin | ->%list_elem_of_singleton]%elem_of_app; [auto|done].
    + intros id t Hl [Hin | ->%list_elem_of_singleton]%elem_of_app; [eauto|].
      apply Hreg in Hl. simpl in Hl. lia.
  - rewrite handleBlockEvent_state. simpl.
    set (s0 := match updateBlocksTimers s !! uid u with
               | Some id => without_timer id s
               | None => s
               end).
    assert (Hsub : forall t, t ∈ timers s0 -> t ∈ timers s).
    { intros t. unfold s0. destruct (updateBlocksTimers s !! uid u); [|done].
      by intros [? _]%timers_without. }
    assert (Hnd0 : NoDup (map tid (timers s0))).
    { unfold s0. destruct (updateBlocksTimers s !! uid u); [|done].
      by apply NoDup_map_filter. }
    assert (Hn0 : next_timer s0 = next_timer s).
    { unfold s0. by destruct (updateBlocksTimers s !! uid u). }
    assert (Hu0 : updateBlocksTimers s0 = updateBlocksTimers s).
    { unfold s0. by destruct (updateBlocksTimers s !! uid u). }
    rewrite Hn0, Hu0. split_and!.
    + rewrite map_app. apply NoDup_app. split_and!; [done| |apply NoDup_singleton].
      intros n Hin ->%list_elem_of_singleton.
      apply list_elem_of_In, in_map_iff in Hin as (t & Heq & Hin).
      apply list_elem_of_In, Hsub, Hlt in Hin. simpl in Heq. lia.
    + intros t [Hin | ->%list_elem_of_singleton]%elem_of_app; simpl; [|lia].
      apply Hsub, Hlt in Hin. lia.
    + intros id n. destruct (decide (uid u = id)) as [<-|Hne].
      * rewrite lookup_insert_eq. intros [= <-]. lia.
      * rewrite lookup_insert_ne; [|done]. intros Hl%Hreg. lia.
    + intros t u' [Hin | ->%list_elem_of_singleton]%elem_of_app Hcb.
      * destruct (Hdeb t u' (Hsub _ Hin) Hcb) as [Hl Hrep]. split; [|done].
        destruct (decide (uid u = uid u')) as [Heq|Hne].
        -- exfalso. rewrite <- Heq in Hl. unfold s0 in Hin. rewrite Hl in Hin.
           apply timers_without in Hin as [_ ?]. done.
        -- by rewrite lookup_insert_ne.
      * simpl in *. injection Hcb as <-. by rewrite lookup_insert_eq.
    + intros id t Hl [Hin | ->%list_elem_of_singleton]%elem_of_app.
      * destruct (decide (uid u = id)) as [<-|Hne].
        -- rewrite lookup_insert_eq in Hl. injection Hl as Hl.
           apply Hsub, Hlt in Hin. lia.
        -- rewrite lookup_insert_ne in Hl; [|done]. eauto.
      * simpl in *. destruct (decide (uid u = id)) as [<-|Hne]; [eauto|].
        rewrite lookup_insert_ne in Hl; [|done]. apply Hreg in Hl. lia.
  - destruct (find_timer_Some _ _ _ Hfind) as [Hin Hid].
    rewrite Ht, Hu, Hn.
    assert (Hre : forall t', t' ∈ rearm (clock s) t ->
                    tid t' = id /\ callback t' = callback t
                    /\ repeat_ms t <> None).
    { unfold rearm. intros t'. destruct (repeat_ms t) eqn:Hrep.
      - intros ->%list_elem_of_singleton. done.
      - by intros ?%elem_of_nil. }
    split_and!.
    + rewrite map_app. apply NoDup_app. split_and!.
      * by apply NoDup_map_filter.
      * intros n Hn1 Hn2.
        apply list_elem_of_In, in_map_iff in Hn1 as (t1 & <- & Hin1).
        apply list_elem_of_In, timers_without in Hin1 as [_ Hne].
        apply list_elem_of_In, in_map_iff in Hn2 as (t2 & Heq & Hin2).
        apply list_elem_of_In, Hre in Hin2 as [Hid2 _]. congruence.
      * unfold rearm. destruct (repeat_ms t); [apply NoDup_singleton|].
        apply NoDup_nil_2.
    + intros t' [Hin' | Hin']%elem_of_app.
      * apply timers_without in Hin' as [Hin' _]. auto.
      * apply Hre in Hin' as [-> _]. rewrite <- Hid. auto.
    + done.
    + intros t' u' [Hin' | Hin']%elem_of_app Hcb.
      * apply timers_without in Hin' as [Hin' _]. auto.
      * apply Hre in Hin' as (_ & Hcb' & Hp).
        rewrite Hcb' in Hcb. by destruct (Hdeb t u' Hin Hcb) as [_ Hnone].
    + intros id' t' Hl [Hin' | Hin']%elem_of_app.
      * apply timers_without in Hin' as [Hin' _]. eauto.
      * apply Hre in Hin' as (Hid' & Hcb' & _). rewrite Hcb'.
        apply (Hown id' t); [|done]. congruence.
Qed.

Lemma reachable_wf s : reachable s -> timers_wf s.
Proof.
  induction 1 as [t0|s e s' out _ IH Hstep]; [apply boot_wf|].
  apply step_change in Hstep as [_ Hch]. by eapply wf_change.
Qed.

Lemma pending_debounce_registered id s t :
  timers_wf s -> t ∈ pending_debounce id s ->
  t ∈ timers s /\ updateBlocksTimers s !! id = Some (tid t)
  /\ exists u, callback t = UpdateBlocks u /\ uid u = id.
Proof.
  intros (_ & _ & _ & Hdeb & _) [Hin Hp]%elem_of_List_filter.
  unfold is_debounce_for in Hp.
  destruct (callback t) as [| |u] eqn:Hcb; try done.
  apply String.eqb_eq in Hp. destruct (Hdeb t u Hin Hcb) as [Hl _].
  rewrite Hp in Hl. eauto.
Qed.

Lemma pending_debounce_at_most_one id s :
  timers_wf s -> (length (pending_debounce id s) <= 1)%nat.
Proof.
  intros Hwf. destruct (updateBlocksTimers s !! id) as [n|] eqn:Hl.
  - apply (at_most_one tid _ n).
    + apply NoDup_map_filter, Hwf.
    + intros t Ht. apply (pending_debounce_registered _ _ _ Hwf) in Ht.
      destruct Ht as (_ & Ht & _). congruence.
  - destruct (pending_debounce id s) as [|t l] eqn:Hp; simpl; [lia|].
    assert (Ht : t ∈ pending_debounce id s) by (rewrite Hp; apply elem_of_cons; auto).
    apply (pending_debounce_registered _ _ _ Hwf) in Ht.
    destruct Ht as (_ & Ht & _). congruence.
Qed.

Lemma sessions_for_at_most_one id s : (length (sessions_for id s) <= 1)%nat.
Proof.
  apply (at_most_one fst _ id).
  - apply NoDup_map_filter. apply (NoDup_fst_map_to_list (streams s)).
  - intros [k v] [_ Hk]%elem_of_List_filter. by apply String.eqb_eq in Hk.
Qed.

(** ** The Reconciliation Debouncer *)

Lemma quiet_filters id out :
  quiet out ->
  List.filter (is_notification id) out = []
  /\ List.filter (is_reconciliation id) out = [].
Proof.
  unfold quiet. induction out as [|e out IH]; simpl; [done|].
  intros [He Hq]%andb_true_iff. destruct (IH Hq) as [-> ->].
  destruct e as [| | | | | | | | | | |n cb d| |]; try done.
  by destruct cb.
Qed.

Lemma filter_all {A} (p : A -> bool) (l : list A) :
  (forall x, x ∈ l -> p x = true) -> List.filter p l = l.
Proof.
  induction l as [|x l IH]; intros H; simpl; [done|].
  rewrite (H x), IH; [done| |apply elem_of_cons; auto].
  intros y Hy. apply H, elem_of_cons. auto.
Qed.

Lemma filter_none {A} (p : A -> bool) (l : list A) :
  (forall x, x ∈ l -> p x = false) -> List.filter p l = [].
Proof.
  induction l as [|x l IH]; intros H; simpl; [done|].
  rewrite (H x), IH; [done| |apply elem_of_cons; auto].
  intros y Hy. apply H, elem_of_cons. auto.
Qed.

Lemma filter_comm {A} (p q : A -> bool) (l : list A) :
  List.filter p (List.filter q l) = List.filter q (List.filter p l).
Proof.
  induction l as [|x l IH]; simpl; [done|].
  destruct (p x) eqn:Hp, (q x) eqn:Hq; simpl; rewrite ?Hp, ?Hq, IH; done.
Qed.

Lemma NoDup_tid_inj (l : list Timer) (t1 t2 : Timer) :
  NoDup (map tid l) -> t1 ∈ l -> t2 ∈ l -> tid t1 = tid t2 -> t1 = t2.
Proof.
  induction l as [|x l IH]; simpl; [by intros _ ?%elem_of_nil|].
  intros [Hx Hnd]%NoDup_cons [->|H1]%elem_of_cons [->|H2]%elem_of_cons Heq;
    [done| | |by apply IH].
  - exfalso. apply Hx. rewrite Heq.
    apply list_elem_of_In, in_map. by apply list_elem_of_In.
  - exfalso. apply Hx. rewrite <- Heq.
    apply list_elem_of_In, in_map. by apply list_elem_of_In.
Qed.

Lemma pending_without id n s :
  pending_debounce id (without_timer n s)
  = List.filter (fun t => negb (Nat.eqb (tid t) n)) (pending_debounce id s).
Proof. unfold pending_debounce, without_timer. simpl. apply filter_comm. Qed.

(** What [handleBlockEvent] leaves waiting for an account. *)
Lemma handleBlockEvent_pending id u s :
  timers_wf s ->
  pending_debounce id (state_of (handleBlockEvent u s))
  = if String.eqb (uid u) id
    then [ {| tid := next_timer s; due := clock s + 2000;
              callback := UpdateBlocks u; repeat_ms := None |} ]
    else pending_debounce id s.
Proof.
  intros Hwf. rewrite handleBlockEvent_state.
  unfold pending_debounce at 1. simpl. rewrite List.filter_app. simpl.
  fold (pending_debounce id (match updateBlocksTimers s !! uid u with
                             | Some n => without_timer n s
                             | None => s
                             end)).
  assert (Hclock : clock (match updateBlocksTimers s !! uid u with
                          | Some n => without_timer n s
                          | None => s
                          end) = clock s
                   /\ next_timer (match updateBlocksTimers s !! uid u with
                                  | Some n => without_timer n s
                                  | None => s
                                  end) = next_timer s).
  { by destruct (updateBlocksTimers s !! uid u). }
  destruct Hclock as [-> ->].
  destruct (String.eqb_spec (uid u) id) as [Heq|Hne].
  - assert (Hnil : pending_debounce id
              (match updateBlocksTimers s !! uid u with
               | Some n => without_timer n s
               | None => s
               end) = []); [|by rewrite Hnil].
    destruct (updateBlocksTimers s !! uid u) as [n|] eqn:Hl.
    + rewrite pending_without. apply filter_none. intros t Ht.
      apply (pending_debounce_registered _ _ _ Hwf) in Ht as (_ & Ht & _).
      rewrite <- Heq, Hl in Ht. injection Ht as ->.
      by rewrite Nat.eqb_refl.
    + destruct (pending_debounce id s) as [|t l] eqn:Hp; [done|].
      assert (Ht : t ∈ pending_debounce id s)
        by (rewrite Hp; apply elem_of_cons; auto).
      apply (pending_debounce_registered _ _ _ Hwf) in Ht as (_ & Ht & _).
      rewrite <- Heq in Ht. congruence.
  - rewrite app_nil_r.
    destruct (updateBlocksTimers s !! uid u) as [n|] eqn:Hl; [|done].
    rewrite pending_without. apply filter_all. intros t Ht.
    apply negb_true_iff, Nat.eqb_neq. intros Hn.
    apply (pending_debounce_registered _ _ _ Hwf) in Ht
      as (Hin & _ & u' & Hcb & Hu').
    destruct Hwf as (_ & _ & _ & _ & Hown).
    rewrite <- Hn in Hl. destruct (Hown _ _ Hl Hin) as (u'' & Hcb' & Hu'').
    congruence.
Qed.

Lemma handleBlockEvent_calls id u s :
  List.filter (is_notification id) (effects_of (handleBlockEvent u s))
  = (if String.eqb (uid u) id
     then [SetTimeout (next_timer s) (UpdateBlocks u) 2000] else [])
  /\ List.filter (is_reconciliation id) (effects_of (handleBlockEvent u s)) = [].
Proof.
  rewrite handleBlockEvent_effects, !List.filter_app. simpl.
  by destruct (updateBlocksTimers s !! uid u), (String.eqb (uid u) id).
Qed.

(** One step of the event loop, seen from the debouncer of one
    account: nothing happens, or the account is notified, or its
    timer fires. *)
Lemma debounce_step id s s' out st :
  timers_wf s -> status_ok id s st -> clock s <= clock s' ->
  TimerChange s s' out ->
  (List.filter (is_notification id) out = []
   /\ List.filter (is_reconciliation id) out = []
   /\ status_ok id s' st)
  \/ (exists e, List.filter (is_notification id) out = [e]
                /\ List.filter (is_reconciliation id) out = []
                /\ clock s' = clock s
                /\ status_ok id s' (Armed (clock s)))
  \/ (exists l e, st = Armed l
                  /\ List.filter (is_notification id) out = []
                  /\ List.filter (is_reconciliation id) out = [e]
                  /\ clock s' = clock s
                  /\ l + 2000 <= clock s
                  /\ status_ok id s' (Fired l)).
Proof.
  intros Hwf Hst Hclock Hch.
  assert (Hkeep : pending_debounce id s' = pending_debounce id s ->
                  status_ok id s' st).
  { intros Hp. destruct st as [|l|l]; simpl in *; rewrite Hp.
    - done.
    - destruct Hst as (t & ? & ? & ?). exists t. split_and!; [done|done|lia].
    - destruct Hst. split; [done|lia]. }
  destruct Hch as [Ht Hu Hn Hq
                  |u stream Hc Ht Hu Hn Hq
                  |u pre Hq -> ->
                  |n t Hfind Hdue Hc Ht Hu Hn Hout].
  - left. destruct (quiet_filters id _ Hq) as [-> ->].
    split_and!; [done|done|]. apply Hkeep. unfold pending_debounce. by rewrite Ht.
  - left. destruct (quiet_filters id _ Hq) as [-> ->].
    split_and!; [done|done|]. apply Hkeep. unfold pending_debounce.
    rewrite Ht, List.filter_app. simpl. by rewrite app_nil_r.
  - rewrite !List.filter_app. destruct (quiet_filters id _ Hq) as [-> ->].
    destruct (handleBlockEvent_calls id u s) as [-> ->]. simpl.
    pose proof (handleBlockEvent_pending id u s Hwf) as Hp.
    destruct (String.eqb (uid u) id).
    + right. left. eexists. split_and!; [done|done|apply handleBlockEvent_clock|].
      change (exists t, pending_debounce id (state_of (handleBlockEvent u s)) = [t]
                        /\ due t = clock s + 2000
                        /\ clock s <= clock (state_of (handleBlockEvent u s))).
      eexists. split_and!; [exact Hp|done|exact Hclock].
    + left. split_and!; [done|done|]. by apply Hkeep.
  - destruct (find_timer_Some _ _ _ Hfind) as [Hin Hid].
    destruct (is_debounce_for id (callback t)) eqn:Hdeb.
    + right. right.
      assert (Htp : t ∈ pending_debounce id s) by (by apply elem_of_List_filter).
      destruct (pending_debounce_registered _ _ _ Hwf Htp)
        as (_ & Hl & u & Hcb & Hu').
      destruct Hwf as (Hnd & _ & _ & Hreg & _).
      destruct (Hreg t u Hin Hcb) as [_ Hrep].
      rewrite Hcb in Hout. subst out.
      destruct st as [|l|l]; simpl in Hst.
      * rewrite Hst in Htp. by apply elem_of_nil in Htp.
      * destruct Hst as (t' & Hp & Hd & Hl').
        rewrite Hp in Htp. apply list_elem_of_singleton in Htp. subst t'.
        exists l. eexists. split_and!; [done|done| |done|lia|].
        -- simpl. rewrite Hu', String.eqb_refl. done.
        -- simpl. split; [|lia].
           unfold pending_debounce. rewrite Ht. unfold rearm. rewrite Hrep.
           rewrite app_nil_r. fold (pending_debounce id (without_timer n s)).
           rewrite pending_without, Hp. simpl. by rewrite Hid, Nat.eqb_refl.
      * destruct Hst as [Hst _]. rewrite Hst in Htp. by apply elem_of_nil in Htp.
    + left.
      assert (Hcalls : List.filter (is_notification id) out = []
                       /\ List.filter (is_reconciliation id) out = []).
      { destruct (callback t) as [| |u] eqn:Hcb;
          [by apply quiet_filters|by apply quiet_filters|].
        subst out. simpl in *. by rewrite Hdeb. }
      destruct Hcalls as [-> ->]. split_and!; [done|done|].
      apply Hkeep. unfold pending_debounce. rewrite Ht, List.filter_app.
      fold (pending_debounce id (without_timer n s)).
      rewrite pending_without.
      assert (Hre : List.filter (fun t0 => is_debounce_for id (callback t0))
                      (rearm (clock s) t) = []).
      { unfold rearm. destruct (repeat_ms t); simpl; [|done]. by rewrite Hdeb. }
      rewrite Hre, app_nil_r. apply filter_all. intros t' Ht'.
      apply negb_true_iff, Nat.eqb_neq. intros Heq.
      apply elem_of_List_filter in Ht' as [Hin' Hd'].
      destruct Hwf as (Hnd & _).
      assert (t' = t) by (apply (NoDup_tid_inj (timers s)); congruence).
      congruence.
Qed.

Lemma last_app_cons {A} (l1 l2 : list A) (x : A) :
  last (l1 ++ x :: l2) = last (x :: l2).
Proof.
  induction l1 as [|y l1 IH]; [done|].
  simpl. rewrite <- IH. by destruct (l1 ++ x :: l2) eqn:E; [destruct l1|].
Qed.

Lemma within_window_tail w l1 l2 :
  within_window w (l1 ++ l2) = true -> within_window w l2 = true.
Proof.
  induction l1 as [|x l1 IH]; [done|]. simpl.
  destruct (l1 ++ l2) eqn:E; [by destruct l1, l2|].
  intros [_ H]%andb_true_iff. auto.
Qed.

Lemma exec_cons s e evs s1 log :
  exec s (e :: evs) = Some (s1, log) ->
  exists s' out log',
    step s e = Some (s', out)
    /\ exec s' evs = Some (s1, log')
    /\ log = {| at_time := clock s'; trigger := e; calls := out |} :: log'.
Proof.
  simpl. destruct (step s e) as [[s' out]|]; [|done].
  destruct (exec s' evs) as [[s'' log']|] eqn:He; [|done].
  intros [= <- <-]. by exists s', out, log'.
Qed.

Lemma times_cons id r log :
  notify_times id (r :: log)
  = map (fun _ => at_time r) (List.filter (is_notification id) (calls r))
    ++ notify_times id log
  /\ reconcile_times id (r :: log)
     = map (fun _ => at_time r) (List.filter (is_reconciliation id) (calls r))
       ++ reconcile_times id log.
Proof. done. Qed.

(** A run of the event loop, seen from the debouncer of one account. *)
Lemma exec_debounce id evs :
  forall s st s1 log,
    timers_wf s -> status_ok id s st ->
    exec s evs = Some (s1, log) ->
    within_window 2000 (last_notified st ++ notify_times id log) = true ->
    exists st1,
      status_ok id s1 st1 /\ timers_wf s1
      /\ match st with
         | Fired l =>
             notify_times id log = [] /\ reconcile_times id log = []
             /\ st1 = Fired l
         | _ =>
             match last (last_notified st ++ notify_times id log) with
             | None => st1 = Idle /\ reconcile_times id log = []
             | Some l =>
                 (st1 = Armed l /\ reconcile_times id log = [])
                 \/ (st1 = Fired l
                     /\ exists t, reconcile_times id log = [t] /\ l + 2000 <= t)
             end
         end.
Proof.
  induction evs as [|e evs IH]; intros s st s1 log Hwf Hst Hexec Hwin.
  - injection Hexec as <- <-. exists st. split_and!; [done|done|].
    destruct st; simpl; auto.
  - apply exec_cons in Hexec as (s' & out & log' & Hstep & Hexec & ->).
    apply step_change in Hstep as [Hclock Hch].
    pose proof (wf_change _ _ _ Hwf Hch) as Hwf'.
    destruct (times_cons id {| at_time := clock s'; trigger := e; calls := out |} log')
      as [Hts Hrs].
    rewrite Hts in Hwin. rewrite Hts, Hrs. clear Hts Hrs.
    cbn [at_time calls] in *.
    destruct (debounce_step id s s' out st Hwf Hst Hclock Hch)
      as [(Hn & Hr & Hst')
         |[(e0 & Hn & Hr & Hc & Hst')
          |(l & e0 & -> & Hn & Hr & Hc & Hl & Hst')]];
      rewrite Hn, Hr in *; simpl in *.
    + by apply (IH s' st).
    + destruct st as [|l|l]; simpl in *.
      * destruct (IH s' (Armed (clock s)) s1 log' Hwf' Hst' Hexec)
          as (st1 & H1 & H2 & H3); [by rewrite <- Hc|].
        exists st1. split_and!; [done|done|]. simpl in H3. by rewrite Hc.
      * apply andb_true_iff in Hwin as [_ Hwin].
        destruct (IH s' (Armed (clock s)) s1 log' Hwf' Hst' Hexec)
          as (st1 & H1 & H2 & H3); [by rewrite <- Hc|].
        exists st1. split_and!; [done|done|]. simpl in H3. rewrite Hc.
        by destruct (notify_times id log').
      * apply andb_true_iff in Hwin as [Hwin _]. apply Z.ltb_lt in Hwin.
        destruct Hst as [_ Hst]. lia.
    + destruct (IH s' (Fired l) s1 log' Hwf' Hst' Hexec Hwin)
        as (st1 & H1 & H2 & -> & -> & ->).
      exists (Fired l). split_and!; [done|done|]. simpl.
      right. split; [done|]. exists (clock s'). split; [done|lia].
Qed.

Lemma find_timer_unique (l : list Timer) (t : Timer) :
  NoDup (map tid l) -> t ∈ l -> find_timer (tid t) l = Some t.
Proof.
  intros Hnd Hin. unfold find_timer.
  destruct (List.find _ l) as [t'|] eqn:Hf.
  - apply find_some in Hf as [Hin' Heq]. apply Nat.eqb_eq in Heq.
    f_equal. apply (NoDup_tid_inj l); [done|by apply list_elem_of_In|done|done].
  - eapply find_none in Hf; [|by apply list_elem_of_In].
    simpl in Hf. by rewrite Nat.eqb_refl in Hf.
Qed.

(** C5: take a run of the event loop that starts in a reachable state
    in which no debounce timer is waiting for the account, and in
    which the account is notified N >= 1 times, consecutive
    notifications being less than 2000 ms apart, the last one at
    time [l].  Then either [remoteUpdateBlocks] was called exactly
    once for the account, at a time at least 2000 ms after [l], and
    no timer is waiting for it; or it was not called yet and exactly
    one timer is waiting for the account, due at [l + 2000], which
    is the one that fires under its handle. *)
Theorem C5_debounce_one_reconciliation :
  forall id s0 evs s1 log l,
    reachable s0 ->
    pending_debounce id s0 = [] ->
    exec s0 evs = Some (s1, log) ->
    last (notify_times id log) = Some l ->
    within_window 2000 (notify_times id log) = true ->
    (pending_debounce id s1 = []
     /\ exists t, reconcile_times id log = [t] /\ l + 2000 <= t)
    \/ (reconcile_times id log = []
        /\ exists tm, pending_debounce id s1 = [tm]
                      /\ due tm = l + 2000
                      /\ find_timer (tid tm) (timers s1) = Some tm).
Proof.
  intros id s0 evs s1 log l Hr Hidle Hexec Hlast Hwin.
  destruct (exec_debounce id evs s0 Idle s1 log (reachable_wf _ Hr) Hidle Hexec Hwin)
    as (st1 & Hst1 & Hwf1 & Hres).
  simpl in Hres. rewrite Hlast in Hres.
  destruct Hres as [[-> Hrs] | (-> & t & Hrs & Ht)]; simpl in Hst1.
  - right. split; [done|]. destruct Hst1 as (tm & Hp & Hd & _).
    exists tm. split_and!; [done|done|].
    apply find_timer_unique; [apply Hwf1|].
    assert (Hin : tm ∈ pending_debounce id s1)
      by (rewrite Hp; by apply list_elem_of_singleton).
    by apply elem_of_List_filter in Hin as [Hin _].
  - left. destruct Hst1 as [Hp _]. eauto.
Qed.


Lemma exec_reachable s evs s1 log :
  reachable s -> exec s evs = Some (s1, log) -> reachable s1.
Proof.
  revert s log. induction evs as [|e evs IH]; intros s log Hr Hexec.
  - by injection Hexec as <- _.
  - apply exec_cons in Hexec as (s' & out & log' & Hstep & Hexec & _).
    eapply IH; [|exact Hexec]. by eapply reachable_step.
Qed.

(** ** Sessions that are live *)

Lemma sessions_for_registered id s entry :
  streams s !! id = Some entry -> length (sessions_for id s) = 1%nat.
Proof.
  intros Hl. pose proof (sessions_for_at_most_one id s) as Hle.
  assert (Hin : (id, entry) ∈ sessions_for id s).
  { apply elem_of_List_filter. split; [by apply elem_of_map_to_list|].
    apply String.eqb_refl. }
  destruct (sessions_for id s); [by apply elem_of_nil in Hin|].
  simpl in *. lia.
Qed.

Lemma boot_state t0 :
  boot t0
  = {| clock := t0; streams := {[ "dummy" := Dummy ]};
       updateBlocksTimers := ∅;
       timers := [ {| tid := 1; due := t0 + 1000; callback := StartStreamsTick;
                      repeat_ms := Some 1000 |} ];
       next_timer := 2; next_req := 1 |}.
Proof. reflexivity. Qed.

Lemma keys_of_dummy : keys_of_streams {[ "dummy" := Dummy ]} = ["dummy"].
Proof. unfold keys_of_streams. by rewrite map_to_list_singleton. Qed.

(** C2: the half of the claim about the debouncer holds, the half
    about sessions does not.  In every state the event loop can
    reach, at most one debounce timer waits for an account id.  But
    a run from the start of the program leaves two sessions of one
    account live.  The query of line 340 and the query of the first
    tick, 1000 ms later, are both sent before either is answered;
    neither leaves the account out, so the database may answer both
    with its row.  [startStream] then runs twice for the account: it
    opens a second connection without looking at the registry and
    without aborting the first, and overwrites the entry, so that
    two sessions are live and the registry refers to one of them.
    (The registry is a JS object, which the finite map models for
    every key but '__proto__'.) *)
Theorem C2_stacked_queries_open_two_sessions :
  (forall s id, reachable s -> (length (pending_debounce id s) <= 1)%nat)
  /\ forall t0 u,
       uid u <> "dummy" ->
       uid u <> "__proto__" ->
       deactivatedAt u = None ->
       block_new_accounts u = true \/ block_low_followers u = true ->
       queries (effects_of (main (blank t0))) = [(["dummy"], 10%nat)]
       /\ findAll ["dummy"] 10 [u] = [u]
       /\ exists s1 log,
            exec (boot t0)
              [ ClockAdvance (t0 + 1000); TimerFires 1;
                FindAllSuccess [u]; FindAllSuccess [u] ]
            = Some (s1, log)
            /\ reachable s1
            /\ queries (flat_map calls log) = [(["dummy"], 10%nat)]
            /\ live_sessions (uid u) log = 2%nat
            /\ (forall e, In e (flat_map calls log) ->
                          forall req, e <> ReqAbort req)
            /\ streams s1 !! uid u = Some (Request 2)
            /\ length (sessions_for (uid u) s1) = 1%nat.
Proof.
  split.
  { intros s id Hr. by apply pending_debounce_at_most_one, reachable_wf. }
  intros t0 u Hdummy _ Hact Hopt. split_and!.
  - unfold main, startStreams. js_unfold. simpl. by rewrite keys_of_dummy.
  - unfold findAll, startStreams_where. simpl.
    rewrite bool_decide_eq_false_2, (bool_decide_eq_true_2 _ Hact).
    + by destruct Hopt as [-> | ->]; rewrite ?orb_true_r.
    + intros Hin%list_elem_of_singleton. congruence.
  - assert (Hexec : exists s1 log,
      exec (boot t0)
        [ ClockAdvance (t0 + 1000); TimerFires 1;
          FindAllSuccess [u]; FindAllSuccess [u] ]
      = Some (s1, log)
      /\ queries (flat_map calls log) = [(["dummy"], 10%nat)]
      /\ live_sessions (uid u) log = 2%nat
      /\ (forall e, In e (flat_map calls log) ->
                    forall req, e <> ReqAbort req)
      /\ streams s1 !! uid u = Some (Request 2)).
    { rewrite boot_state. cbn [exec step]. simpl.
      assert (Hle : (t0 <=? t0 + 1000) = true) by (apply Z.leb_le; lia).
      rewrite Hle. unfold fire. simpl. rewrite Z.leb_refl. simpl.
      eexists _, _. split; [reflexivity|].
      cbn [flat_map calls app]. unfold live_sessions, opened_for, ended_for.
      js_unfold. simpl. rewrite keys_of_dummy, String.eqb_refl. simpl.
      split_and!; [done|done| |apply lookup_insert_eq].
      intros e He req ->. intuition congruence. }
    destruct Hexec as (s1 & log & Hexec & Hq & Hlive & Hab & Hreg).
    exists s1, log. split_and!; try done.
    + eapply exec_reachable; [apply reachable_boot|exact Hexec].
    + by eapply sessions_for_registered.
Qed.

(** C4: handler by handler the code is what the claim describes (see
    [endCallback_by_status]): the deferred removal checks that the
    registry still holds the object it captured and logs otherwise,
    and a termination with a status other than 420 removes the entry
    at once.  But the claim is about every termination, and for a
    second termination of an account it fails.  When two sessions of
    the account are live (the run of C2) and both end with 420, the
    later [d] ms after the earlier, both timers capture the same
    entry; the timer of the earlier termination fires 15 minutes
    after it and removes the entry, [15 * 60 * 1000 - d] ms after
    the later termination, whose own timer is still waiting.  From
    then on the sampler's query leaves the account out no more. *)
Theorem C4_second_termination_is_cut_short :
  (forall u stream s,
      (stream = streams s !! uid u ->
       streams (state_of (cooldown_removal u stream s))
       = delete (uid u) (streams s)
       /\ effects_of (cooldown_removal u stream s) = [])
      /\ (stream <> streams s !! uid u ->
          state_of (cooldown_removal u stream s) = s
          /\ effects_of (cooldown_removal u stream s)
             = [ Log error
                   "Tried to delete stream but it had already been replaced" ]))
  /\ (forall u statusCode s,
        statusCode <> 420 ->
        streams (state_of (endCallback u statusCode s))
        = delete (uid u) (streams s)
        /\ streams (state_of (endCallback u statusCode s)) !! uid u = None)
  /\ forall t0 u d,
       uid u <> "dummy" ->
       uid u <> "__proto__" ->
       0 < d <= 15 * 60 * 1000 ->
       exists s1 log,
         exec (boot t0)
           [ ClockAdvance (t0 + 1000); TimerFires 1;
             FindAllSuccess [u]; FindAllSuccess [u];
             StreamEnd u 420;
             ClockAdvance (t0 + 1000 + d);
             StreamEnd u 420;
             ClockAdvance (t0 + 1000 + 15 * 60 * 1000);
             TimerFires 2 ]
         = Some (s1, log)
         /\ reachable s1
         /\ ended_at (uid u) 420 log = [t0 + 1000; t0 + 1000 + d]
         /\ clock s1 = t0 + 1000 + 15 * 60 * 1000
         /\ clock s1 < t0 + 1000 + d + 15 * 60 * 1000
         /\ streams s1 !! uid u = None
         /\ {| tid := 3; due := t0 + 1000 + d + 15 * 60 * 1000;
               callback := CooldownRemoval u (Some (Request 2));
               repeat_ms := None |} ∈ timers s1
         /\ queries (effects_of (startStreams s1)) = [(["dummy"], 10%nat)].
Proof.
  split_and!.
  - apply endCallback_by_status.
  - intros u statusCode s Hne.
    destruct (proj2 (proj2 (proj2 endCallback_by_status)) u statusCode s Hne)
      as (? & _ & ?).
    done.
  - intros t0 u d Hdummy _ Hd.
    assert (Hexec : exists s1 log,
      exec (boot t0)
        [ ClockAdvance (t0 + 1000); TimerFires 1;
          FindAllSuccess [u]; FindAllSuccess [u];
          StreamEnd u 420;
          ClockAdvance (t0 + 1000 + d);
          StreamEnd u 420;
          ClockAdvance (t0 + 1000 + 15 * 60 * 1000);
          TimerFires 2 ]
      = Some (s1, log)
      /\ ended_at (uid u) 420 log = [t0 + 1000; t0 + 1000 + d]
      /\ clock s1 = t0 + 1000 + 15 * 60 * 1000
      /\ streams s1 = delete (uid u)
                        (<[uid u := Request 2]>
                           (<[uid u := Request 1]> {[ "dummy" := Dummy ]}))
      /\ {| tid := 3; due := t0 + 1000 + d + 15 * 60 * 1000;
            callback := CooldownRemoval u (Some (Request 2));
            repeat_ms := None |} ∈ timers s1).
    { rewrite boot_state. cbn [exec step]. simpl.
      assert (H1 : (t0 <=? t0 + 1000) = true) by (apply Z.leb_le; lia).
      rewrite H1. unfold fire. simpl. rewrite Z.leb_refl. simpl.
      assert (H2 : (t0 + 1000 <=? t0 + 1000 + d) = true) by (apply Z.leb_le; lia).
      assert (H3 : (t0 + 1000 + d <=? t0 + 1000 + 15 * 60 * 1000) = true)
        by (apply Z.leb_le; lia).
      rewrite H2. simpl. rewrite H3. simpl.
      rewrite !lookup_insert_eq. simpl. rewrite Z.leb_refl. simpl.
      eexists _, _. split; [reflexivity|].
      unfold ended_at. cbn [flat_map trigger at_time app].
      rewrite String.eqb_refl. simpl.
      unfold cooldown_removal, mbind, Js_bind, get_state, modify, state_of,
        effects_of. simpl.
      rewrite !lookup_insert_eq. rewrite decide_True; [|done]. simpl.
      split_and!; [done|done|done|].
      apply list_elem_of_In. simpl. auto. }
    destruct Hexec as (s1 & log & Hexec & Hend & Hclock & Hstreams & Htimer).
    exists s1, log. split_and!; try done.
    + eapply exec_reachable; [apply reachable_boot|exact Hexec].
    + rewrite Hclock. lia.
    + rewrite Hstreams. apply lookup_delete_eq.
    + unfold startStreams. js_unfold. simpl. rewrite Hstreams.
      rewrite !delete_insert_eq, delete_singleton_ne by done.
      by rewrite keys_of_dummy.
Qed.


(** * Further properties of the code *)

(** ** The Block Decision Engine, case by case *)

(** The age threshold in milliseconds: a sender counts as new exactly
    when its creation date parses and lies less than 7 * 86400 * 1000
    ms before the clock. *)
Lemma new_account_iff (now : Z) (created : option string) :
  js_lt (ageInDays now created) MIN_AGE = true
  <-> exists c t, created = Some c /\ Date_parse c = Some t
                  /\ now - t < 7 * 86400 * 1000.
Proof.
  unfold ageInDays. destruct created as [c|]; simpl.
  - destruct (Date_parse c) as [t|] eqn:Hp; simpl.
    + rewrite age_below_MIN_AGE. split.
      * intros H. exists c, t. done.
      * intros (c' & t' & [= <-] & Ht & H). rewrite Hp in Ht.
        by injection Ht as <-.
    + split; [done|]. intros (c' & t' & [= <-] & Ht & _). congruence.
  - split; [done|]. by intros (c' & t' & ? & _).
Qed.

(** What a mention puts on the action queue, in every case. *)
Lemma evaluate_candidates s recipient m reload :
  block_candidates (effects_of (evaluate recipient (Some m) reload s))
  = if truthy (created_at m)
       && negb (String.eqb (id_str m) (uid recipient))
       && (js_lt (ageInDays (clock s) (created_at m)) MIN_AGE
           || (followers_count m <? MIN_FOLLOWERS))
    then match reload recipient with
         | Some reloaded =>
             if js_lt (ageInDays (clock s) (created_at m)) MIN_AGE
                && block_new_accounts reloaded
             then [ {| bc_recipient := uid reloaded; bc_targets := [id_str m];
                       bc_cause := NEW_ACCOUNT |} ]
             else if (followers_count m <? MIN_FOLLOWERS)
                     && block_low_followers reloaded
             then [ {| bc_recipient := uid reloaded; bc_targets := [id_str m];
                       bc_cause := LOW_FOLLOWERS |} ]
             else []
         | None => []
         end
    else [].
Proof.
  js_unfold. simpl.
  destruct (truthy (created_at m)
            && negb (String.eqb (id_str m) (uid recipient))); simpl; [|done].
  destruct (js_lt _ _ || _); simpl; [|done].
  destruct (reload recipient) as [reloaded|]; simpl; [|done].
  destruct (js_lt _ _ && _); simpl; [done|].
  by destruct (_ && _).
Qed.

(** X1: every block the engine enqueues is justified.  It names the
    reloaded recipient and the sender, the sender is not the
    recipient, and its cause holds of the sender and is switched on
    in the reloaded record: NEW_ACCOUNT for a sender created less
    than 7 days ago, LOW_FOLLOWERS for a sender with fewer than 15
    followers to whom NEW_ACCOUNT does not apply. *)
Theorem engine_blocks_are_justified :
  forall s recipient m reload c,
    In c (block_candidates (effects_of (evaluate recipient (Some m) reload s))) ->
    exists reloaded,
      reload recipient = Some reloaded
      /\ bc_recipient c = uid reloaded
      /\ bc_targets c = [id_str m]
      /\ id_str m <> uid recipient
      /\ ((bc_cause c = NEW_ACCOUNT
           /\ block_new_accounts reloaded = true
           /\ exists created t,
                created_at m = Some created /\ Date_parse created = Some t
                /\ clock s - t < 7 * 86400 * 1000)
          \/ (bc_cause c = LOW_FOLLOWERS
              /\ block_low_followers reloaded = true
              /\ followers_count m < 15
              /\ (block_new_accounts reloaded = false
                  \/ js_lt (ageInDays (clock s) (created_at m)) MIN_AGE = false))).
Proof.
  intros s recipient m reload c. rewrite evaluate_candidates.
  destruct (truthy (created_at m)); simpl; [|done].
  destruct (String.eqb_spec (id_str m) (uid recipient)) as [|Hne]; simpl; [done|].
  destruct (js_lt _ _ || _); simpl; [|done].
  destruct (reload recipient) as [reloaded|]; [|done].
  destruct (js_lt (ageInDays (clock s) (created_at m)) MIN_AGE) eqn:Hage; simpl.
  - destruct (block_new_accounts reloaded) eqn:Hnew; simpl.
    + intros [<-|[]]. exists reloaded. split_and!; try done.
      left. split_and!; try done. by apply new_account_iff.
    + destruct (Z.ltb_spec (followers_count m) MIN_FOLLOWERS) as [Hf|]; simpl;
        [|done].
      destruct (block_low_followers reloaded) eqn:Hlow; simpl; [|done].
      intros [<-|[]]. exists reloaded. split_and!; try done.
      right. split_and!; try done. by left.
  - destruct (Z.ltb_spec (followers_count m) MIN_FOLLOWERS) as [Hf|]; simpl;
      [|done].
    destruct (block_low_followers reloaded) eqn:Hlow; simpl; [|done].
    intros [<-|[]]. exists reloaded. split_and!; try done.
    right. split_and!; try done. by right.
Qed.

(** X2: a sender other than the recipient whose account was created
    less than 7 * 86400 * 1000 ms ago is blocked with cause
    NEW_ACCOUNT, whatever its follower count, when the reloaded
    recipient has block_new_accounts set. *)
Theorem engine_blocks_new_account :
  forall s recipient m reload reloaded created t,
    created_at m = Some created ->
    created <> "" ->
    Date_parse created = Some t ->
    clock s - t < 7 * 86400 * 1000 ->
    id_str m <> uid recipient ->
    reload recipient = Some reloaded ->
    block_new_accounts reloaded = true ->
    block_candidates (effects_of (evaluate recipient (Some m) reload s))
    = [ {| bc_recipient := uid reloaded; bc_targets := [id_str m];
           bc_cause := NEW_ACCOUNT |} ].
Proof.
  intros s recipient m reload reloaded created t Hc Hne Hp Hlt Hid Hr Hnew.
  rewrite evaluate_candidates, Hr, Hnew.
  assert (Hage : js_lt (ageInDays (clock s) (created_at m)) MIN_AGE = true).
  { apply new_account_iff. by exists created, t. }
  rewrite Hage, Hc. simpl.
  apply String.eqb_neq in Hne, Hid. by rewrite Hne, Hid.
Qed.

(** X3: a sender other than the recipient with fewer than 15
    followers is blocked with cause LOW_FOLLOWERS when the reloaded
    recipient has block_low_followers set and NEW_ACCOUNT does not
    apply: the account is 7 days old or more, or its creation date
    does not parse, or block_new_accounts is off. *)
Theorem engine_blocks_low_followers :
  forall s recipient m reload reloaded created,
    created_at m = Some created ->
    created <> "" ->
    followers_count m < 15 ->
    id_str m <> uid recipient ->
    reload recipient = Some reloaded ->
    block_low_followers reloaded = true ->
    (block_new_accounts reloaded = false
     \/ Date_parse created = None
     \/ exists t, Date_parse created = Some t
                  /\ 7 * 86400 * 1000 <= clock s - t) ->
    block_candidates (effects_of (evaluate recipient (Some m) reload s))
    = [ {| bc_recipient := uid reloaded; bc_targets := [id_str m];
           bc_cause := LOW_FOLLOWERS |} ].
Proof.
  intros s recipient m reload reloaded created Hc Hne Hf Hid Hr Hlow Hno.
  assert (Htruthy : truthy (created_at m) = true).
  { rewrite Hc. simpl. by apply negb_true_iff, String.eqb_neq. }
  assert (Hskip : js_lt (ageInDays (clock s) (created_at m)) MIN_AGE
                  && block_new_accounts reloaded = false).
  { destruct Hno as [->|Hno]; [apply andb_false_r|].
    apply andb_false_intro1, not_true_iff_false.
    rewrite new_account_iff, Hc. intros (c & t & [= <-] & Ht & Hlt).
    destruct Hno as [Hno|(t' & Hno & Hge)]; [congruence|].
    rewrite Hno in Ht. injection Ht as ->. lia. }
  apply String.eqb_neq in Hid. apply Z.ltb_lt in Hf.
  rewrite evaluate_candidates, Hr, Hlow, Htruthy, Hid, Hskip.
  unfold MIN_FOLLOWERS. rewrite Hf, orb_true_r. done.
Qed.

(** X4: a sender whose account is not below the age threshold (7 days
    old or more, or with a date that does not parse) and that has 15
    followers or more makes the engine log the mention and do
    nothing else: the recipient is not reloaded and nothing is
    enqueued. *)
Theorem engine_ignores_established_senders :
  forall s recipient m reload created,
    created_at m = Some created ->
    created <> "" ->
    id_str m <> uid recipient ->
    (Date_parse created = None
     \/ exists t, Date_parse created = Some t
                  /\ 7 * 86400 * 1000 <= clock s - t) ->
    15 <= followers_count m ->
    effects_of (evaluate recipient (Some m) reload s)
    = [Log info "got at reply from"]
    /\ state_of (evaluate recipient (Some m) reload s) = s.
Proof.
  intros s recipient m reload created Hc Hne Hid Hold Hf.
  assert (Htruthy : truthy (created_at m) = true).
  { rewrite Hc. simpl. by apply negb_true_iff, String.eqb_neq. }
  assert (Hage : js_lt (ageInDays (clock s) (created_at m)) MIN_AGE = false).
  { apply not_true_iff_false. rewrite new_account_iff, Hc.
    intros (c & t & [= <-] & Ht & Hlt).
    destruct Hold as [Hno|(t' & Hno & Hge)]; [congruence|].
    rewrite Hno in Ht. injection Ht as ->. lia. }
  apply String.eqb_neq in Hid. apply Z.ltb_ge in Hf.
  unfold evaluate, checkReplyAndBlock.
  rewrite Htruthy, Hid. simpl.
  unfold mbind, Js_bind, get_state, emit, skip, mret, Js_ret, effects_of,
    state_of. simpl.
  rewrite Hage. unfold MIN_FOLLOWERS. rewrite Hf. done.
Qed.

(** ** Which callback makes which call *)

Lemma forEach_silent {A B} (g : Effect -> list B) (f : A -> Js unit) (l : list A) :
  (forall x s, flat_map g (effects_of (f x s)) = []) ->
  forall s, flat_map g (effects_of (forEach l f s)) = [].
Proof.
  intros Hf. induction l as [|x l IH]; intros s; [done|].
  destruct (forEach_cons f x l s) as [-> _].
  by rewrite flat_map_app, Hf, IH.
Qed.

Lemma emit_then (e : Effect) (m : Js unit) (s : State) :
  effects_of ((emit e;; m) s) = e :: effects_of (m s)
  /\ state_of ((emit e;; m) s) = state_of (m s).
Proof. done. Qed.

Ltac js_cases :=
  js_unfold; simpl;
  repeat match goal with
         | |- context [if ?b then _ else _] => destruct b eqn:?; simpl
         | |- context [match ?o with Some _ => _ | None => _ end] =>
             destruct o eqn:?; simpl
         end.

Lemma checkReplyAndBlock_no_block r mu s :
  block_candidates (effects_of (checkReplyAndBlock r mu s)) = [].
Proof. destruct mu as [m|]; js_cases; done. Qed.

Lemma startStream_no_block u s :
  block_candidates (effects_of (startStream u s)) = [].
Proof. done. Qed.

(** X5: the event loop enqueues a block in one callback only, the
    success callback of a reload; when it does, it enqueues exactly
    one, from the reloaded recipient against the sender the closure
    captured.  No other callback (stream data, replay of the
    timeline, terminations, timers, sampler) puts anything on the
    action queue. *)
Theorem blocks_come_from_reloads_only :
  forall s e s' out c,
    step s e = Some (s', out) ->
    In c (block_candidates out) ->
    exists recipient m age,
      e = ReloadSuccess recipient m age
      /\ block_candidates out = [c]
      /\ bc_recipient c = uid recipient
      /\ bc_targets c = [id_str m].
Proof.
  intros s e s' out c Hstep Hin.
  destruct e as [t|id|users| |u data|u statusCode|u|u req|u res|r m age];
    simpl in Hstep; unfold run in Hstep.
  - destruct (clock s <=? t); [|done]. by injection Hstep as <- <-.
  - unfold fire in Hstep.
    destruct (find_timer id (timers s)) as [t|]; [|done].
    destruct (due t <=? clock s); [|done]. injection Hstep as <- <-.
    exfalso. revert Hin. destruct (callback t); js_cases; done.
  - injection Hstep as <- <-. exfalso. revert Hin.
    by rewrite (forEach_silent _ startStream users startStream_no_block).
  - by injection Hstep as <- <-.
  - injection Hstep as <- <-. exfalso. revert Hin.
    destruct data as [d|]; [|done]. unfold dataCallback.
    destruct (disconnect d); [js_cases; done|].
    destruct (warning d); [js_cases; done|].
    destruct (truthy (event d)); [js_cases; done|].
    destruct (_ && _); [|done].
    by rewrite checkReplyAndBlock_no_block.
  - injection Hstep as <- <-. exfalso. revert Hin. js_cases; done.
  - by injection Hstep as <- <-.
  - by injection Hstep as <- <-.
  - injection Hstep as <- <-. exfalso. revert Hin.
    destruct res as [code|mentions]; [done|].
    rewrite checkPastMentions_callback_replayed.
    destruct (emit_then (Log debug "Replaying past mentions")
                (forEach (replayed mentions) (checkReplyAndBlock u)) s) as [-> _].
    unfold block_candidates. simpl.
    by rewrite (forEach_silent _ (checkReplyAndBlock u) (replayed mentions)
                  (checkReplyAndBlock_no_block u) s).
  - injection Hstep as <- <-. exists r, m, age. split; [done|].
    revert Hin. js_cases; first [done | intros [<-|[]]; done].
Qed.

Lemma checkReplyAndBlock_no_verify r mu s :
  verified_users (effects_of (checkReplyAndBlock r mu s)) = [].
Proof. destruct mu as [m|]; js_cases; done. Qed.

Lemma startStream_no_verify u s :
  verified_users (effects_of (startStream u s)) = [].
Proof. done. Qed.

(** X6: the credentials of an account are checked again in two cases
    only, and then exactly once for that account: when its stream
    ends with status 401 or 403, and when its stream delivers a
    disconnect notice with code 6, 13 or 14.  No other event leads
    to a credential check. *)
Theorem credentials_are_verified_exactly_when :
  forall s e s' out,
    step s e = Some (s', out) ->
    (forall u, In u (verified_users out) ->
       (exists statusCode, e = StreamEnd u statusCode
                           /\ (statusCode = 401 \/ statusCode = 403))
       \/ (exists d notice, e = StreamData u (Some d)
                            /\ disconnect d = Some notice
                            /\ (disconnect_code notice = 6
                                \/ disconnect_code notice = 13
                                \/ disconnect_code notice = 14)))
    /\ (forall u statusCode,
          e = StreamEnd u statusCode -> statusCode = 401 \/ statusCode = 403 ->
          verified_users out = [u])
    /\ (forall u d notice,
          e = StreamData u (Some d) -> disconnect d = Some notice ->
          disconnect_code notice = 6 \/ disconnect_code notice = 13
          \/ disconnect_code notice = 14 ->
          verified_users out = [u]).
Proof.
  intros s e s' out Hstep. split_and!.
  - intros v Hin.
    destruct e as [t|id|users| |u data|u statusCode|u|u req|u res|r m age];
      simpl in Hstep; unfold run in Hstep.
    + destruct (clock s <=? t); [|done]. by injection Hstep as <- <-.
    + unfold fire in Hstep.
      destruct (find_timer id (timers s)) as [t|]; [|done].
      destruct (due t <=? clock s); [|done]. injection Hstep as <- <-.
      exfalso. revert Hin. destruct (callback t); js_cases; done.
    + injection Hstep as <- <-. exfalso. revert Hin.
      by rewrite (forEach_silent _ startStream users startStream_no_verify).
    + by injection Hstep as <- <-.
    + injection Hstep as <- <-. right.
      destruct data as [d|]; [|done]. unfold dataCallback in Hin.
      destruct (disconnect d) as [notice|] eqn:Hd.
      * exists d, notice. revert Hin. js_unfold. simpl.
        destruct (Z.eqb_spec (disconnect_code notice) 6);
          destruct (Z.eqb_spec (disconnect_code notice) 13);
          destruct (Z.eqb_spec (disconnect_code notice) 14); simpl;
          first [done | intros [<-|[]]; split_and!; auto].
      * exfalso. revert Hin.
        destruct (warning d); [js_cases; done|].
        destruct (truthy (event d)); [js_cases; done|].
        destruct (_ && _); [|done].
        by rewrite checkReplyAndBlock_no_verify.
    + injection Hstep as <- <-. left. exists statusCode. revert Hin.
      js_unfold. simpl.
      destruct (Z.eqb_spec statusCode 401); destruct (Z.eqb_spec statusCode 403);
        simpl; destruct (statusCode =? 420); simpl;
        first [done | intros [<-|[]]; split_and!; auto].
    + by injection Hstep as <- <-.
    + by injection Hstep as <- <-.
    + injection Hstep as <- <-. exfalso. revert Hin.
      destruct res as [code|mentions]; [done|].
      rewrite checkPastMentions_callback_replayed.
      destruct (emit_then (Log debug "Replaying past mentions")
                  (forEach (replayed mentions) (checkReplyAndBlock u)) s) as [-> _].
      unfold verified_users. simpl.
      by rewrite (forEach_silent _ (checkReplyAndBlock u) (replayed mentions)
                    (checkReplyAndBlock_no_verify u) s).
    + injection Hstep as <- <-. exfalso. revert Hin. js_cases; done.
  - intros u statusCode -> Hcode. simpl in Hstep. unfold run in Hstep.
    injection Hstep as <- <-. js_unfold. simpl.
    destruct Hcode as [-> | ->]; done.
  - intros u d notice -> Hd Hcode. simpl in Hstep. unfold run in Hstep.
    injection Hstep as <- <-. unfold dataCallback. rewrite Hd.
    js_unfold. simpl. destruct Hcode as [-> | [-> | ->]]; done.
Qed.

(** ** Who writes to the session registry *)

Lemma dataCallback_registry r data s :
  streams (state_of (dataCallback r data s)) = streams s
  /\ next_req (state_of (dataCallback r data s)) = next_req s
  /\ clock (state_of (dataCallback r data s)) = clock s.
Proof.
  destruct data as [d|]; [|done]. unfold dataCallback.
  destruct (disconnect d); [js_cases; done|].
  destruct (warning d); [js_cases; done|].
  destruct (truthy (event d)); [js_cases; done|].
  destruct (_ && _); [|done].
  by destruct (checkReplyAndBlock_frame r (user d) s) as [-> _].
Qed.

(** X7: the entry of an account in the session registry changes in
    three events only: a result of the sampler's query that contains
    the account, a termination of the account's stream with a status
    other than 420, and the firing of a cooldown timer of the
    account.  Stream data, the replay of the timeline, reloads,
    errors, timeouts and the sampler's tick leave every entry as it
    is, and an event about one account leaves the entries of the
    others as they are. *)
Theorem registry_entry_changes_only_when :
  forall s e s' out k,
    step s e = Some (s', out) ->
    streams s' !! k <> streams s !! k ->
    (exists users, e = FindAllSuccess users /\ k ∈ map uid users)
    \/ (exists u statusCode, e = StreamEnd u statusCode /\ uid u = k
                             /\ statusCode <> 420)
    \/ (exists id t u stream, e = TimerFires id
                              /\ find_timer id (timers s) = Some t
                              /\ callback t = CooldownRemoval u stream
                              /\ uid u = k).
Proof.
  intros s e s' out k Hstep Hne.
  destruct e as [t|id|users| |u data|u statusCode|u|u req|u res|r m age];
    simpl in Hstep; unfold run in Hstep.
  - destruct (clock s <=? t); [|done]. by injection Hstep as <- <-.
  - right. right. unfold fire in Hstep.
    destruct (find_timer id (timers s)) as [t|] eqn:Hfind; [|done].
    destruct (due t <=? clock s); [|done]. injection Hstep as <- <-.
    destruct (callback t) as [|u stream|u] eqn:Hcb; [done| |done].
    exists id, t, u, stream. split_and!; try done.
    destruct (decide (uid u = k)) as [|Hk]; [done|]. exfalso. apply Hne.
    simpl. unfold cooldown_removal, mbind, Js_bind, get_state, state_of. simpl.
    destruct (decide _); simpl; [|done]. by rewrite lookup_delete_ne.
  - left. injection Hstep as <- <-. exists users. split; [done|].
    destruct (decide (k ∈ map uid users)) as [|Hk]; [done|]. exfalso.
    apply Hne. by apply forEach_startStream_registered.
  - by injection Hstep as <- <-.
  - injection Hstep as <- <-. exfalso. apply Hne.
    by destruct (dataCallback_registry u data s) as [-> _].
  - right. left. injection Hstep as <- <-. exists u, statusCode.
    destruct (Z.eqb_spec statusCode 420) as [->|Hcode].
    + exfalso. by apply Hne.
    + split_and!; try done.
      destruct (decide (uid u = k)) as [|Hk]; [done|]. exfalso. apply Hne.
      js_unfold. simpl. apply Z.eqb_neq in Hcode. rewrite Hcode.
      destruct (_ || _); simpl; by rewrite lookup_delete_ne.
  - by injection Hstep as <- <-.
  - by injection Hstep as <- <-.
  - injection Hstep as <- <-. exfalso. apply Hne.
    destruct res as [code|mentions]; [done|].
    rewrite checkPastMentions_callback_replayed.
    destruct (emit_then (Log debug "Replaying past mentions")
                (forEach (replayed mentions) (checkReplyAndBlock u)) s) as [_ ->].
    by destruct (forEach_checkReplyAndBlock_frame u (replayed mentions) s) as [-> _].
  - injection Hstep as <- <-. exfalso. apply Hne. js_cases; done.
Qed.

(** ** Request objects are never confused *)

Lemma startStream_fresh u s :
  requests_fresh s -> requests_fresh (state_of (startStream u s)).
Proof.
  intros [Hreg Hcap]. rewrite startStream_state. split; simpl.
  - intros k r. destruct (decide (uid u = k)) as [<-|Hk].
    + rewrite lookup_insert_eq. intros [= <-]. lia.
    + rewrite lookup_insert_ne; [|done]. intros H%Hreg. lia.
  - intros t u0 r Hin Hcb. specialize (Hcap t u0 r Hin Hcb). lia.
Qed.

Lemma forEach_startStream_fresh users s :
  requests_fresh s -> requests_fresh (state_of (forEach users startStream s)).
Proof.
  revert s. induction users as [|u users IH]; intros s Hs; [done|].
  destruct (forEach_cons startStream u users s) as [_ ->].
  by apply IH, startStream_fresh.
Qed.

Lemma requests_fresh_same s s' :
  streams s' = streams s -> next_req s' = next_req s ->
  (forall t, t ∈ timers s' ->
     (exists t0, t0 ∈ timers s /\ callback t0 = callback t)
     \/ exists u, callback t = UpdateBlocks u) ->
  requests_fresh s -> requests_fresh s'.
Proof.
  intros Hst Hn Ht [Hreg Hcap]. split.
  - intros k r. rewrite Hst, Hn. apply Hreg.
  - intros t u r Hin Hcb. rewrite Hn.
    destruct (Ht t Hin) as [(t0 & Hin0 & Hcb0)|[u' Hu']]; [|congruence].
    apply (Hcap t0 u r Hin0). congruence.
Qed.

Lemma step_fresh s e s' out :
  requests_fresh s -> step s e = Some (s', out) -> requests_fresh s'.
Proof.
  intros Hs Hstep.
  destruct e as [t|id|users| |u data|u statusCode|u|u req|u res|r m age];
    simpl in Hstep; unfold run in Hstep.
  - destruct (clock s <=? t); [|done]. injection Hstep as <- <-.
    apply (requests_fresh_same s); try done. intros t' Ht'. left. eauto.
  - unfold fire in Hstep.
    destruct (find_timer id (timers s)) as [t|] eqn:Hfind; [|done].
    destruct (due t <=? clock s); [|done]. injection Hstep as <- <-.
    destruct (find_timer_Some _ _ _ Hfind) as [Hin _].
    assert (Hkeep : forall t', t' ∈ timers (without_timer id s) ++ rearm (clock s) t ->
              (exists t0, t0 ∈ timers s /\ callback t0 = callback t')
              \/ exists u, callback t' = UpdateBlocks u).
    { intros t' [Ht'|Ht']%elem_of_app; left.
      - apply timers_without in Ht' as [Ht' _]. eauto.
      - exists t. split; [done|]. unfold rearm in Ht'.
        destruct (repeat_ms t); [|by apply elem_of_nil in Ht'].
        by apply list_elem_of_singleton in Ht' as ->. }
    destruct (callback t) as [|u stream|u]; simpl.
    + by apply (requests_fresh_same s).
    + unfold cooldown_removal, mbind, Js_bind, get_state, state_of. simpl.
      destruct (decide _); simpl; [|by apply (requests_fresh_same s)].
      destruct Hs as [Hreg Hcap]. split; simpl.
      * intros k r Hl. apply Hreg with k.
        destruct (decide (uid u = k)) as [<-|Hk];
          [by rewrite lookup_delete_eq in Hl|by rewrite lookup_delete_ne in Hl].
      * intros t' u' r Ht' Hcb.
        destruct (Hkeep t' Ht') as [(t0 & Hin0 & Hcb0)|[u'' Hu'']]; [|congruence].
        apply (Hcap t0 u' r Hin0). congruence.
    + by apply (requests_fresh_same s).
  - injection Hstep as <- <-. by apply forEach_startStream_fresh.
  - injection Hstep as <- <-. apply (requests_fresh_same s); try done.
    intros t' Ht'. left. eauto.
  - injection Hstep as <- <-.
    destruct (dataCallback_registry u data s) as (Hst & Hn & _).
    apply (requests_fresh_same s); try done.
    intros t Ht. destruct data as [d|]; [|left; eauto].
    unfold dataCallback in Ht.
    destruct (disconnect d); [left; revert Ht; js_cases; eauto|].
    destruct (warning d); [left; revert Ht; js_cases; eauto|].
    destruct (truthy (event d)).
    + revert Ht. js_unfold. simpl.
      destruct (target d); simpl; destruct (_ || _); simpl; try (left; eauto; fail);
        destruct (updateBlocksTimers s !! uid u); simpl;
        intros [Ht| ->%list_elem_of_singleton]%elem_of_app; simpl; eauto;
        left; try (apply timers_without in Ht as [Ht _]); eauto.
    + destruct (_ && _); [|left; eauto].
      destruct (checkReplyAndBlock_frame u (user d) s) as [Heq _].
      rewrite Heq in Ht. left. eauto.
  - injection Hstep as <- <-. js_unfold. simpl.
    destruct Hs as [Hreg Hcap].
    destruct (statusCode =? 420); simpl.
    + split; simpl.
      * destruct (_ || _); simpl; apply Hreg.
      * intros t u' r. destruct (_ || _); simpl;
          (intros [Hin| ->%list_elem_of_singleton]%elem_of_app Hcb;
           [by apply (Hcap t u' r)|]);
          simpl in Hcb; injection Hcb as _ Hcb; by apply Hreg in Hcb.
    + split; simpl.
      * intros k r. destruct (_ || _); simpl; intros Hl; apply Hreg with k;
          (destruct (decide (uid u = k)) as [<-|Hk];
           [by rewrite lookup_delete_eq in Hl|by rewrite lookup_delete_ne in Hl]).
      * destruct (_ || _); simpl; apply Hcap.
  - injection Hstep as <- <-. apply (requests_fresh_same s); try done.
    intros t' Ht'. left. eauto.
  - injection Hstep as <- <-. apply (requests_fresh_same s); try done.
    intros t' Ht'. left. eauto.
  - injection Hstep as <- <-.
    assert (Heq : state_of (checkPastMentions_callback u res s) = s).
    { destruct res as [code|mentions]; [done|].
      rewrite checkPastMentions_callback_replayed.
      destruct (emit_then (Log debug "Replaying past mentions")
                  (forEach (replayed mentions) (checkReplyAndBlock u)) s) as [_ ->].
      by destruct (forEach_checkReplyAndBlock_frame u (replayed mentions) s). }
    by rewrite Heq.
  - injection Hstep as <- <-.
    assert (Heq : state_of (reload_success r m age s) = s) by (js_cases; done).
    by rewrite Heq.
Qed.

Lemma boot_fresh t0 : requests_fresh (boot t0).
Proof.
  split; simpl.
  - intros k r [_ ?]%lookup_singleton_Some. done.
  - intros t u r ->%list_elem_of_singleton. done.
Qed.

Lemma reachable_fresh s : reachable s -> requests_fresh s.
Proof.
  induction 1 as [t0|s e s' out _ IH Hstep]; [apply boot_fresh|].
  by eapply step_fresh.
Qed.

(** X8: in every reachable state, a stream that is started is
    registered under a request object that is new: it differs from
    every entry the registry held, and from every value a waiting
    cooldown timer captured. *)
Theorem started_stream_gets_a_new_request :
  forall s u,
    reachable s ->
    (forall k entry, streams s !! k = Some entry ->
       streams (state_of (startStream u s)) !! uid u <> Some entry)
    /\ (forall t u0 stream, t ∈ timers s ->
          callback t = CooldownRemoval u0 stream ->
          streams (state_of (startStream u s)) !! uid u <> stream).
Proof.
  intros s u [Hreg Hcap]%reachable_fresh. rewrite startStream_state. simpl.
  rewrite lookup_insert_eq. split.
  - intros k entry Hl [= <-]. apply Hreg in Hl. lia.
  - intros t u0 stream Hin Hcb <-. specialize (Hcap t u0 _ Hin Hcb). lia.
Qed.

(** X9: a cooldown timer never removes a session that was started
    after the termination it belongs to.  If a cooldown timer for an
    account waits in a reachable state, and later the registry holds
    for that account a request created since then, the timer's
    callback logs the inconsistency and leaves everything as it is. *)
Theorem stale_cooldown_spares_newer_session :
  forall s t u stream s2 r2,
    reachable s ->
    t ∈ timers s ->
    callback t = CooldownRemoval u stream ->
    streams s2 !! uid u = Some (Request r2) ->
    (next_req s <= r2)%nat ->
    state_of (cooldown_removal u stream s2) = s2
    /\ effects_of (cooldown_removal u stream s2)
       = [ Log error "Tried to delete stream but it had already been replaced" ].
Proof.
  intros s t u stream s2 r2 [_ Hcap]%reachable_fresh Hin Hcb Hl Hge.
  unfold cooldown_removal, mbind, Js_bind, get_state, state_of, effects_of.
  simpl. rewrite Hl. destruct (decide _) as [->|]; [|done].
  specialize (Hcap t u r2 Hin Hcb). lia.
Qed.

(** ** The sampler stays armed *)

Lemma sampler_change s s' out :
  timers_wf s -> clock s <= clock s' -> TimerChange s s' out ->
  sampler_armed s -> sampler_armed s'.
Proof.
  intros Hwf Hclock Hch (t & Hf & Hrep & Hdue). unfold sampler_armed.
  assert (Hint : t ∈ timers s /\ is_sampler t = true).
  { apply elem_of_List_filter. rewrite Hf. by apply list_elem_of_singleton. }
  destruct Hint as [Hint Hsam].
  destruct Hch as [Ht Hu Hn _
                  |u stream Hc Ht Hu Hn _
                  |u pre _ _ ->
                  |id t0 Hfind Hdue0 Hc Ht Hu Hn _].
  - exists t. rewrite Ht. split_and!; [done|done|lia].
  - exists t. rewrite Ht, List.filter_app, Hf. simpl. split_and!; [done|done|lia].
  - exists t. rewrite handleBlockEvent_state. simpl.
    rewrite List.filter_app. simpl. rewrite app_nil_r.
    destruct (updateBlocksTimers s !! uid u) as [old|] eqn:Hl; simpl.
    + split_and!; [|done|done].
      unfold without_timer. simpl. rewrite filter_comm, Hf. simpl.
      destruct (Nat.eqb_spec (tid t) old) as [Heq|]; [|done]. exfalso.
      destruct Hwf as (_ & _ & _ & _ & Hown).
      rewrite <- Heq in Hl. destruct (Hown _ _ Hl Hint) as (u' & Hcb & _).
      unfold is_sampler in Hsam. by rewrite Hcb in Hsam.
    + done.
  - destruct (find_timer_Some _ _ _ Hfind) as [Hin0 Hid].
    rewrite Ht, List.filter_app. unfold without_timer. simpl.
    rewrite filter_comm, Hf. simpl.
    destruct (Nat.eqb_spec (tid t) id) as [Heq|Hne]; simpl.
    + assert (t0 = t).
      { destruct Hwf as (Hnd & _).
        apply (NoDup_tid_inj (timers s)); [done|done|done|congruence]. }
      subst t0. unfold rearm. rewrite Hrep. simpl.
      unfold is_sampler in *. simpl.
      destruct (callback t); try done.
      eexists. split_and!; [done|done|]. simpl. lia.
    + assert (Hre : List.filter is_sampler (rearm (clock s) t0) = []).
      { unfold rearm. destruct (repeat_ms t0) eqn:Hrep0; [|done]. simpl.
        unfold is_sampler at 1. simpl.
        destruct (callback t0) eqn:Hcb0; try done. exfalso.
        assert (Hin' : t0 ∈ List.filter is_sampler (timers s)).
        { apply elem_of_List_filter. split; [done|].
          unfold is_sampler. by rewrite Hcb0. }
        rewrite Hf in Hin'. apply list_elem_of_singleton in Hin'. congruence. }
      rewrite Hre. exists t. split_and!; [done|done|lia].
Qed.

(** X10: the sampler is never cancelled.  In every reachable state
    exactly one timer of [startStreams] waits in the queue; it is
    an interval of 1000 ms, and it is due no later than 1000 ms
    from the current time. *)
Theorem sampler_stays_armed :
  forall s,
    reachable s ->
    exists t, List.filter is_sampler (timers s) = [t]
              /\ repeat_ms t = Some 1000
              /\ due t <= clock s + 1000.
Proof.
  change (forall s, reachable s -> sampler_armed s).
  induction 1 as [t0|s e s' out Hr IH Hstep].
  - eexists. split_and!; [done|done|]. simpl. lia.
  - apply step_change in Hstep as [Hclock Hch].
    by apply (sampler_change s s' out); [apply reachable_wf| | |].
Qed.

(** ** The debouncer never calls more often than it is notified *)

Lemma exec_debounce_count id evs :
  forall s st s1 log,
    timers_wf s -> status_ok id s st ->
    exec s evs = Some (s1, log) ->
    exists st1,
      status_ok id s1 st1
      /\ (length (reconcile_times id log) + length (armed_at st1)
          <= length (notify_times id log) + length (armed_at st))%nat
      /\ Forall (fun t => exists l, l ∈ armed_at st ++ notify_times id log
                                    /\ l + 2000 <= t)
                (reconcile_times id log).
Proof.
  induction evs as [|e evs IH]; intros s st s1 log Hwf Hst Hexec.
  - injection Hexec as <- <-. exists st. split_and!; [done|simpl; lia|constructor].
  - apply exec_cons in Hexec as (s' & out & log' & Hstep & Hexec & ->).
    apply step_change in Hstep as [Hclock Hch].
    pose proof (wf_change _ _ _ Hwf Hch) as Hwf'.
    destruct (times_cons id {| at_time := clock s'; trigger := e; calls := out |} log')
      as [-> ->]. cbn [at_time calls].
    destruct (debounce_step id s s' out st Hwf Hst Hclock Hch)
      as [(Hn & Hr & Hst')
         |[(e0 & Hn & Hr & Hc & Hst')
          |(l & e0 & -> & Hn & Hr & Hc & Hl & Hst')]];
      rewrite Hn, Hr; simpl.
    + by apply (IH s' st).
    + destruct (IH s' (Armed (clock s)) s1 log' Hwf' Hst' Hexec)
        as (st1 & H1 & H2 & H3).
      exists st1. split_and!; [done|simpl in *; lia|].
      eapply Forall_impl; [exact H3|]. simpl.
      intros t (l & Hl & Hle). exists l. split; [|done].
      rewrite Hc. apply elem_of_app. right. done.
    + destruct (IH s' (Fired l) s1 log' Hwf' Hst' Hexec)
        as (st1 & H1 & H2 & H3).
      exists st1. split_and!; [done|simpl in *; lia|].
      constructor.
      * exists l. split; [apply elem_of_cons; auto|lia].
      * eapply Forall_impl; [exact H3|]. simpl.
        intros t (l' & Hl' & Hle). exists l'. split; [|done].
        apply elem_of_cons. auto.
Qed.

(** X11: along every run of the event loop from a reachable state in
    which no debounce timer waits for an account, whatever the
    spacing of the notifications, [remoteUpdateBlocks] is called for
    the account at most as many times as the account was notified,
    and each call comes at least 2000 ms after one of the
    notifications. *)
Theorem reconciliations_are_bounded_by_notifications :
  forall id s0 evs s1 log,
    reachable s0 ->
    pending_debounce id s0 = [] ->
    exec s0 evs = Some (s1, log) ->
    (length (reconcile_times id log) <= length (notify_times id log))%nat
    /\ Forall (fun t => exists l, l ∈ notify_times id log /\ l + 2000 <= t)
              (reconcile_times id log).
Proof.
  intros id s0 evs s1 log Hr Hidle Hexec.
  destruct (exec_debounce_count id evs s0 Idle s1 log (reachable_wf _ Hr)
              Hidle Hexec) as (st1 & _ & Hlen & Hall).
  simpl in *. split; [lia|done].
Qed.

(** ** Accounts do not disturb each other's debouncer *)

(** X12: in a reachable state, data on the stream of one account,
    whatever the payload, leaves the debouncer of every other
    account alone: the timers waiting for the other account and the
    handle recorded for it are unchanged, and the callback neither
    notifies nor reconciles the other account. *)
Theorem stream_data_leaves_other_debouncers_alone :
  forall s u data s' out id,
    reachable s ->
    step s (StreamData u data) = Some (s', out) ->
    uid u <> id ->
    pending_debounce id s' = pending_debounce id s
    /\ updateBlocksTimers s' !! id = updateBlocksTimers s !! id
    /\ List.filter (is_notification id) out = []
    /\ List.filter (is_reconciliation id) out = [].
Proof.
  intros s u data s' out id Hr Hstep Hne. simpl in Hstep. unfold run in Hstep.
  injection Hstep as <- <-. apply String.eqb_neq in Hne.
  destruct data as [d|]; [|done]. 
  destruct (disconnect d) as [notice|] eqn:Hd.
  { unfold dataCallback. rewrite Hd. js_cases; done. }
  destruct (warning d) as [w|] eqn:Hw.
  { unfold dataCallback. rewrite Hd, Hw. js_cases; done. }
  destruct (truthy (event d)) eqn:Hev.
  - destruct (dataCallback_event u d s Hd Hw Hev) as [-> ->].
    destruct (_ || _).
    + rewrite (handleBlockEvent_pending id u s (reachable_wf _ Hr)), Hne.
      destruct (handleBlockEvent_calls id u s) as [Hn Hc]. rewrite Hne in Hn.
      split_and!.
      * done.
      * rewrite handleBlockEvent_state. simpl.
        apply String.eqb_neq in Hne.
        rewrite lookup_insert_ne; [|done].
        by destruct (updateBlocksTimers s !! uid u).
      * rewrite app_comm_cons, List.filter_app, Hn, app_nil_r.
        by destruct (target d).
      * rewrite app_comm_cons, List.filter_app, Hc, app_nil_r.
        by destruct (target d).
    + split_and!; try done; by destruct (target d).
  - unfold dataCallback. rewrite Hd, Hw, Hev.
    destruct (_ && _); [|done].
    destruct (checkReplyAndBlock_frame u (user d) s) as [-> Hq].
    destruct (quiet_filters id _ Hq) as [-> ->]. done.
Qed.

(** ** The cooldown, from the termination to the removal *)




(** ** Sessions the registry loses track of *)

(** X15: [startStream] does not look at the registry, and
    [endCallback] does not look at which request ended.  When the
    sampler's query returns the same account twice in a row (two
    queries answered before the first stream was registered), two
    connections are opened; when one of them then ends with a
    status other than 420, the registry holds no entry for the
    account although a connection is still open, so the sampler
    may select it again. *)
Theorem duplicate_start_loses_track_of_a_connection :
  forall s u statusCode,
    statusCode <> 420 ->
    exists s1 log,
      exec s [FindAllSuccess [u]; FindAllSuccess [u]; StreamEnd u statusCode]
      = Some (s1, log)
      /\ opened_streams (flat_map calls log) = [u; u]
      /\ (forall e, In e (flat_map calls log) ->
                    forall req, e <> ReqAbort req)
      /\ streams s1 !! uid u = None
      /\ next_req s1 = S (S (next_req s)).
Proof.
  intros s u statusCode Hcode. apply Z.eqb_neq in Hcode.
  eexists _, _. split.
  - cbn [exec step run]. reflexivity.
  - cbn [flat_map calls app]. split_and!.
    + js_unfold. simpl. rewrite Hcode. by destruct (_ || _).
    + intros e He req ->. revert He. js_unfold. simpl. rewrite Hcode.
      destruct (_ || _); simpl; intuition congruence.
    + js_unfold. simpl. rewrite Hcode.
      destruct (_ || _); simpl; apply lookup_delete_eq.
    + js_unfold. simpl. rewrite Hcode. by destruct (_ || _).
Qed.

(** ** The replay of the timeline, call by call *)

Lemma replayed_last_occurrences (mentions : list Status) :
  replayed mentions
  = map (fun k => last_occurrence k (map status_user mentions))
        (Object_keys (mentioningUsers mentions)).
Proof.
  unfold replayed. apply map_ext. intros k. apply mentioningUsers_get.
Qed.

Lemma mentioningUsers_keys (mentions : list Status) :
  NoDup (Object_keys (mentioningUsers mentions))
  /\ forall k, k ∈ Object_keys (mentioningUsers mentions)
               <-> k ∈ map id_str (map status_user mentions).
Proof.
  pose proof (indexBy_keys_acc id_str (map status_user mentions) [])
    as [Hnd Hkeys]; [apply NoDup_nil_2|].
  fold (indexBy id_str (map status_user mentions)) in Hnd, Hkeys.
  fold (mentioningUsers mentions) in Hnd, Hkeys.
  split.
  - by rewrite Object_keys_perm.
  - intros k. rewrite Object_keys_perm, Hkeys, elem_of_nil.
    unfold fmap, list_fmap. split; [by intros [[]|?] | by right].
Qed.

Lemma checkReplyAndBlock_reloads r mu s :
  reload_requests (effects_of (checkReplyAndBlock r mu s)) = []
  \/ exists m, mu = Some m /\ id_str m <> uid r
               /\ reload_requests (effects_of (checkReplyAndBlock r mu s))
                  = [(r, m, ageInDays (clock s) (created_at m))].
Proof.
  destruct mu as [m|]; [|by left]. js_unfold. simpl.
  destruct (truthy (created_at m)); simpl; [|by left].
  destruct (String.eqb_spec (id_str m) (uid r)); simpl; [by left|].
  destruct (js_lt _ _ || _); simpl; [|by left].
  right. by exists m.
Qed.

Lemma reload_requests_app (l1 l2 : list Effect) :
  reload_requests (l1 ++ l2) = reload_requests l1 ++ reload_requests l2.
Proof. apply flat_map_app. Qed.

Lemma replay_reloads user (g : string -> option TwitterUser) s :
  (forall k m, g k = Some m -> id_str m = k) ->
  forall keys,
    map (fun q => id_str q.1.2)
        (reload_requests
           (effects_of (forEach (map g keys) (checkReplyAndBlock user) s)))
    `sublist_of` keys
    /\ forall q, q ∈ reload_requests
                       (effects_of (forEach (map g keys) (checkReplyAndBlock user) s)) ->
                 q.1.1 = user /\ id_str q.1.2 <> uid user
                 /\ exists k, k ∈ keys /\ g k = Some q.1.2.
Proof.
  intros Hg. induction keys as [|k keys [IH1 IH2]]; cbn [map].
  - split; [done|]. by intros q ?%elem_of_nil.
  - destruct (forEach_cons (checkReplyAndBlock user) (g k) (map g keys) s)
      as [-> _].
    destruct (checkReplyAndBlock_frame user (g k) s) as [-> _].
    rewrite reload_requests_app.
    destruct (checkReplyAndBlock_reloads user (g k) s)
      as [-> | (m & Hm & Hne & ->)]; simpl.
    + split; [by apply sublist_cons|].
      intros q Hq. destruct (IH2 q Hq) as (? & ? & k' & ? & ?).
      split_and!; try done. exists k'. split; [|done]. apply elem_of_cons. auto.
    + rewrite (Hg k m Hm). split; [by apply sublist_skip|].
      intros q [->|Hq]%elem_of_cons.
      * simpl. split_and!; try done. exists k. split; [|done].
        apply elem_of_cons. auto.
      * destruct (IH2 q Hq) as (? & ? & k' & ? & ?).
        split_and!; try done. exists k'. split; [|done]. apply elem_of_cons. auto.
Qed.

(** X16: the replay of the timeline asks for at most one reload per
    distinct sender, each for the account of the stream and a
    sender of the timeline other than that account; it enqueues
    nothing itself (a block can only follow from one of these
    reloads) and leaves the state as it is.  When the timeline could
    not be fetched, it logs the error and does nothing else. *)
Theorem replay_reloads_each_sender_at_most_once :
  forall user mentions s,
    state_of (checkPastMentions_callback user (TimelineOk mentions) s) = s
    /\ block_candidates
         (effects_of (checkPastMentions_callback user (TimelineOk mentions) s))
       = []
    /\ NoDup (map (fun q => id_str q.1.2)
                (reload_requests
                   (effects_of
                      (checkPastMentions_callback user (TimelineOk mentions) s))))
    /\ (forall q,
          q ∈ reload_requests
                (effects_of
                   (checkPastMentions_callback user (TimelineOk mentions) s)) ->
          q.1.1 = user
          /\ q.1.2 ∈ map status_user mentions
          /\ id_str q.1.2 <> uid user)
    /\ (length (reload_requests
                  (effects_of
                     (checkPastMentions_callback user (TimelineOk mentions) s)))
        <= length mentions)%nat
    /\ forall statusCode,
         state_of (checkPastMentions_callback user (TimelineError statusCode) s) = s
         /\ effects_of (checkPastMentions_callback user (TimelineError statusCode) s)
            = [Log error "Error /statuses/mentions"].
Proof.
  intros user mentions s.
  rewrite checkPastMentions_callback_replayed.
  destruct (emit_then (Log debug "Replaying past mentions")
              (forEach (replayed mentions) (checkReplyAndBlock user)) s) as [-> ->].
  destruct (forEach_checkReplyAndBlock_frame user (replayed mentions) s) as [-> _].
  change (reload_requests
            (Log debug "Replaying past mentions"
             :: effects_of (forEach (replayed mentions) (checkReplyAndBlock user) s)))
    with (reload_requests
            (effects_of (forEach (replayed mentions) (checkReplyAndBlock user) s))).
  rewrite replayed_last_occurrences.
  destruct (mentioningUsers_keys mentions) as [Hnd Hkeys].
  destruct (replay_reloads user
              (fun k => last_occurrence k (map status_user mentions)) s
              (fun k m H => proj1 (last_occurrence_id k _ m H))
              (Object_keys (mentioningUsers mentions))) as [Hsub Hall].
  split_and!.
  - done.
  - unfold block_candidates. simpl.
    rewrite <- replayed_last_occurrences.
    apply (forEach_silent _ (checkReplyAndBlock user) (replayed mentions)
             (checkReplyAndBlock_no_block user) s).
  - by eapply sublist_NoDup.
  - intros q Hq. destruct (Hall q Hq) as (? & ? & k & _ & Hk).
    split_and!; try done. by apply last_occurrence_id in Hk as [_ ?].
  - apply sublist_length in Hsub. rewrite length_map in Hsub.
    etrans; [exact Hsub|].
    assert (Hle : Object_keys (mentioningUsers mentions)
                  ⊆+ map id_str (map status_user mentions)).
    { apply NoDup_submseteq; [done|]. intros k. by rewrite Hkeys. }
    apply submseteq_length in Hle. by rewrite !length_map in Hle.
  - done.
Qed.

Lemma fold_obj_set_keys {V} (key : V -> string) (l : list V) (acc : JsObject V) :
  (fold_left (fun o v => obj_set (key v) v o) l acc).*1
  = fold_left (fun ks k => if bool_decide (k ∈ ks) then ks else ks ++ [k])
              (map key l) acc.*1.
Proof.
  revert acc. induction l as [|a l IH]; intros acc; simpl; [done|].
  by rewrite IH, obj_set_keys.
Qed.

Lemma Object_keys_no_index {V} (o : JsObject V) :
  (forall k, k ∈ o.*1 -> array_index k = None) -> Object_keys o = map fst o.
Proof.
  unfold Object_keys. change (o.*1) with (map fst o).
  generalize (map fst o). intros ks Hks.
  assert (H : index_keys ks = [] /\ named_keys ks = ks).
  { unfold index_keys, named_keys.
    induction ks as [|k ks IH]; simpl; [done|].
    rewrite (Hks k); [|apply elem_of_cons; auto].
    destruct IH as [-> ->]; [|done].
    intros k' Hk'. apply Hks, elem_of_cons. auto. }
  destruct H as [-> ->]. done.
Qed.

(** X17: the order of the replay.  When no sender id of the timeline
    is an array index (a canonical decimal number below 2^32 - 1),
    [checkReplyAndBlock] is called once per distinct sender id, in
    the order in which the ids first appear in the timeline, each
    time with the last record of that sender. *)
Theorem replay_follows_first_appearance :
  forall mentions : list Status,
    (forall m, m ∈ mentions -> array_index (id_str (status_user m)) = None) ->
    replayed mentions
    = map (fun k => last_occurrence k (map status_user mentions))
          (first_seen (map id_str (map status_user mentions))).
Proof.
  intros mentions Hno. rewrite replayed_last_occurrences. f_equal.
  assert (Hkeys : map fst (mentioningUsers mentions)
                  = first_seen (map id_str (map status_user mentions))).
  { unfold mentioningUsers, indexBy, first_seen.
    apply (fold_obj_set_keys id_str (map status_user mentions) []). }
  rewrite <- Hkeys. apply Object_keys_no_index.
  intros k Hk.
  pose proof (indexBy_keys_acc id_str (map status_user mentions) [])
    as [_ Hin]; [apply NoDup_nil_2|].
  apply Hin in Hk as [Hk|Hk]; [by apply elem_of_nil in Hk|].
  apply list_elem_of_fmap in Hk as (u & -> & Hu).
  apply list_elem_of_In, in_map_iff in Hu as (m & <- & Hm).
  by apply Hno, list_elem_of_In.
Qed.

(** ** The 'dummy' entry of the registry *)

Lemma dataCallback_timers r data s t :
  t ∈ timers (state_of (dataCallback r data s)) ->
  t ∈ timers s \/ exists u, callback t = UpdateBlocks u.
Proof.
  destruct data as [d|]; [|by left]. unfold dataCallback.
  destruct (disconnect d); [js_cases; auto|].
  destruct (warning d); [js_cases; auto|].
  destruct (truthy (event d)).
  - js_unfold. simpl.
    destruct (target d); simpl; destruct (_ || _); simpl; auto;
      destruct (updateBlocksTimers s !! uid r); simpl;
      intros [Ht| ->%list_elem_of_singleton]%elem_of_app; simpl; eauto;
      left; by apply timers_without in Ht as [Ht _].
  - destruct (_ && _); [|by left].
    destruct (checkReplyAndBlock_frame r (user d) s) as [-> _]. by left.
Qed.

Lemma checkReplyAndBlock_no_query r mu s :
  queries (effects_of (checkReplyAndBlock r mu s)) = [].
Proof. destruct mu as [m|]; js_cases; done. Qed.

Lemma startStream_no_query u s : queries (effects_of (startStream u s)) = [].
Proof. done. Qed.

Lemma dummy_step s e s' out :
  dummy_kept s -> "dummy" ∉ event_uids e -> step s e = Some (s', out) ->
  dummy_kept s'
  /\ forall ids n, (ids, n) ∈ queries out -> "dummy" ∈ ids.
Proof.
  intros [Hd Hcool] He Hstep.
  assert (Hkeys : "dummy" ∈ keys_of_streams (streams s)).
  { apply keys_of_streams_elem. by rewrite Hd. }
  destruct e as [t|id|users| |u data|u statusCode|u|u req|u res|r m age];
    simpl in Hstep, He; unfold run in Hstep.
  - destruct (clock s <=? t); [|done]. injection Hstep as <- <-.
    split; [done|]. by intros ids lim ?%elem_of_nil.
  - unfold fire in Hstep.
    destruct (find_timer id (timers s)) as [t|] eqn:Hfind; [|done].
    destruct (due t <=? clock s); [|done]. injection Hstep as <- <-.
    destruct (find_timer_Some _ _ _ Hfind) as [Hin _].
    assert (Hkeep : forall t' u stream,
              t' ∈ timers (without_timer id s) ++ rearm (clock s) t ->
              callback t' = CooldownRemoval u stream -> uid u <> "dummy").
    { intros t' u stream [Ht'|Ht']%elem_of_app Hcb.
      - apply timers_without in Ht' as [Ht' _]. eauto.
      - unfold rearm in Ht'.
        destruct (repeat_ms t); [|by apply elem_of_nil in Ht'].
        apply list_elem_of_singleton in Ht' as ->. simpl in Hcb. eauto. }
    destruct (callback t) as [|u stream|u] eqn:Hcb; simpl.
    + split; [done|]. intros ids lim Hq.
      apply list_elem_of_singleton in Hq. injection Hq as -> _. exact Hkeys.
    + unfold cooldown_removal, mbind, Js_bind, get_state, state_of, effects_of.
      simpl. destruct (decide _); simpl.
      * split; [|by intros ids lim ?%elem_of_nil]. split; simpl; [|done].
        rewrite lookup_delete_ne; [done|]. eauto.
      * split; [done|]. by intros ids lim ?%elem_of_nil.
    + split; [done|]. by intros ids lim ?%elem_of_nil.
  - injection Hstep as <- <-.
    destruct (forEach_startStream_frame users s) as (_ & Ht & _).
    split; [split|].
    + by rewrite (proj2 (forEach_startStream_registered users s "dummy") He).
    + by rewrite Ht.
    + rewrite (forEach_silent _ startStream users startStream_no_query).
      by intros ids lim ?%elem_of_nil.
  - injection Hstep as <- <-. split; [done|]. by intros ids lim ?%elem_of_nil.
  - injection Hstep as <- <-. split; [split|].
    + by destruct (dataCallback_registry u data s) as [-> _].
    + intros t u' stream [Ht|[u'' Hu'']]%dataCallback_timers Hcb;
        [eauto|congruence].
    + assert (Hq : queries (effects_of (dataCallback u data s)) = []).
      { destruct data as [d|]; [|done]. unfold dataCallback.
        destruct (disconnect d); [js_cases; done|].
        destruct (warning d); [js_cases; done|].
        destruct (truthy (event d)); [js_cases; done|].
        destruct (_ && _); [|done]. apply checkReplyAndBlock_no_query. }
      rewrite Hq. by intros ids lim ?%elem_of_nil.
  - injection Hstep as <- <-.
    assert (Hu : uid u <> "dummy").
    { intros Heq. apply He. rewrite Heq. apply list_elem_of_here. }
    js_unfold. simpl. destruct (statusCode =? 420); simpl.
    + split; [split|]; simpl.
      * by destruct (_ || _).
      * intros t u' stream. destruct (_ || _); simpl;
          (intros [Hin| ->%list_elem_of_singleton]%elem_of_app Hcb;
           [eauto|simpl in Hcb; by injection Hcb as <- _]).
      * destruct (_ || _); simpl; by intros ids lim ?%elem_of_nil.
    + split; [split|]; simpl.
      * destruct (_ || _); simpl; by rewrite lookup_delete_ne.
      * destruct (_ || _); simpl; done.
      * destruct (_ || _); simpl; by intros ids lim ?%elem_of_nil.
  - injection Hstep as <- <-. split; [done|]. by intros ids lim ?%elem_of_nil.
  - injection Hstep as <- <-. split; [done|]. by intros ids lim ?%elem_of_nil.
  - injection Hstep as <- <-.
    destruct res as [code|mentions].
    + split; [done|]. by intros ids lim ?%elem_of_nil.
    + rewrite checkPastMentions_callback_replayed.
      destruct (emit_then (Log debug "Replaying past mentions")
                  (forEach (replayed mentions) (checkReplyAndBlock u)) s)
        as [-> ->].
      destruct (forEach_checkReplyAndBlock_frame u (replayed mentions) s)
        as [-> _].
      split; [done|]. unfold queries. simpl.
      rewrite (forEach_silent _ (checkReplyAndBlock u) (replayed mentions)
                 (checkReplyAndBlock_no_query u) s).
      by intros ids lim ?%elem_of_nil.
  - injection Hstep as <- <-.
    assert (Heq : state_of (reload_success r m age s) = s
                  /\ queries (effects_of (reload_success r m age s)) = [])
      by (js_cases; done).
    destruct Heq as [-> ->]. split; [done|]. by intros ids lim ?%elem_of_nil.
Qed.

(** X18: what the 'dummy' entry is for.  In every run of the event
    loop from the start of the program in which no event is about
    an account whose id is 'dummy', the registry keeps its 'dummy'
    entry, so the list of ids that each query of the sampler leaves
    out contains 'dummy' and is never empty. *)
Theorem dummy_entry_keeps_the_query_well_formed :
  forall t0 evs s1 log,
    exec (boot t0) evs = Some (s1, log) ->
    Forall (fun e => "dummy" ∉ event_uids e) evs ->
    streams s1 !! "dummy" = Some Dummy
    /\ forall ids n, (ids, n) ∈ queries (flat_map calls log) ->
                     "dummy" ∈ ids /\ ids <> [].
Proof.
  intros t0 evs s1 log Hexec Hall.
  assert (Hgen : forall s, dummy_kept s -> exec s evs = Some (s1, log) ->
            dummy_kept s1
            /\ forall ids n, (ids, n) ∈ queries (flat_map calls log) ->
                             "dummy" ∈ ids).
  { clear Hexec. revert log.
    induction evs as [|e evs IH]; intros log s Hs Hexec.
    - injection Hexec as <- <-. split; [done|]. by intros ids lim ?%elem_of_nil.
    - apply exec_cons in Hexec as (s' & out & log' & Hstep & Hexec & ->).
      apply Forall_cons in Hall as [He Hall].
      destruct (dummy_step s e s' out Hs He Hstep) as [Hs' Hq].
      destruct (IH Hall log' s' Hs' Hexec) as [Hs1 Hq'].
      split; [done|]. intros ids lim. cbn [flat_map calls].
      unfold queries. rewrite flat_map_app.
      intros [Hin|Hin]%elem_of_app; eauto. }
  destruct (Hgen (boot t0)) as [[Hd _] Hq]; [|done|].
  - split; [done|]. intros t u stream ->%list_elem_of_singleton. done.
  - split; [done|]. intros ids lim Hin. pose proof (Hq ids lim Hin) as Hd'.
    split; [done|]. intros ->. by apply elem_of_nil in Hd'.
Qed.

(** ** The cooldown, along a run *)

Lemma cooling_step id limit s e s' out :
  cooling id limit s ->
  ends_otherwise id e = false ->
  step s e = Some (s', out) ->
  clock s < limit ->
  limit <= clock s + 15 * 60 * 1000 ->
  cooling id limit s'
  /\ forall ids n, (ids, n) ∈ queries out -> id ∈ ids.
Proof.
  intros [Hentry Hcool] He Hstep Hnow Hlimit.
  assert (Hkeys : id ∈ keys_of_streams (streams s))
    by by apply keys_of_streams_elem.
  destruct e as [t|n|users| |u data|u statusCode|u|u req|u res|r m age];
    simpl in Hstep, He; unfold run in Hstep.
  - destruct (clock s <=? t); [|done]. injection Hstep as <- <-.
    split; [done|]. by intros ids lim ?%elem_of_nil.
  - unfold fire in Hstep.
    destruct (find_timer n (timers s)) as [t|] eqn:Hfind; [|done].
    destruct (Z.leb_spec (due t) (clock s)) as [Hdue|]; [|done].
    injection Hstep as <- <-.
    destruct (find_timer_Some _ _ _ Hfind) as [Hin _].
    assert (Hother : forall u stream,
              callback t = CooldownRemoval u stream -> uid u <> id).
    { intros u stream Hcb Hu. pose proof (Hcool t u stream Hin Hcb Hu). lia. }
    assert (Hkeep : forall t' u stream,
              t' ∈ timers (without_timer n s) ++ rearm (clock s) t ->
              callback t' = CooldownRemoval u stream -> uid u = id ->
              limit <= due t').
    { intros t' u stream [Ht'|Ht']%elem_of_app Hcb Hu.
      - apply timers_without in Ht' as [Ht' _]. eauto.
      - unfold rearm in Ht'.
        destruct (repeat_ms t); [|by apply elem_of_nil in Ht'].
        apply list_elem_of_singleton in Ht' as ->. simpl in Hcb.
        by destruct (Hother u stream Hcb). }
    destruct (callback t) as [|u stream|u] eqn:Hcb; simpl.
    + split; [done|]. intros ids lim Hq.
      apply list_elem_of_singleton in Hq. injection Hq as -> _. exact Hkeys.
    + unfold cooldown_removal, mbind, Js_bind, get_state, state_of, effects_of.
      simpl. destruct (decide _); simpl.
      * split; [|by intros ids lim ?%elem_of_nil]. split; simpl; [|done].
        rewrite lookup_delete_ne; [done|]. eauto.
      * split; [done|]. by intros ids lim ?%elem_of_nil.
    + split; [done|]. by intros ids lim ?%elem_of_nil.
  - injection Hstep as <- <-.
    destruct (forEach_startStream_frame users s) as (_ & Ht & _).
    split; [split|].
    + destruct (forEach_startStream_registered users s id) as [Hin Hout].
      destruct (decide (id ∈ map uid users)) as [Hid|Hid].
      * destruct (Hin Hid) as [req ->]. by eexists.
      * by rewrite (Hout Hid).
    + by rewrite Ht.
    + rewrite (forEach_silent _ startStream users startStream_no_query).
      by intros ids lim ?%elem_of_nil.
  - injection Hstep as <- <-. split; [done|]. by intros ids lim ?%elem_of_nil.
  - injection Hstep as <- <-. split; [split|].
    + by destruct (dataCallback_registry u data s) as [-> _].
    + intros t u' stream [Ht|[u'' Hu'']]%dataCallback_timers Hcb;
        [eauto|congruence].
    + assert (Hq : queries (effects_of (dataCallback u data s)) = []).
      { destruct data as [d|]; [|done]. unfold dataCallback.
        destruct (disconnect d); [js_cases; done|].
        destruct (warning d); [js_cases; done|].
        destruct (truthy (event d)); [js_cases; done|].
        destruct (_ && _); [|done]. apply checkReplyAndBlock_no_query. }
      rewrite Hq. by intros ids lim ?%elem_of_nil.
  - injection Hstep as <- <-.
    js_unfold. simpl. destruct (statusCode =? 420) eqn:Hcode; simpl.
    + split; [split|]; simpl.
      * by destruct (_ || _).
      * intros t u' stream. destruct (_ || _); simpl;
          (intros [Hin| ->%list_elem_of_singleton]%elem_of_app Hcb Hu;
           [eauto|simpl; lia]).
      * destruct (_ || _); simpl; by intros ids lim ?%elem_of_nil.
    + rewrite andb_true_r in He. apply String.eqb_neq in He.
      split; [split|]; simpl.
      * destruct (_ || _); simpl; by rewrite lookup_delete_ne.
      * destruct (_ || _); simpl; done.
      * destruct (_ || _); simpl; by intros ids lim ?%elem_of_nil.
  - injection Hstep as <- <-. split; [done|]. by intros ids lim ?%elem_of_nil.
  - injection Hstep as <- <-. split; [done|]. by intros ids lim ?%elem_of_nil.
  - injection Hstep as <- <-.
    destruct res as [code|mentions].
    + split; [done|]. by intros ids lim ?%elem_of_nil.
    + rewrite checkPastMentions_callback_replayed.
      destruct (emit_then (Log debug "Replaying past mentions")
                  (forEach (replayed mentions) (checkReplyAndBlock u)) s)
        as [-> ->].
      destruct (forEach_checkReplyAndBlock_frame u (replayed mentions) s)
        as [-> _].
      split; [done|]. unfold queries. simpl.
      rewrite (forEach_silent _ (checkReplyAndBlock u) (replayed mentions)
                 (checkReplyAndBlock_no_query u) s).
      by intros ids lim ?%elem_of_nil.
  - injection Hstep as <- <-.
    assert (Heq : state_of (reload_success r m age s) = s
                  /\ queries (effects_of (reload_success r m age s)) = [])
      by (js_cases; done).
    destruct Heq as [-> ->]. split; [done|]. by intros ids lim ?%elem_of_nil.
Qed.

Lemma exec_clock evs : forall s s1 log,
  exec s evs = Some (s1, log) -> clock s <= clock s1.
Proof.
  induction evs as [|e evs IH]; intros s s1 log Hexec.
  - injection Hexec as <- _. lia.
  - apply exec_cons in Hexec as (s' & out & log' & Hstep & Hrest & _).
    apply step_change in Hstep as [Hle _]. apply IH in Hrest. lia.
Qed.

Lemma cooling_exec id limit evs : forall s s1 log,
  cooling id limit s ->
  Forall (fun e => ends_otherwise id e = false) evs ->
  exec s evs = Some (s1, log) ->
  clock s1 < limit ->
  limit <= clock s + 15 * 60 * 1000 ->
  cooling id limit s1
  /\ forall ids n, (ids, n) ∈ queries (flat_map calls log) -> id ∈ ids.
Proof.
  induction evs as [|e evs IH]; intros s s1 log Hc Hev Hexec Hend Hlimit.
  - injection Hexec as <- <-. split; [done|]. by intros ids n ?%elem_of_nil.
  - apply exec_cons in Hexec as (s' & out & log' & Hstep & Hrest & ->).
    apply Forall_cons in Hev as [He Hev].
    pose proof (exec_clock _ _ _ _ Hrest) as Hle'.
    pose proof (proj1 (step_change _ _ _ _ Hstep)) as Hle.
    destruct (cooling_step id limit s e s' out Hc He Hstep) as [Hc' Hq];
      [lia|lia|].
    destruct (IH s' s1 log' Hc' Hev Hrest Hend) as [Hc1 Hq']; [lia|].
    split; [done|]. intros ids n. cbn [flat_map calls]. unfold queries.
    rewrite flat_map_app. intros [Hin|Hin]%elem_of_app; eauto.
Qed.

(** X14: the cooldown along a run.  When a stream of an account that
    has its entry in the registry ends with status 420 and no
    earlier cooldown timer of the account is waiting, then for as
    long as fewer than 15 minutes have passed, whatever the event
    loop does in between (ticks, query results, data, timers, other
    terminations), short of a termination of a stream of the same
    account with another status, the account keeps its entry and
    every query of the sampler leaves it out.  The registry is a JS
    object, which the finite map models for every key but
    '__proto__'. *)
Theorem cooldown_keeps_the_account_out_of_the_sample :
  forall s u evs s1 log,
    uid u <> "__proto__" ->
    is_Some (streams s !! uid u) ->
    (forall t u' stream, t ∈ timers s ->
       callback t = CooldownRemoval u' stream -> uid u' <> uid u) ->
    Forall (fun e => ends_otherwise (uid u) e = false) evs ->
    exec s (StreamEnd u 420 :: evs) = Some (s1, log) ->
    clock s1 < clock s + 15 * 60 * 1000 ->
    is_Some (streams s1 !! uid u)
    /\ forall ids n, (ids, n) ∈ queries (flat_map calls log) -> uid u ∈ ids.
Proof.
  intros s u evs s1 log _ Hentry Hnone Hev Hexec Hend.
  apply exec_cons in Hexec as (s' & out & log' & Hstep & Hrest & ->).
  simpl in Hstep. unfold run in Hstep. injection Hstep as <- <-.
  assert (Hs' : cooling (uid u) (clock s + 15 * 60 * 1000)
                  (state_of (endCallback u 420 s))
                /\ clock (state_of (endCallback u 420 s)) = clock s).
  { js_unfold. simpl. split; [split|]; simpl; try done.
    intros t u' stream [Hin| ->%list_elem_of_singleton]%elem_of_app Hcb Hu.
    - by destruct (Hnone t u' stream Hin Hcb).
    - simpl. lia. }
  destruct Hs' as (Hc & Hclock).
  destruct (cooling_exec (uid u) (clock s + 15 * 60 * 1000) evs _ s1 log'
              Hc Hev Hrest Hend) as [[Hentry1 _] Hq1]; [lia|].
  split; [done|]. intros ids n Hin. cbn [flat_map calls] in Hin.
  unfold queries in Hin. rewrite flat_map_app in Hin. simpl in Hin.
  by apply (Hq1 ids n).
Qed.

(** ** Each notification postpones the reconciliation *)

(** X19: in a reachable state, a block or unblock event on the stream
    of an account (in a message without disconnect or warning
    signal) leaves exactly one debounce timer waiting for the
    account, whatever was waiting before: a new timer, due 2000 ms
    after the event, whose handle is the one recorded for the
    account.  A timer that was waiting for the account is cancelled
    without having called [remoteUpdateBlocks]. *)
Theorem notification_restarts_the_quiet_period :
  forall s u d s' out,
    reachable s ->
    disconnect d = None ->
    warning d = None ->
    event d = Some "block" \/ event d = Some "unblock" ->
    step s (StreamData u (Some d)) = Some (s', out) ->
    pending_debounce (uid u) s'
    = [ {| tid := next_timer s; due := clock s + 2000;
           callback := UpdateBlocks u; repeat_ms := None |} ]
    /\ updateBlocksTimers s' !! uid u = Some (next_timer s)
    /\ (forall t, t ∈ pending_debounce (uid u) s -> t ∉ timers s')
    /\ List.filter (is_reconciliation (uid u)) out = [].
Proof.
  intros s u d s' out Hr Hd Hw Hev Hstep. 
  assert (Heq : s' = state_of (dataCallback u (Some d) s)
                /\ out = effects_of (dataCallback u (Some d) s)).
  { unfold step, run in Hstep. by injection Hstep as <- <-. }
  destruct Heq as [-> ->]. clear Hstep.
  pose proof (reachable_wf _ Hr) as Hwf.
  assert (Htruthy : truthy (event d) = true) by (by destruct Hev as [-> | ->]).
  destruct (dataCallback_event u d s Hd Hw Htruthy) as [-> ->].
  assert (Hnotify : bool_decide (event d = Some "unblock")
                    || bool_decide (event d = Some "block") = true).
  { destruct Hev as [-> | ->]; done. }
  rewrite Hnotify.
  pose proof (handleBlockEvent_pending (uid u) u s Hwf) as Hp.
  rewrite String.eqb_refl in Hp.
  destruct (handleBlockEvent_calls (uid u) u s) as [_ Hc].
  split_and!.
  - done.
  - rewrite handleBlockEvent_state. simpl. apply lookup_insert_eq.
  - intros t Ht Hin.
    destruct (pending_debounce_registered _ _ _ Hwf Ht) as (Hint & Hl & _).
    rewrite handleBlockEvent_state, Hl in Hin. simpl in Hin.
    apply elem_of_app in Hin as [Hin|Hin].
    + apply timers_without in Hin as [_ ?]. done.
    + apply list_elem_of_singleton in Hin. subst t. simpl in *.
      destruct Hwf as (_ & Hlt & _). apply Hlt in Hint. simpl in Hint. lia.
  - rewrite app_comm_cons, List.filter_app, Hc, app_nil_r.
    by destruct (target d).
Qed.


End Stream.

(** * The claims on the sample data *)

(** C1 on alice and the newcomer: three days old, five followers,
    both flags set after the reload. *)
Lemma C1_witness :
  ageInDays sample_Date_parse (clock sample_state) (created_at newcomer)
  = Some (259200000 # 86400000)%Q
  /\ ((259200000 # 86400000) < MIN_AGE)%Q
  /\ followers_count newcomer < MIN_FOLLOWERS
  /\ block_candidates
       (effects_of (evaluate sample_Date_parse alice (Some newcomer)
                      (fun r => Some r) sample_state))
     = [ {| bc_recipient := "1001"; bc_targets := ["2002"];
            bc_cause := NEW_ACCOUNT |} ].
Proof.
  split; [reflexivity|]. split; [reflexivity|]. split; [reflexivity|].
  apply (proj1 (C1_age_takes_priority sample_Date_parse)
           sample_state alice newcomer (259200000 # 86400000)%Q alice
           (fun r => Some r)).
  - reflexivity.
  - reflexivity.
  - reflexivity.
  - vm_compute. right. left. reflexivity.
  - reflexivity.
  - reflexivity.
  - reflexivity.
Defined.

(** C2 on alice, from the start of the program at time 0. *)
Lemma C2_witness :
  exists s1 log,
    exec sample_Date_parse (boot 0)
      [ ClockAdvance 1000; TimerFires 1;
        FindAllSuccess [alice]; FindAllSuccess [alice] ]
    = Some (s1, log)
    /\ reachable sample_Date_parse s1
    /\ live_sessions "1001" log = 2%nat
    /\ streams s1 !! "1001" = Some (Request 2)
    /\ length (sessions_for "1001" s1) = 1%nat.
Proof.
  destruct (proj2 (C2_stacked_queries_open_two_sessions sample_Date_parse)
              0 alice) as (_ & _ & s1 & log & He & Hr & _ & Hl & _ & Hs & Hn).
  - discriminate.
  - discriminate.
  - reflexivity.
  - left. reflexivity.
  - exists s1, log. split_and!; assumption.
Defined.

(** C3 on two mentions of the same sender: one call, with the record
    of the second mention. *)
Lemma C3_witness :
  exists reps : list TwitterUser,
    replayed two_mentions = map Some reps
    /\ NoDup (map id_str reps)
    /\ (forall id, id ∈ map id_str reps
                   <-> id ∈ map id_str (map status_user two_mentions))
    /\ (forall u, u ∈ reps ->
                  last_occurrence (id_str u) (map status_user two_mentions)
                  = Some u).
Proof. apply (C3_replay_each_sender_once_last_record two_mentions). Defined.

(** The claim C3 as it was stated fails on these two mentions: the
    record handed over for sender 2002 is not its first occurrence. *)
Lemma C3_first_occurrence_counterexample :
  replayed two_mentions = [Some newcomer_later]
  /\ first_occurrence (id_str newcomer_later) (map status_user two_mentions)
     = Some newcomer
  /\ newcomer <> newcomer_later.
Proof. split; [reflexivity|]. split; [reflexivity|]. discriminate. Qed.

(** C4 on alice: two sessions, the first ends with 420 at 1000 ms and
    the second ten minutes later; the entry is removed five minutes
    after the second termination. *)
Lemma C4_witness :
  exists s1 log,
    exec sample_Date_parse (boot 0)
      [ ClockAdvance (0 + 1000); TimerFires 1;
        FindAllSuccess [alice]; FindAllSuccess [alice];
        StreamEnd alice 420;
        ClockAdvance (0 + 1000 + 600000);
        StreamEnd alice 420;
        ClockAdvance (0 + 1000 + 15 * 60 * 1000);
        TimerFires 2 ]
    = Some (s1, log)
    /\ ended_at "1001" 420 log = [1000; 601000]
    /\ clock s1 = 901000
    /\ streams s1 !! "1001" = None.
Proof.
  destruct (proj2 (proj2 (C4_second_termination_is_cut_short sample_Date_parse))
              0 alice 600000)
    as (s1 & log & He & _ & Hend & Hc & _ & Hs & _).
  - discriminate.
  - discriminate.
  - lia.
  - exists s1, log. split_and!; assumption.
Defined.

(** C5 on the sample burst: two notifications 1500 ms apart, one call
    of [remoteUpdateBlocks], 2000 ms after the second. *)
Lemma C5_witness :
  exists s1 log,
    exec sample_Date_parse (boot 0) sample_events = Some (s1, log)
    /\ notify_times "1001" log = [0; 1500]
    /\ reconcile_times "1001" log = [3500]
    /\ ((pending_debounce "1001" s1 = []
         /\ exists t, reconcile_times "1001" log = [t] /\ 1500 + 2000 <= t)
        \/ (reconcile_times "1001" log = []
            /\ exists tm, pending_debounce "1001" s1 = [tm]
                          /\ due tm = 1500 + 2000
                          /\ find_timer (tid tm) (timers s1) = Some tm)).
Proof.
  eexists _, _. split; [vm_compute; reflexivity|].
  split; [reflexivity|]. split; [reflexivity|].
  apply (C5_debounce_one_reconciliation sample_Date_parse "1001" (boot 0)
           sample_events).
  - apply reachable_boot.
  - reflexivity.
  - vm_compute. reflexivity.
  - reflexivity.
  - reflexivity.
Defined.

(** C6 on the reshare by the newcomer. *)
Lemma C6_witness :
  truthy (text reshare) = true
  /\ is_Some (user reshare)
  /\ is_Some (retweeted_status reshare)
  /\ reload_requests
       (effects_of (dataCallback sample_Date_parse alice (Some reshare) sample_state))
     = []
  /\ block_candidates
       (effects_of (dataCallback sample_Date_parse alice (Some reshare) sample_state))
     = []
  /\ dataCallback sample_Date_parse alice (Some reshare) sample_state
     = dataCallback sample_Date_parse alice (Some (without_author reshare))
         sample_state.
Proof.
  split; [reflexivity|]. split; [by eexists|]. split; [by eexists|].
  apply (C6_reshare_not_a_mention sample_Date_parse sample_state alice reshare).
  - reflexivity.
  - by eexists.
  - by eexists.
Defined.

(** C7 on the newcomer, three days old, mentioning alice: the reload
    is asked for, and its failure is an uncaught exception. *)
Lemma C7_witness :
  effects_of (checkReplyAndBlock sample_Date_parse alice (Some newcomer)
                sample_state)
  = [ Log info "got at reply from";
      Reload alice newcomer (Some (259200000 # 86400000)%Q) ]
  /\ emit_error (reload_listeners newcomer (Some (259200000 # 86400000)%Q))
                sample_state
     = Uncaught.
Proof.
  destruct (C7_failed_reload_is_uncaught sample_Date_parse sample_state alice
              newcomer) as (He & _ & Hu & _).
  - reflexivity.
  - discriminate.
  - left. eexists. split; reflexivity.
  - split; [exact He | exact (Hu sample_state)].
Defined.

(** C8 on the sample table: alice is selected, and she qualifies. *)
Lemma C8_witness :
  alice ∈ findAll (keys_of_streams (streams sample_state)) 10 sample_table
  /\ alice ∈ sample_table
  /\ streams sample_state !! uid alice = None
  /\ deactivatedAt alice = None
  /\ (block_new_accounts alice = true \/ block_low_followers alice = true).
Proof.
  assert (H : alice ∈ findAll (keys_of_streams (streams sample_state)) 10
                       sample_table).
  { vm_compute. apply list_elem_of_here. }
  split; [exact H|].
  destruct (C8_sampler_selects_eligible_accounts sample_Date_parse)
    as (_ & _ & Hsel).
  destruct (Hsel sample_state sample_table) as (_ & _ & Hall & _).
  exact (Hall alice H).
Defined.

(** C9 on a mention alice sends to herself. *)
Lemma C9_witness :
  effects_of (checkReplyAndBlock sample_Date_parse alice
                (Some {| id_str := "1001"; screen_name := "alice";
                         created_at := Some "Thu Oct 29 00:00:00 +0000 2026";
                         followers_count := 5 |}) sample_state) = []
  /\ reload_requests
       (effects_of (evaluate sample_Date_parse alice
                      (Some {| id_str := "1001"; screen_name := "alice";
                               created_at := Some "Thu Oct 29 00:00:00 +0000 2026";
                               followers_count := 5 |})
                      (fun r => Some r) sample_state)) = []
  /\ block_candidates
       (effects_of (evaluate sample_Date_parse alice
                      (Some {| id_str := "1001"; screen_name := "alice";
                               created_at := Some "Thu Oct 29 00:00:00 +0000 2026";
                               followers_count := 5 |})
                      (fun r => Some r) sample_state)) = []
  /\ state_of (evaluate sample_Date_parse alice
                 (Some {| id_str := "1001"; screen_name := "alice";
                          created_at := Some "Thu Oct 29 00:00:00 +0000 2026";
                          followers_count := 5 |})
                 (fun r => Some r) sample_state) = sample_state.
Proof.
  apply (C9_skipped_mentions sample_Date_parse).
  right. eexists. split; [reflexivity|]. left. reflexivity.
Defined.

(** C10 on a follow event: the target is cached, the
    debouncer is not notified. *)
Lemma C10_witness :
  stored_users
    (effects_of (dataCallback sample_Date_parse alice (Some follow_event)
                   sample_state)) = [veteran]
  /\ (existsb (is_notification (uid alice))
              (effects_of (dataCallback sample_Date_parse alice
                             (Some follow_event) sample_state)) = true
      <-> (event follow_event = Some "block"
           \/ event follow_event = Some "unblock")).
Proof.
  apply (C10_event_target_is_cached sample_Date_parse sample_state alice
           follow_event veteran); reflexivity.
Defined.

(** * The further properties on the sample data *)

(** X1 on the newcomer and alice. *)
Lemma engine_blocks_are_justified_witness :
  exists reloaded,
    Some alice = Some reloaded
    /\ "1001" = uid reloaded
    /\ ["2002"] = [id_str newcomer]
    /\ id_str newcomer <> uid alice
    /\ ((NEW_ACCOUNT = NEW_ACCOUNT
         /\ block_new_accounts reloaded = true
         /\ exists created t,
              created_at newcomer = Some created
              /\ sample_Date_parse created = Some t
              /\ clock sample_state - t < 7 * 86400 * 1000)
        \/ (NEW_ACCOUNT = LOW_FOLLOWERS
            /\ block_low_followers reloaded = true
            /\ followers_count newcomer < 15
            /\ (block_new_accounts reloaded = false
                \/ js_lt (ageInDays sample_Date_parse (clock sample_state)
                            (created_at newcomer)) MIN_AGE = false))).
Proof.
  apply (engine_blocks_are_justified sample_Date_parse sample_state alice
           newcomer (fun r => Some r)
           {| bc_recipient := "1001"; bc_targets := ["2002"];
              bc_cause := NEW_ACCOUNT |}).
  vm_compute. left. reflexivity.
Defined.

(** X2 on the newcomer, who has 100 followers in the later record. *)
Lemma engine_blocks_new_account_witness :
  block_candidates
    (effects_of (evaluate sample_Date_parse alice (Some newcomer_later)
                   (fun r => Some r) sample_state))
  = [ {| bc_recipient := uid alice; bc_targets := [id_str newcomer_later];
         bc_cause := NEW_ACCOUNT |} ].
Proof.
  apply (engine_blocks_new_account sample_Date_parse sample_state alice
           newcomer_later (fun r => Some r) alice
           "Thu Oct 29 00:00:00 +0000 2026" 1793232000000).
  - reflexivity.
  - discriminate.
  - reflexivity.
  - reflexivity.
  - discriminate.
  - reflexivity.
  - reflexivity.
Defined.

(** X3 on the lurker: an account of 2010 with three followers. *)
Lemma engine_blocks_low_followers_witness :
  block_candidates
    (effects_of (evaluate sample_Date_parse alice (Some lurker)
                   (fun r => Some r) sample_state))
  = [ {| bc_recipient := uid alice; bc_targets := [id_str lurker];
         bc_cause := LOW_FOLLOWERS |} ].
Proof.
  apply (engine_blocks_low_followers sample_Date_parse sample_state alice
           lurker (fun r => Some r) alice "Mon Nov 29 00:00:00 +0000 2010").
  - reflexivity.
  - discriminate.
  - reflexivity.
  - discriminate.
  - reflexivity.
  - reflexivity.
  - right. right. exists 1290988800000. split; [reflexivity|].
    vm_compute. discriminate.
Defined.

(** X4 on the veteran: an account of 2010 with 2500 followers. *)
Lemma engine_ignores_established_senders_witness :
  effects_of (evaluate sample_Date_parse alice (Some veteran)
                (fun r => Some r) sample_state)
  = [Log info "got at reply from"]
  /\ state_of (evaluate sample_Date_parse alice (Some veteran)
                 (fun r => Some r) sample_state) = sample_state.
Proof.
  apply (engine_ignores_established_senders sample_Date_parse sample_state
           alice veteran (fun r => Some r) "Mon Nov 29 00:00:00 +0000 2010").
  - reflexivity.
  - discriminate.
  - discriminate.
  - right. exists 1290988800000. split; [reflexivity|].
    vm_compute. discriminate.
  - vm_compute. discriminate.
Defined.


(** X5 on the success of a reload of alice for the newcomer. *)
Lemma blocks_come_from_reloads_only_witness :
  exists recipient m age,
    ReloadSuccess alice newcomer (Some (259200000 # 86400000)%Q)
    = ReloadSuccess recipient m age
    /\ block_candidates
         [Log info "Queuing block";
          QueueActions "1001" ["2002"] BLOCK NEW_ACCOUNT]
       = [ {| bc_recipient := "1001"; bc_targets := ["2002"];
              bc_cause := NEW_ACCOUNT |} ]
    /\ "1001" = uid recipient
    /\ ["2002"] = [id_str m].
Proof.
  apply (blocks_come_from_reloads_only sample_Date_parse sample_state
           (ReloadSuccess alice newcomer (Some (259200000 # 86400000)%Q))
           sample_state
           [Log info "Queuing block";
            QueueActions "1001" ["2002"] BLOCK NEW_ACCOUNT]
           {| bc_recipient := "1001"; bc_targets := ["2002"];
              bc_cause := NEW_ACCOUNT |}).
  - reflexivity.
  - left. reflexivity.
Defined.

(** X6 on a stream of alice that ends with status 401. *)
Lemma credentials_are_verified_exactly_when_witness :
  verified_users
    [Log warn "Ending stream for"; VerifyCredentials alice] = [alice].
Proof.
  apply (proj1 (proj2 (credentials_are_verified_exactly_when sample_Date_parse
                         sample_state (StreamEnd alice 401)
                         (with_streams (delete "1001") sample_state)
                         [Log warn "Ending stream for"; VerifyCredentials alice]
                         eq_refl))
           alice 401 eq_refl).
  left. reflexivity.
Defined.

(** X7 on the end, with status 200, of a stream of alice that was
    registered. *)
Lemma registry_entry_changes_only_when_witness :
  (exists users, StreamEnd alice 200 = FindAllSuccess users
                 /\ "1001" ∈ map uid users)
  \/ (exists u statusCode, StreamEnd alice 200 = StreamEnd u statusCode
                           /\ uid u = "1001" /\ statusCode <> 420)
  \/ (exists id t u stream,
        StreamEnd alice 200 = TimerFires id
        /\ find_timer id (timers (state_of (startStream alice sample_state)))
           = Some t
        /\ callback t = CooldownRemoval u stream
        /\ uid u = "1001").
Proof.
  eapply (registry_entry_changes_only_when sample_Date_parse
            (state_of (startStream alice sample_state)) (StreamEnd alice 200)
            _ _ "1001").
  - reflexivity.
  - vm_compute. discriminate.
Defined.

(** X8 on the state of the program at its start. *)
Lemma started_stream_gets_a_new_request_witness :
  (forall k entry, streams (boot 0) !! k = Some entry ->
     streams (state_of (startStream alice (boot 0))) !! uid alice <> Some entry)
  /\ (forall t u0 stream, t ∈ timers (boot 0) ->
        callback t = CooldownRemoval u0 stream ->
        streams (state_of (startStream alice (boot 0))) !! uid alice <> stream).
Proof.
  apply (started_stream_gets_a_new_request sample_Date_parse (boot 0) alice).
  apply reachable_boot.
Defined.

(** X9: alice's stream is opened and ends with 420; when the cooldown
    fires the registry holds a request created since. *)
Lemma stale_cooldown_spares_newer_session_witness :
  state_of (cooldown_removal alice (Some (Request 1))
              (with_streams (insert "1001" (Request 2)) sample_state))
  = with_streams (insert "1001" (Request 2)) sample_state
  /\ effects_of (cooldown_removal alice (Some (Request 1))
                   (with_streams (insert "1001" (Request 2)) sample_state))
     = [ Log error "Tried to delete stream but it had already been replaced" ].
Proof.
  eapply (stale_cooldown_spares_newer_session sample_Date_parse _
            {| tid := 2; due := 15 * 60 * 1000;
               callback := CooldownRemoval alice (Some (Request 1));
               repeat_ms := None |}
            alice (Some (Request 1)) _ 2).
  - eapply (exec_reachable sample_Date_parse (boot 0)
              [FindAllSuccess [alice]; StreamEnd alice 420]).
    + apply reachable_boot.
    + vm_compute. reflexivity.
  - vm_compute. apply list_elem_of_further, list_elem_of_here.
  - reflexivity.
  - reflexivity.
  - vm_compute. lia.
Defined.

(** X10 on the state of the program at its start. *)
Lemma sampler_stays_armed_witness :
  exists t, List.filter is_sampler (timers (boot 0)) = [t]
            /\ repeat_ms t = Some 1000
            /\ due t <= clock (boot 0) + 1000.
Proof.
  apply (sampler_stays_armed sample_Date_parse (boot 0)). apply reachable_boot.
Defined.

(** X11 on the sample burst: two notifications, one call. *)
Lemma reconciliations_are_bounded_by_notifications_witness :
  exists s1 log,
    exec sample_Date_parse (boot 0) sample_events = Some (s1, log)
    /\ (length (reconcile_times "1001" log)
        <= length (notify_times "1001" log))%nat
    /\ Forall (fun t => exists l, l ∈ notify_times "1001" log /\ l + 2000 <= t)
              (reconcile_times "1001" log).
Proof.
  eexists _, _. split; [vm_compute; reflexivity|].
  eapply (reconciliations_are_bounded_by_notifications sample_Date_parse
            "1001" (boot 0) sample_events).
  - apply reachable_boot.
  - reflexivity.
  - vm_compute. reflexivity.
Defined.

(** X12: a block event on alice's stream, seen from bob's debouncer. *)
Lemma stream_data_leaves_other_debouncers_alone_witness :
  exists s' out,
    step sample_Date_parse (boot 0) (StreamData alice (Some block_event))
    = Some (s', out)
    /\ pending_debounce "1002" s' = pending_debounce "1002" (boot 0)
    /\ updateBlocksTimers s' !! "1002" = updateBlocksTimers (boot 0) !! "1002"
    /\ List.filter (is_notification "1002") out = []
    /\ List.filter (is_reconciliation "1002") out = [].
Proof.
  eexists _, _. split; [vm_compute; reflexivity|].
  apply (stream_data_leaves_other_debouncers_alone sample_Date_parse (boot 0)
           alice (Some block_event)).
  - apply reachable_boot.
  - vm_compute. reflexivity.
  - discriminate.
Defined.


(** X14 on alice: her stream is started at the start of the program
    and ends with 420; bob's stream is started, and a second later
    the sampler sends its query. *)
Lemma cooldown_keeps_the_account_out_of_the_sample_witness :
  exists s1 log,
    exec sample_Date_parse (state_of (startStream alice (boot 0)))
      [ StreamEnd alice 420; FindAllSuccess [bob]; ClockAdvance 1000;
        TimerFires 1 ]
    = Some (s1, log)
    /\ length (queries (flat_map calls log)) = 1%nat
    /\ is_Some (streams s1 !! "1001")
    /\ forall ids n, (ids, n) ∈ queries (flat_map calls log) -> "1001" ∈ ids.
Proof.
  eexists _, _. split; [vm_compute; reflexivity|].
  split; [vm_compute; reflexivity|].
  eapply (cooldown_keeps_the_account_out_of_the_sample sample_Date_parse
            (state_of (startStream alice (boot 0))) alice
            [FindAllSuccess [bob]; ClockAdvance 1000; TimerFires 1]).
  - discriminate.
  - vm_compute. eexists. reflexivity.
  - intros t u' stream Hin Hcb. apply list_elem_of_In in Hin.
    destruct Hin as [<-|[]]. discriminate Hcb.
  - repeat constructor.
  - vm_compute. reflexivity.
  - vm_compute. reflexivity.
Defined.

(** X15 on alice, when one of her two connections ends with 200. *)
Lemma duplicate_start_loses_track_of_a_connection_witness :
  exists s1 log,
    exec sample_Date_parse sample_state
      [FindAllSuccess [alice]; FindAllSuccess [alice]; StreamEnd alice 200]
    = Some (s1, log)
    /\ opened_streams (flat_map calls log) = [alice; alice]
    /\ (forall e, In e (flat_map calls log) -> forall req, e <> ReqAbort req)
    /\ streams s1 !! uid alice = None
    /\ next_req s1 = S (S (next_req sample_state)).
Proof.
  apply (duplicate_start_loses_track_of_a_connection sample_Date_parse
           sample_state alice 200).
  lia.
Defined.

(** X17 on a timeline with large sender ids. *)
Lemma replay_follows_first_appearance_witness :
  replayed recent_mentions = [Some recent_sender_later; Some other_sender]
  /\ replayed recent_mentions
     = map (fun k => last_occurrence k (map status_user recent_mentions))
           (first_seen (map id_str (map status_user recent_mentions))).
Proof.
  split; [reflexivity|].
  apply (replay_follows_first_appearance recent_mentions).
  intros m Hm.
  repeat (apply elem_of_cons in Hm as [-> | Hm]; [reflexivity|]).
  by apply elem_of_nil in Hm.
Defined.

(** X18 on the sample burst. *)
Lemma dummy_entry_keeps_the_query_well_formed_witness :
  exists s1 log,
    exec sample_Date_parse (boot 0) sample_events = Some (s1, log)
    /\ streams s1 !! "dummy" = Some Dummy
    /\ forall ids n, (ids, n) ∈ queries (flat_map calls log) ->
                     "dummy" ∈ ids /\ ids <> [].
Proof.
  eexists _, _. split; [vm_compute; reflexivity|].
  match goal with
  | |- streams ?s !! _ = _ /\ (forall ids n, _ ∈ queries (flat_map calls ?l) -> _) =>
      apply (dummy_entry_keeps_the_query_well_formed sample_Date_parse 0
               sample_events s l)
  end.
  - vm_compute. reflexivity.
  - repeat apply List.Forall_cons; try apply List.Forall_nil; simpl;
      intros H; apply list_elem_of_In in H; simpl in H; intuition discriminate.
Defined.

(** X19 on a block event on alice's stream at the start. *)
Lemma notification_restarts_the_quiet_period_witness :
  exists s' out,
    step sample_Date_parse (boot 0) (StreamData alice (Some block_event))
    = Some (s', out)
    /\ pending_debounce (uid alice) s'
       = [ {| tid := next_timer (boot 0); due := clock (boot 0) + 2000;
              callback := UpdateBlocks alice; repeat_ms := None |} ]
    /\ updateBlocksTimers s' !! uid alice = Some (next_timer (boot 0))
    /\ (forall t, t ∈ pending_debounce (uid alice) (boot 0) -> t ∉ timers s')
    /\ List.filter (is_reconciliation (uid alice)) out = [].
Proof.
  eexists _, _. split; [vm_compute; reflexivity|].
  apply (notification_restarts_the_quiet_period sample_Date_parse (boot 0)
           alice block_event).
  - apply reachable_boot.
  - reflexivity.
  - reflexivity.
  - left. reflexivity.
  - vm_compute. reflexivity.
Defined.

(** X16 on the replay of the timeline with large sender ids for
    alice: one reload per sender. *)
Lemma replay_reloads_each_sender_at_most_once_witness :
  reload_requests
    (effects_of (checkPastMentions_callback sample_Date_parse alice
                   (TimelineOk recent_mentions) sample_state))
  = [ (alice, recent_sender_later, Some (259200000 # 86400000)%Q);
      (alice, other_sender, Some (502502400000 # 86400000)%Q) ]
  /\ NoDup (map (fun q => id_str q.1.2)
              (reload_requests
                 (effects_of (checkPastMentions_callback sample_Date_parse alice
                                (TimelineOk recent_mentions) sample_state)))).
Proof.
  split; [reflexivity|].
  apply (replay_reloads_each_sender_at_most_once sample_Date_parse alice
           recent_mentions sample_state).
Defined.
